(** * The scanning engine of ricktrader-web

    A shallow embedding of the signal generator
    ([app/services/scanner/signal_generator.py]), of the two scanners
    ([auto_scanner.py], [iqoption_scanner.py]), of the broker client's login
    ([iqoption_client.py]) and of the session registry
    ([app/services/iqoption/session_manager.py]), with the properties the
    specification states about them. *)

From Stdlib Require Import ZArith QArith Qcanon Ascii String Lia.
From stdpp Require Import base numbers option list strings pretty gmap.

Local Open Scope Z_scope.

(** ** Python values used by the engine *)

Module Py.

(** Exceptions.  Only the class matters to the callers modelled here. *)
Inductive exn :=
| IndexError
| TypeError
| RuntimeError (msg : string)
| TransportError (msg : string).

(** A computation that returns or raises. *)
Inductive res (A : Type) :=
| Ok (a : A)
| Raise (e : exn).
Arguments Ok {A} a.
Arguments Raise {A} e.

Definition bind {A B} (m : res A) (k : A -> res B) : res B :=
  match m with
  | Ok a => k a
  | Raise e => Raise e
  end.

Definition of_option {A} (o : option A) (e : exn) : res A :=
  match o with
  | Some a => Ok a
  | None => Raise e
  end.

(** A [float]: not-a-number, or the rational it stands for.  The engine only
    compares such values; a comparison with [nan] is false. *)
Inductive float :=
| nan
| num (q : Qc).

Definition flt_lt (x y : float) : bool :=
  match x, y with
  | num a, num b => bool_decide (a < b)%Qc
  | _, _ => false
  end.

Definition flt_gt (x y : float) : bool := flt_lt y x.

Definition flt_ge (x y : float) : bool :=
  match x, y with
  | num a, num b => bool_decide (b <= a)%Qc
  | _, _ => false
  end.

Definition of_Z (z : Z) : float := num (Q2Qc (inject_Z z)).

(** [seq[-k]] for [k >= 1]. *)
Definition iloc_neg {A} (l : list A) (k : nat) : option A :=
  rev l !! (k - 1)%nat.

(** [seq[:n]]: a negative [n] counts from the end. *)
Definition slice_to {A} (l : list A) (n : Z) : list A :=
  if decide (n < 0)
  then take (Z.to_nat (Z.of_nat (length l) + n)) l
  else take (Z.to_nat n) l.

(** [str.upper] and [str.capitalize] on ASCII text. *)
Definition upper_ascii (c : ascii) : ascii :=
  let n := nat_of_ascii c in
  if decide (97 <= n <= 122)%nat then ascii_of_nat (n - 32) else c.

Definition lower_ascii (c : ascii) : ascii :=
  let n := nat_of_ascii c in
  if decide (65 <= n <= 90)%nat then ascii_of_nat (n + 32) else c.

Fixpoint upper (s : string) : string :=
  match s with
  | EmptyString => EmptyString
  | String c rest => String (upper_ascii c) (upper rest)
  end.

Fixpoint lower (s : string) : string :=
  match s with
  | EmptyString => EmptyString
  | String c rest => String (lower_ascii c) (lower rest)
  end.

Definition capitalize (s : string) : string :=
  match s with
  | EmptyString => EmptyString
  | String c rest => String (upper_ascii c) (lower rest)
  end.

(** A naive [datetime], as microseconds since a fixed origin, and
    [timedelta]s in the same unit. *)
Definition datetime := Z.

Definition seconds (n : Z) : Z := n * 1000000.
Definition minutes (n : Z) : Z := n * 60000000.

(** [dt.replace(second=0, microsecond=0)]: the start of [dt]'s minute. *)
Definition replace_second0_microsecond0 (dt : datetime) : datetime :=
  dt - dt mod minutes 1.

End Py.

Global Instance res_ret : MRet Py.res := @Py.Ok.
Global Instance res_bind : MBind Py.res := fun A B k m => Py.bind m k.

Global Instance float_eq_dec : EqDecision Py.float.
Proof. solve_decision. Defined.

(** ** The data model ([app/models/schemas.py]) *)

Inductive Mode := manual | auto.
Inductive Sensitivity := conservative | moderate | aggressive.
Inductive PatternType :=
| pin_bar | engulfing_bullish | engulfing_bearish | inside_bar | doji
| bos_bullish | bos_bearish.
Inductive LevelType := support | resistance.
Inductive Direction := CALL | PUT.
Inductive Trend := bullish | bearish | neutral.

Global Instance Mode_eq_dec : EqDecision Mode.
Proof. solve_decision. Defined.
Global Instance Sensitivity_eq_dec : EqDecision Sensitivity.
Proof. solve_decision. Defined.
Global Instance PatternType_eq_dec : EqDecision PatternType.
Proof. solve_decision. Defined.
Global Instance LevelType_eq_dec : EqDecision LevelType.
Proof. solve_decision. Defined.
Global Instance Direction_eq_dec : EqDecision Direction.
Proof. solve_decision. Defined.
Global Instance Trend_eq_dec : EqDecision Trend.
Proof. solve_decision. Defined.

Definition LevelType_str (t : LevelType) : string :=
  match t with support => "support" | resistance => "resistance" end.

Definition Trend_str (t : Trend) : string :=
  match t with
  | bullish => "bullish" | bearish => "bearish" | neutral => "neutral"
  end.

Module ScanConfig.
Record t := mk {
  mode : Mode;
  symbols : option (list string);
  timeframe : Z;
  sensitivity : Sensitivity;
  use_volume_filter : bool;
  use_volatility_filter : bool;
  use_trend_filter : bool;
  only_otc : bool;
  only_open_market : bool
}.
End ScanConfig.

Module PriceActionPattern.
Record t := mk {
  pattern_type : PatternType;
  description : string;
  candle_index : Z
}.
Global Instance eq_dec : EqDecision t.
Proof. solve_decision. Defined.
End PriceActionPattern.

Module SupportResistanceLevel.
Record t := mk {
  level : Qc;
  type : LevelType;
  strength : Z;
  touches : Z
}.
Global Instance eq_dec : EqDecision t.
Proof. solve_decision. Defined.

(** [strength: int = Field(ge=1, le=5)]: the constructor raises outside
    this range, so every level object satisfies it. *)
Definition valid (l : t) : Prop := 1 <= strength l <= 5.
End SupportResistanceLevel.

Module TradingSignal.
Record t := mk {
  signal_id : string;
  timestamp : Py.datetime;
  symbol : string;
  timeframe : Z;
  direction : Direction;
  entry_price : Qc;
  entry_time : option Py.datetime;
  expiry_time : option Py.datetime;
  pattern : PriceActionPattern.t;
  support_resistance : option SupportResistanceLevel.t;
  confluences : list string;
  confidence : Z;
  expiry_minutes : Z
}.
Global Instance eq_dec : EqDecision t.
Proof. solve_decision. Defined.
End TradingSignal.

(** One row of the candle [DataFrame]: its index label and the OHLCV
    columns.  The label is a time when the frame is indexed by time, and
    the position 0, 1, ... of the row when the frame comes from
    [pd.DataFrame(list of dicts)].  Prices are the rationals the floats
    stand for. *)
Module Candle.
Inductive label :=
| Timestamp (t : Py.datetime)
| Position (i : Z).

Record t := mk {
  name : label;
  open : Qc;
  high : Qc;
  low : Qc;
  close : Qc;
  volume : Qc
}.
End Candle.

Definition DataFrame := list Candle.t.

(** ** Collaborators of the signal generator

    The pattern detector, the support/resistance detector and the indicator
    library compute on floating-point series through pandas and numpy.  The
    generator uses them as objects it holds; here they are records of the
    methods it calls, so that every statement below holds for whatever these
    methods compute. *)

Module PriceActionDetector.
Record t := mk {
  detect_patterns : DataFrame -> list PriceActionPattern.t
}.

(** The detectors of single patterns, which compute on floats: what each
    finds at a row of the frame, and what the break-of-structure detector
    finds in the frame. *)
Record detectors := mk_detectors {
  _detect_pin_bar : DataFrame -> nat -> option PriceActionPattern.t;
  _detect_engulfing : DataFrame -> nat -> option PriceActionPattern.t;
  _detect_inside_bar : DataFrame -> nat -> option PriceActionPattern.t;
  _detect_doji : DataFrame -> nat -> option PriceActionPattern.t;
  _detect_break_of_structure : DataFrame -> option PriceActionPattern.t
}.

(** Lines 67-89 of [detect_patterns]: one turn of the loop over the last
    three rows. *)
Definition patterns_at (d : detectors) (df : DataFrame) (i : nat)
    : list PriceActionPattern.t :=
  if bool_decide (i < 1)%nat then []
  else
    option_list (_detect_pin_bar d df i)
    ++ option_list (_detect_engulfing d df i)
    ++ option_list (_detect_inside_bar d df i)
    ++ option_list (_detect_doji d df i).

(** [detect_patterns], over the five detectors. *)
Definition detect_patterns_with (d : detectors) (df : DataFrame)
    : list PriceActionPattern.t :=
  if bool_decide (length df < 3)%nat then []
  else
    let patterns := flat_map (patterns_at d df) (seq (length df - 3) 3) in
    if bool_decide (5 <= length df)%nat
    then patterns ++ option_list (_detect_break_of_structure d df)
    else patterns.

(** The detector object that runs these detectors. *)
Definition of_detectors (d : detectors) : t := mk (detect_patterns_with d).
End PriceActionDetector.

Module SupportResistanceDetector.
Record t := mk {
  detect_levels : DataFrame -> list SupportResistanceLevel.t;
  (** the float test [abs(price - level.level) / price <= tolerance] of
      [is_near_level], at its default [tolerance = 0.001] *)
  within_tolerance : Qc -> SupportResistanceLevel.t -> bool
}.

(** [is_near_level]: the first level within tolerance, [(False, None)] when
    there is none. *)
Fixpoint is_near_level (self : t) (price : Qc)
    (levels : list SupportResistanceLevel.t)
    : bool * option SupportResistanceLevel.t :=
  match levels with
  | [] => (false, None)
  | level :: rest =>
      if within_tolerance self price level then (true, Some level)
      else is_near_level self price rest
  end.

(** Lines 82-93 of [_find_pivot_points]: what the row at position [i]
    adds, a pivot high before a pivot low.  The five rows exist for every
    [i] of the loop. *)
Definition pivots_at (df : DataFrame) (i : nat) : list (Qc * LevelType) :=
  match df !! (i - 2)%nat, df !! (i - 1)%nat, df !! i,
        df !! (i + 1)%nat, df !! (i + 2)%nat with
  | Some before2, Some before1, Some row, Some after1, Some after2 =>
      (if bool_decide (Candle.high before1 < Candle.high row)%Qc
          && bool_decide (Candle.high before2 < Candle.high row)%Qc
          && bool_decide (Candle.high after1 < Candle.high row)%Qc
          && bool_decide (Candle.high after2 < Candle.high row)%Qc
       then [(Candle.high row, resistance)] else [])
      ++ (if bool_decide (Candle.low row < Candle.low before1)%Qc
             && bool_decide (Candle.low row < Candle.low before2)%Qc
             && bool_decide (Candle.low row < Candle.low after1)%Qc
             && bool_decide (Candle.low row < Candle.low after2)%Qc
          then [(Candle.low row, support)] else [])
  | _, _, _, _, _ => []
  end.

(** [_find_pivot_points]: [range(2, len(df) - 2)] is empty for fewer than
    five rows. *)
Definition _find_pivot_points (df : DataFrame) : list (Qc * LevelType) :=
  flat_map (pivots_at df) (seq 2 (length df - 4)).

(** The row at position [i] is a pivot high: its high is above the highs
    of the two rows on either side. *)
Definition pivot_high (df : DataFrame) (i : nat) : Prop :=
  exists row,
    df !! i = Some row
    /\ (2 <= i)%nat
    /\ forall k other,
         (k = i - 2 \/ k = i - 1 \/ k = i + 1 \/ k = i + 2)%nat ->
         df !! k = Some other ->
         (Candle.high other < Candle.high row)%Qc.

Definition pivot_low (df : DataFrame) (i : nat) : Prop :=
  exists row,
    df !! i = Some row
    /\ (2 <= i)%nat
    /\ forall k other,
         (k = i - 2 \/ k = i - 1 \/ k = i + 1 \/ k = i + 2)%nat ->
         df !! k = Some other ->
         (Candle.low row < Candle.low other)%Qc.
End SupportResistanceDetector.

Module TechnicalIndicators.
Record t := mk {
  calculate_rsi : DataFrame -> list Py.float;
  calculate_macd : DataFrame -> list Py.float * list Py.float * list Py.float;
  detect_trend : DataFrame -> Trend;
  (** [is_high_volatility(df, threshold=2.0)], the only call made *)
  is_high_volatility : DataFrame -> bool;
  is_volume_increasing : DataFrame -> bool
}.
End TechnicalIndicators.

(** ** The signal generator ([signal_generator.py]) *)

Module SignalGenerator.

Record t := mk {
  config : ScanConfig.t;
  pattern_detector : PriceActionDetector.t;
  sr_detector : SupportResistanceDetector.t;
  indicators : TechnicalIndicators.t;
  (** the format specs [:.5f] and [:.1f] of the confluence texts *)
  format_5f : Qc -> string;
  format_1f : Py.float -> string
}.

Definition is_aggressive (self : t) : bool :=
  bool_decide (ScanConfig.sensitivity (config self) = aggressive).

(** Lines 64-68: the last known candle is repeated, one minute later, until
    the frame has [min_candles] rows.  The first turn of the loop computes
    [last_row.name + pd.Timedelta(minutes=1)], which raises [TypeError]
    when the label of the last row is not a time. *)
Definition pad (df : DataFrame) (min_candles : nat) : Py.res DataFrame :=
  match last df with
  | None => Py.Ok df
  | Some last_row =>
      if bool_decide (min_candles <= length df)%nat then Py.Ok df
      else
        match Candle.name last_row with
        | Candle.Timestamp name =>
            let new_row :=
              Candle.mk (Candle.Timestamp (name + Py.minutes 1))
                (Candle.open last_row) (Candle.high last_row)
                (Candle.low last_row) (Candle.close last_row)
                (Candle.volume last_row) in
            Py.Ok (df ++ replicate (min_candles - length df) new_row)
        | Candle.Position _ => Py.Raise Py.TypeError
        end
  end.

(** Lines 57-68: [Ok None] stands for [return None]. *)
Definition prepare (self : t) (df : DataFrame)
    : Py.res (option DataFrame) :=
  let min_candles := if is_aggressive self then 5%nat else 50%nat in
  if bool_decide (length df < min_candles)%nat then
    if negb (is_aggressive self) then mret None
    else if bool_decide (length df = 0%nat) then mret None
    else
      df ← pad df min_candles;
      mret (Some df)
  else mret (Some df).

(** Lines 70-83. *)
Definition select_patterns (self : t) (df : DataFrame)
    : Py.res (option (list PriceActionPattern.t)) :=
  let patterns :=
    PriceActionDetector.detect_patterns (pattern_detector self) df in
  if bool_decide (patterns = []) && is_aggressive self then
    last_row ← Py.of_option (last df) Py.IndexError;
    let last_close := Candle.close last_row in
    let last_open := Candle.open last_row in
    let pattern_type :=
      if bool_decide (last_open <= last_close)%Qc
      then bos_bullish else bos_bearish in
    let pattern :=
      PriceActionPattern.mk pattern_type "Momentum imediato detectado"
        (Z.of_nat (length df) - 1) in
    mret (Some [pattern])
  else if bool_decide (patterns = []) then mret None
  else mret (Some patterns).

Definition _determine_direction (self : t)
    (pattern : PriceActionPattern.t)
    (sr_level : option SupportResistanceLevel.t) (df : DataFrame)
    : option Direction :=
  let pattern_type := PriceActionPattern.pattern_type pattern in
  if bool_decide (pattern_type ∈ [pin_bar; engulfing_bullish; bos_bullish])
  then Some CALL
  else if bool_decide (pattern_type ∈ [engulfing_bearish; bos_bearish])
  then Some PUT
  else if bool_decide (pattern_type = doji) then
    let rsi := TechnicalIndicators.calculate_rsi (indicators self) df in
    match last rsi with
    | Some rsi_value =>
        if Py.flt_lt rsi_value (Py.of_Z 50) then Some CALL else Some PUT
    | None => Some CALL
    end
  else if bool_decide (pattern_type = inside_bar) then
    let trend := TechnicalIndicators.detect_trend (indicators self) df in
    if bool_decide (trend = bearish) then Some PUT else Some CALL
  else Some CALL.

(** Lines 99-102, applied to what [_determine_direction] returned: the
    aggressive fallback on the last two closes; [Ok None] stands for
    [return None]. *)
Definition direction_fallback (self : t) (df : DataFrame)
    (direction : option Direction) : Py.res (option Direction) :=
  match direction with
  | Some d => mret (Some d)
  | None =>
      if is_aggressive self then
        c1 ← Py.of_option (Py.iloc_neg df 1) Py.IndexError;
        c2 ← Py.of_option (Py.iloc_neg df 2) Py.IndexError;
        mret (Some (if bool_decide (Candle.close c2 <= Candle.close c1)%Qc
                    then CALL else PUT))
      else mret None
  end.

Definition _apply_filters (self : t) (df : DataFrame)
    (direction : Direction) : bool :=
  let ind := indicators self in
  if is_aggressive self then true
  else if ScanConfig.use_volume_filter (config self)
          && negb (TechnicalIndicators.is_volume_increasing ind df)
  then false
  else if ScanConfig.use_volatility_filter (config self)
          && TechnicalIndicators.is_high_volatility ind df
  then false
  else if ScanConfig.use_trend_filter (config self) then
    let trend := TechnicalIndicators.detect_trend ind df in
    if bool_decide (direction = CALL) && bool_decide (trend = bearish)
    then false
    else if bool_decide (direction = PUT) && bool_decide (trend = bullish)
    then false
    else true
  else true.

Definition _calculate_confluences (self : t)
    (pattern : PriceActionPattern.t)
    (sr_level : option SupportResistanceLevel.t) (df : DataFrame)
    (direction : Direction) : list string :=
  let ind := indicators self in
  let confluences := [] in
  let confluences :=
    confluences ++ ["Padro: " +:+ PriceActionPattern.description pattern] in
  let confluences :=
    match sr_level with
    | Some l =>
        confluences ++
        [Py.capitalize (LevelType_str (SupportResistanceLevel.type l))
         +:+ " em " +:+ format_5f self (SupportResistanceLevel.level l)
         +:+ " (Fora: " +:+ pretty (SupportResistanceLevel.strength l)
         +:+ "/5)"]
    | None => confluences
    end in
  let trend := TechnicalIndicators.detect_trend ind df in
  let confluences :=
    if (bool_decide (direction = CALL) && bool_decide (trend = bullish))
       || (bool_decide (direction = PUT) && bool_decide (trend = bearish))
    then confluences ++ ["Tendncia " +:+ Trend_str trend +:+ " favorvel"]
    else confluences in
  let confluences :=
    if TechnicalIndicators.is_volume_increasing ind df
    then confluences ++ ["Volume crescente confirmando movimento"]
    else confluences in
  let rsi := TechnicalIndicators.calculate_rsi ind df in
  let confluences :=
    match last rsi with
    | Some rsi_value =>
        if bool_decide (direction = CALL)
           && Py.flt_lt rsi_value (Py.of_Z 40)
        then confluences ++
             ["RSI em sobrevenda (" +:+ format_1f self rsi_value +:+ ")"]
        else if bool_decide (direction = PUT)
                && Py.flt_gt rsi_value (Py.of_Z 60)
        then confluences ++
             ["RSI em sobrecompra (" +:+ format_1f self rsi_value +:+ ")"]
        else confluences
    | None => confluences
    end in
  let '(macd_line, signal_line, _) :=
    TechnicalIndicators.calculate_macd ind df in
  if bool_decide (1 < length macd_line)%nat
     && bool_decide (1 < length signal_line)%nat then
    match last macd_line, last signal_line with
    | Some m, Some s =>
        if bool_decide (direction = CALL) && Py.flt_gt m s
        then confluences ++ ["MACD bullish"]
        else if bool_decide (direction = PUT) && Py.flt_lt m s
        then confluences ++ ["MACD bearish"]
        else confluences
    | _, _ => confluences
    end
  else confluences.

(** The confidence is a float that only ever holds small whole numbers
    (50.0 plus integers), on which float arithmetic is exact: an integer
    here. *)
Definition _calculate_confidence (self : t) (confluences : list string)
    (pattern : PriceActionPattern.t)
    (sr_level : option SupportResistanceLevel.t) : Z :=
  let pattern_type := PriceActionPattern.pattern_type pattern in
  let confidence := 50 in
  let confidence := confidence + Z.of_nat (length confluences) * 5 in
  let confidence :=
    if bool_decide (pattern_type ∈ [engulfing_bullish; engulfing_bearish])
    then confidence + 15
    else if bool_decide (pattern_type ∈ [bos_bullish; bos_bearish])
    then confidence + 10
    else confidence in
  let confidence :=
    match sr_level with
    | Some l => confidence + SupportResistanceLevel.strength l * 3
    | None => confidence
    end in
  let confidence :=
    if is_aggressive self then Z.max confidence 55 else confidence in
  Z.min confidence 95.

(** Lines 113-116: a generic reason when there is none, and the note of
    the aggressive mode. *)
Definition final_confluences (self : t) (confluences : list string)
    : list string :=
  let confluences :=
    if bool_decide (confluences = [])
    then confluences ++ ["Momentum imediato favoravel"]
    else confluences in
  if is_aggressive self
  then confluences ++ ["Modo agressivo habilitado"]
  else confluences.

(** [generate_signal]; [now] is what [datetime.now()] returns and [uuid4]
    the fresh identifier.  [Ok None] stands for [return None]. *)
Definition generate_signal (self : t) (symbol : string) (df : DataFrame)
    (now : Py.datetime) (uuid4 : string)
    : Py.res (option TradingSignal.t) :=
  prepared ← prepare self df;
  match prepared with
  | None => mret None
  | Some df =>
    patterns ← select_patterns self df;
    match patterns with
    | None => mret None
    | Some patterns =>
      pattern ← Py.of_option (last patterns) Py.IndexError;
      let sr_levels :=
        SupportResistanceDetector.detect_levels (sr_detector self) df in
      last_row ← Py.of_option (last df) Py.IndexError;
      let current_price := Candle.close last_row in
      let '(is_near, sr_level) :=
        SupportResistanceDetector.is_near_level (sr_detector self)
          current_price sr_levels in
      direction ←
        direction_fallback self df
          (_determine_direction self pattern sr_level df);
      match direction with
      | None => mret None
      | Some direction =>
        let filters_ok := _apply_filters self df direction in
        if negb filters_ok && negb (is_aggressive self) then mret None
        else
          let confluences :=
            _calculate_confluences self pattern sr_level df direction in
          let confluences := final_confluences self confluences in
          let confidence :=
            _calculate_confidence self confluences pattern sr_level in
          let next_minute :=
            Py.replace_second0_microsecond0 (now + Py.minutes 1) in
          let entry_buffer := if is_aggressive self then 1 else 0 in
          let entry_time := next_minute + Py.minutes entry_buffer in
          let expiry_minutes :=
            Z.max (ScanConfig.timeframe (config self)) 2 in
          let expiry_time := entry_time + Py.minutes expiry_minutes in
          mret (Some (TradingSignal.mk
            uuid4 now symbol (ScanConfig.timeframe (config self))
            direction current_price (Some entry_time) (Some expiry_time)
            pattern
            (match sr_level with
             | Some l => if is_near then Some l else None
             | None => None
             end)
            confluences confidence expiry_minutes))
      end
    end
  end.

End SignalGenerator.

(** ** Instruments

    The dictionaries returned by a client's [get_available_pairs]. *)

Module TradingPair.
Record t := mk {
  symbol : string;
  name : string;
  is_otc : bool;
  is_active : bool;
  type : string
}.
Global Instance eq_dec : EqDecision t.
Proof. solve_decision. Defined.
End TradingPair.

(** ** The automatic scanner ([auto_scanner.py]) *)

Module AutoScanner.

Record t := mk {
  config : ScanConfig.t;
  signal_generator : SignalGenerator.t;
  is_running : bool;
  latest_signals : gmap string TradingSignal.t;
  signal_history : list TradingSignal.t;
  signal_index : gmap string TradingSignal.t
}.

(** [__init__]; the generator is the one built from the scanner's
    configuration. *)
Definition init (signal_generator : SignalGenerator.t) : t :=
  mk (SignalGenerator.config signal_generator) signal_generator false
     ∅ [] ∅.

Definition with_stores (self : t)
    (latest : gmap string TradingSignal.t)
    (history : list TradingSignal.t)
    (index : gmap string TradingSignal.t) : t :=
  mk (config self) (signal_generator self) (is_running self)
     latest history index.

(** Lines 69-76 of [start_scanning]: what the loop does with one new
    signal.  [dict.pop(k, None)] is [delete]; [==] on signals compares all
    fields. *)
Definition accept (self : t) (signal : TradingSignal.t) : t :=
  let latest :=
    <[TradingSignal.symbol signal := signal]> (latest_signals self) in
  let history := signal_history self ++ [signal] in
  let index :=
    <[TradingSignal.signal_id signal := signal]> (signal_index self) in
  if bool_decide (200 < length history)%nat then
    match history with
    | oldest :: history =>
        let index := delete (TradingSignal.signal_id oldest) index in
        let latest :=
          if bool_decide
               (latest !! TradingSignal.symbol oldest = Some oldest)
          then delete (TradingSignal.symbol oldest) latest
          else latest in
        with_stores self latest history index
    | [] => with_stores self latest history index
    end
  else with_stores self latest history index.

(** Lines 66-76: the [for signal in new_signals] loop, and so any number
    of scan cycles one after the other. *)
Definition accept_all (self : t) (new_signals : list TradingSignal.t) : t :=
  foldl accept self new_signals.

(** The two maps only hold signals that are in the history, under their
    own id and symbol. *)
Definition consistent (self : t) : Prop :=
  (forall id s,
     signal_index self !! id = Some s ->
     s ∈ signal_history self /\ TradingSignal.signal_id s = id)
  /\ (forall sym s,
        latest_signals self !! sym = Some s ->
        s ∈ signal_history self /\ TradingSignal.symbol s = sym).

(** [_get_pairs_to_scan]; [get_available_pairs] is the client's method,
    with its [include_otc] argument.  [ScanConfig] has no attribute
    [MAX_CONCURRENT_PAIRS], so [max_pairs] stays 30. *)
Definition _get_pairs_to_scan (self : t)
    (get_available_pairs : bool -> list TradingPair.t)
    : list TradingPair.t :=
  let cfg := config self in
  match ScanConfig.mode cfg, ScanConfig.symbols cfg with
  | manual, Some (sym :: syms) =>
      let all_pairs := get_available_pairs true in
      filter (fun p => TradingPair.symbol p ∈ sym :: syms) all_pairs
  | _, _ =>
      let include_otc_flag := negb (ScanConfig.only_open_market cfg) in
      let pairs := get_available_pairs include_otc_flag in
      let pairs :=
        if ScanConfig.only_otc cfg
        then filter (fun p => TradingPair.is_otc p = true) pairs
        else if ScanConfig.only_open_market cfg
        then filter (fun p => TradingPair.is_otc p = false) pairs
        else pairs in
      let max_pairs := 30 in
      Py.slice_to pairs max_pairs
  end.

(** [_scan_pair], given what [client.get_candles] did ([data]): any
    exception inside the method makes it return [None]. *)
Definition _scan_pair (self : t) (pair : TradingPair.t)
    (data : Py.res (option DataFrame)) (now : Py.datetime)
    (uuid4 : string) : option TradingSignal.t :=
  let symbol := TradingPair.symbol pair in
  let min_needed :=
    if bool_decide (ScanConfig.sensitivity (config self) = aggressive)
    then 20%nat else 30%nat in
  match data with
  | Py.Raise _ => None
  | Py.Ok None => None
  | Py.Ok (Some df) =>
      if bool_decide (length df < min_needed)%nat then None
      else
        match SignalGenerator.generate_signal (signal_generator self)
                symbol df now uuid4 with
        | Py.Raise _ => None
        | Py.Ok None => None
        | Py.Ok (Some signal) =>
            match latest_signals self !! symbol with
            | Some prev_signal =>
                (** [total_seconds()] of a difference in microseconds: it
                    is below 15 exactly when the difference is below
                    15 000 000 microseconds *)
                let time_diff :=
                  TradingSignal.timestamp signal
                  - TradingSignal.timestamp prev_signal in
                if bool_decide (time_diff < Py.seconds 15)
                   && bool_decide (TradingSignal.direction signal
                                   = TradingSignal.direction prev_signal)
                then None
                else Some signal
            | None => Some signal
            end
        end
  end.

(** [get_latest_signals]: the result, and the scanner as the call leaves
    it. *)
Definition get_latest_signals (self : t) (limit : Z)
    (min_confidence : Py.float) : list TradingSignal.t * t :=
  let signals :=
    filter (fun s => Py.flt_ge (Py.of_Z (TradingSignal.confidence s))
                       min_confidence = true)
           (reverse (signal_history self)) in
  (Py.slice_to signals limit, self).

(** [get_signal_by_id] *)
Definition get_signal_by_id (self : t) (signal_id : string)
    : option TradingSignal.t :=
  signal_index self !! signal_id.

(** Lines 207-211 of [clear_old_signals]: the per-symbol map rebuilt from a
    history, a later signal replacing an earlier one only when its
    timestamp is strictly greater. *)
Definition rebuild_latest (history : list TradingSignal.t)
    : gmap string TradingSignal.t :=
  foldl (fun latest sig =>
           match latest !! TradingSignal.symbol sig with
           | Some prev =>
               if bool_decide (TradingSignal.timestamp prev
                               < TradingSignal.timestamp sig)
               then <[TradingSignal.symbol sig := sig]> latest
               else latest
           | None => <[TradingSignal.symbol sig := sig]> latest
           end)
        ∅ history.

(** Line 205: [{s.signal_id: s for s in self.signal_history}]. *)
Definition rebuild_index (history : list TradingSignal.t)
    : gmap string TradingSignal.t :=
  foldl (fun index s => <[TradingSignal.signal_id s := s]> index) ∅ history.

(** [clear_old_signals(max_age_minutes)], [now] being what
    [datetime.now()] returns. *)
Definition clear_old_signals (self : t) (max_age_minutes : Z)
    (now : Py.datetime) : t :=
  let cutoff := now - Py.minutes max_age_minutes in
  let history :=
    filter (fun s => cutoff <= TradingSignal.timestamp s)
           (signal_history self) in
  with_stores self (rebuild_latest history) history (rebuild_index history).



End AutoScanner.

(** *** One scan cycle of the automatic scanner, task by task

    Lines 54-55 of [start_scanning]: one coroutine per pair, all handed to
    [asyncio.gather] at once.  A task is scheduled, then runs until it waits
    for [client.get_candles] (its fetch is outstanding), and is finished once
    the candles arrived and the generator ran.  Nothing between the two lines
    limits how many tasks are started. *)

Module Gather.

Inductive task := Scheduled | InFlight | Finished.

Global Instance task_eq_dec : EqDecision task.
Proof. solve_decision. Defined.

(** What the event loop does next: start a scheduled task, or resume one
    whose fetch completed. *)
Inductive event := Start (i : nat) | Complete (i : nat).


Definition step (tasks : list task) (e : event) : option (list task) :=
  match e with
  | Start i =>
      match tasks !! i with
      | Some Scheduled => Some (<[i := InFlight]> tasks)
      | _ => None
      end
  | Complete i =>
      match tasks !! i with
      | Some InFlight => Some (<[i := Finished]> tasks)
      | _ => None
      end
  end.

Fixpoint run (tasks : list task) (events : list event)
    : option (list task) :=
  match events with
  | [] => Some tasks
  | e :: events =>
      match step tasks e with
      | Some tasks => run tasks events
      | None => None
      end
  end.

Definition in_flight (tasks : list task) : nat :=
  length (filter (fun t => t = InFlight) tasks).

End Gather.

(** ** The broker-gated scanner ([iqoption_scanner.py]) *)

Module IQOptionScanner.

(** [_get_otc_pairs], given what [session_manager.get_user_pairs] did. *)
Definition _get_otc_pairs (config : ScanConfig.t)
    (pairs : Py.res (list TradingPair.t)) : list TradingPair.t :=
  match pairs with
  | Py.Raise _ => []
  | Py.Ok pairs =>
      let active_pairs :=
        filter (fun p => TradingPair.is_active p = true) pairs in
      let active_pairs :=
        if ScanConfig.only_otc config
        then filter (fun p => TradingPair.is_otc p = true) active_pairs
        else if ScanConfig.only_open_market config
        then filter (fun p => TradingPair.is_otc p = false) active_pairs
        else active_pairs in
      match ScanConfig.symbols config with
      | Some (sym :: syms) =>
          let symbols_set : gset string :=
            list_to_set (Py.upper <$> sym :: syms) in
          filter (fun p => Py.upper (TradingPair.symbol p) ∈ symbols_set)
                 active_pairs
      | _ => active_pairs
      end
  end.

(** What the filters of lines 145-151 of [_get_otc_pairs] keep. *)
Definition eligible (config : ScanConfig.t) (p : TradingPair.t) : Prop :=
  TradingPair.is_active p = true
  /\ (ScanConfig.only_otc config = true -> TradingPair.is_otc p = true)
  /\ (ScanConfig.only_otc config = false ->
      ScanConfig.only_open_market config = true ->
      TradingPair.is_otc p = false).

Global Instance eligible_dec config p : Decision (eligible config p).
Proof. unfold eligible. apply _. Defined.

(** Lines 86-104 of [start_scanning]: the [for pair in pairs] loop takes
    the semaphore, awaits the scan of one pair (with its timeout), releases
    the semaphore and only then moves to the next pair.  What is counted is
    the scan the loop awaits: a scan that timed out is cancelled and left,
    whatever a worker thread of the transport still does for it. *)
Record cycle := mk_cycle {
  remaining : list TradingPair.t;
  _semaphore : nat;
  scanning : option TradingPair.t
}.


Inductive event :=
| Enter   (** [async with self._semaphore:] entered, scan awaited *)
| Leave.  (** result, timeout or exception: the block is left *)

Definition step (c : cycle) (e : event) : option cycle :=
  match e, scanning c, remaining c with
  | Enter, None, p :: rest =>
      match _semaphore c with
      | S permits => Some (mk_cycle rest permits (Some p))
      | O => None
      end
  | Leave, Some _, rest => Some (mk_cycle rest (S (_semaphore c)) None)
  | _, _, _ => None
  end.

Fixpoint run (c : cycle) (events : list event) : option cycle :=
  match events with
  | [] => Some c
  | e :: events =>
      match step c e with
      | Some c => run c events
      | None => None
      end
  end.

Definition in_flight (c : cycle) : nat :=
  match scanning c with Some _ => 1%nat | None => 0%nat end.

(** Line 181 of [_scan_pair]: the configured timeframe, in minutes, turned
    into the seconds that [get_user_candles] is handed. *)
Definition timeframe_seconds (config : ScanConfig.t) : Z :=
  ScanConfig.timeframe config * 60.

End IQOptionScanner.

(** ** The broker client's login ([scanner/iqoption_client.py]) *)

Inductive AccountType := PRACTICE | REAL.

Global Instance AccountType_eq_dec : EqDecision AccountType.
Proof. solve_decision. Defined.

Definition AccountType_str (a : AccountType) : string :=
  match a with PRACTICE => "PRACTICE" | REAL => "REAL" end.

(** What the transport (the [IQ_Option] object of the wire-level library)
    answers during one login: every call the client makes on it returns or
    raises.  The texts the client derives from a failure reason are read
    off the reason.  With it comes the process environment that a client
    object reads when it is made. *)
Module Transport.

(** [os.getenv] on the three variables of [IQOptionClient.__init__].  The
    account type is what [_normalize_account_type] makes of
    [os.getenv("IQOPTION_ACCOUNT_TYPE", "PRACTICE")]: [PRACTICE] when the
    variable is unset, empty or not one of the two names. *)
Record environ := mk_environ {
  IQOPTION_EMAIL : option string;
  IQOPTION_PASSWORD : option string;
  IQOPTION_ACCOUNT_TYPE : AccountType
}.

Record reason := mk_reason {
  (** [_is_two_factor_challenge(reason)] *)
  is_two_factor_challenge : bool;
  (** [payload.get("method") or payload.get("type")] *)
  method : option string;
  (** [_interpret_reason(reason)] *)
  interpreted : string
}.

Record t := mk {
  (** [IQ_OPTION_AVAILABLE] *)
  available : bool;
  (** [IQ_Option(email, password, account_type)] *)
  create : Py.res unit;
  (** [api.connect()], the pair [(check, reason)] *)
  connect : Py.res (bool * reason);
  (** [api.connect_2fa(code)] *)
  connect_2fa : string -> Py.res (bool * reason);
  (** [api.change_balance(account_type)] *)
  change_balance : Py.res unit;
  (** [api.check_connect()], [None] when the object has no such method *)
  check_connect : option (Py.res bool);
  (** [api.get_balance()] followed by [float(...)]: [Ok None] is a null
      balance *)
  get_balance : Py.res (option Qc);
  (** [_interpret_exception(exc)] and [str(exc)] *)
  interpret_exception : Py.exn -> string;
  str_exception : Py.exn -> string;
  (** the environment of the process *)
  getenv : environ
}.

End Transport.

Module IQOptionClient.

(** The client object.  [api] tells whether [self.api] is set;
    [two_factor_started_at] is only ever written and is left out. *)
Record t := mk {
  api : bool;
  connected : bool;
  email : option string;
  password : option string;
  account_type : AccountType;
  last_error : option string;
  _connected_email : option string;
  _connected_password : option string;
  _connected_account_type : option AccountType;
  _last_known_balance : option Qc;
  awaiting_two_factor : bool;
  two_factor_message : option string
}.

Definition truthy (s : option string) : bool :=
  match s with
  | Some (String _ _) => true
  | _ => false
  end.

(** [__init__]: an argument that is missing or empty is read from the
    environment, [email or os.getenv("IQOPTION_EMAIL")] and likewise the
    password and the account type. *)
Definition init (email password : option string)
    (account_type : option AccountType) (env : Transport.environ) : t :=
  mk false false
     (if truthy email then email else Transport.IQOPTION_EMAIL env)
     (if truthy password then password else Transport.IQOPTION_PASSWORD env)
     (default (Transport.IQOPTION_ACCOUNT_TYPE env) account_type)
     None None None None None false None.

Definition set_account_type (self : t) (a : AccountType) : t :=
  mk (api self) (connected self) (email self) (password self) a
     (last_error self) (_connected_email self) (_connected_password self)
     (_connected_account_type self) (_last_known_balance self)
     (awaiting_two_factor self) (two_factor_message self).

Definition set_credentials (self : t) (e p : option string) : t :=
  mk (api self) (connected self) e p (account_type self)
     (last_error self) (_connected_email self) (_connected_password self)
     (_connected_account_type self) (_last_known_balance self)
     (awaiting_two_factor self) (two_factor_message self).

Definition set_last_error (self : t) (err : option string) : t :=
  mk (api self) (connected self) (email self) (password self)
     (account_type self) err (_connected_email self)
     (_connected_password self) (_connected_account_type self)
     (_last_known_balance self) (awaiting_two_factor self)
     (two_factor_message self).

Definition set_api (self : t) (a : bool) : t :=
  mk a (connected self) (email self) (password self)
     (account_type self) (last_error self) (_connected_email self)
     (_connected_password self) (_connected_account_type self)
     (_last_known_balance self) (awaiting_two_factor self)
     (two_factor_message self).

Definition set_connected (self : t) (c : bool) : t :=
  mk (api self) c (email self) (password self)
     (account_type self) (last_error self) (_connected_email self)
     (_connected_password self) (_connected_account_type self)
     (_last_known_balance self) (awaiting_two_factor self)
     (two_factor_message self).

Definition set_last_known_balance (self : t) (b : option Qc) : t :=
  mk (api self) (connected self) (email self) (password self)
     (account_type self) (last_error self) (_connected_email self)
     (_connected_password self) (_connected_account_type self)
     b (awaiting_two_factor self) (two_factor_message self).

Definition set_two_factor (self : t) (awaiting : bool)
    (message : option string) : t :=
  mk (api self) (connected self) (email self) (password self)
     (account_type self) (last_error self) (_connected_email self)
     (_connected_password self) (_connected_account_type self)
     (_last_known_balance self) awaiting message.

Definition _clear_connection_state (self : t) : t :=
  mk false false (email self) (password self) (account_type self)
     (last_error self) None None None None false None.

(** [disconnect]: whatever closing the transport does, the [finally]
    clause clears the state and nothing is raised. *)
Definition disconnect (self : t) : t := _clear_connection_state self.

Definition _handle_two_factor_challenge (self : t)
    (reason : Transport.reason) : t :=
  let method := Py.upper (default "sms" (
    match Transport.method reason with
    | Some (String c s) => Some (String c s)
    | _ => None
    end)) in
  let base_message :=
    "Codigo de verificacao enviado pela IQ Option. "
    +:+ "Digite o codigo recebido para concluir o login." in
  set_two_factor self true
    (Some (if bool_decide (method = "") then base_message
           else "Verificacao " +:+ method +:+ " pendente. "
                +:+ "Informe o codigo recebido da IQ Option.")).

(** [_finalize_successful_login]: the result ([Py.Raise] when the method
    raises) and the client as it is left. *)
Definition _finalize_successful_login (self : t) (tr : Transport.t)
    : Py.res unit * t :=
  if negb (api self)
  then (Py.Raise (Py.RuntimeError "Cliente IQ Option indisponivel apos login."),
        self)
  else
    let self := set_connected self true in
    let self := set_two_factor self false None in
    let self := set_last_error self None in
    match Transport.change_balance tr with
    | Py.Raise e => (Py.Raise e, self)
    | Py.Ok _ =>
        let validate_balance (self : t) : Py.res unit * t :=
          let failed (self : t) (e : Py.exn) : Py.res unit * t :=
            let self :=
              set_last_error self
                (Some ("Falha ao validar credenciais. "
                       +:+ "Verifique se o email e senha estao corretos.")) in
            let self := disconnect self in
            (Py.Raise e, self) in
          match Transport.get_balance tr with
          | Py.Raise e => failed self e
          | Py.Ok None =>
              failed self
                (Py.RuntimeError
                   "Falha ao obter saldo. Credenciais podem estar incorretas.")
          | Py.Ok (Some balance_value) =>
              let self :=
                set_last_known_balance self (Some balance_value) in
              if bool_decide (balance_value < 0)%Qc then
                failed self
                  (Py.RuntimeError
                     "Saldo invalido retornado. Credenciais podem estar incorretas.")
              else
                (Py.Ok tt,
                 mk (api self) (connected self) (email self)
                    (password self) (account_type self) (last_error self)
                    (email self) (password self)
                    (Some (account_type self))
                    (_last_known_balance self)
                    (awaiting_two_factor self) (two_factor_message self))
          end in
        match Transport.check_connect tr with
        | Some (Py.Raise e) => (Py.Raise e, self)
        | Some (Py.Ok false) =>
            let msg := "IQ Option disconnected right after login." in
            let self := set_last_error self (Some msg) in
            let self := disconnect self in
            (Py.Raise (Py.RuntimeError msg), self)
        | Some (Py.Ok true) | None => validate_balance self
        end
    end.

(** [connect(email, password, account_type)] *)
Definition connect (self : t) (email_arg password_arg : option string)
    (account_type_arg : option AccountType) (tr : Transport.t)
    : Py.res bool * t :=
  if negb (Transport.available tr) then
    (Py.Ok false,
     set_last_error self
       (Some "Biblioteca IQ Option nao encontrada. Reinstale a aplicacao."))
  else
    let self :=
      if truthy email_arg
      then set_credentials self email_arg (password self) else self in
    let self :=
      if truthy password_arg
      then set_credentials self (email self) password_arg else self in
    let previous_account := account_type self in
    let self :=
      match account_type_arg with
      | Some a => set_account_type self a
      | None => self
      end in
    let self := set_two_factor self false None in
    let credentials_changed :=
      bool_decide (_connected_email self <> None)
      && (bool_decide (email self <> _connected_email self)
          || bool_decide (password self <> _connected_password self)) in
    let account_changed :=
      bool_decide (previous_account <> account_type self) in
    let login (self : t) : Py.res bool * t :=
      if negb (truthy (email self)) || negb (truthy (password self)) then
        (Py.Ok false, set_last_error self (Some "Missing credentials"))
      else
        let failed (self : t) (e : Py.exn) : Py.res bool * t :=
          let self :=
            set_last_error self (Some (Transport.interpret_exception tr e)) in
          (Py.Ok false, _clear_connection_state self) in
        match Transport.create tr with
        | Py.Raise e => failed self e
        | Py.Ok _ =>
            let self := set_api self true in
            match Transport.connect tr with
            | Py.Raise e => failed self e
            | Py.Ok (false, reason) =>
                if Transport.is_two_factor_challenge reason then
                  let self := _handle_two_factor_challenge self reason in
                  (Py.Ok false,
                   set_last_error self (two_factor_message self))
                else
                  let self :=
                    set_last_error self
                      (Some (Transport.interpreted reason)) in
                  (Py.Ok false, _clear_connection_state self)
            | Py.Ok (true, _) =>
                match _finalize_successful_login self tr with
                | (Py.Ok _, self) => (Py.Ok true, self)
                | (Py.Raise e, self) => failed self e
                end
            end
        end in
    if connected self && api self then
      if credentials_changed then login (disconnect self)
      else if account_changed then
        match Transport.change_balance tr with
        | Py.Raise e => (Py.Raise e, self)
        | Py.Ok _ => (Py.Ok true, self)
        end
      else (Py.Ok true, self)
    else login self.

(** Lines 116-160 of [connect] on their own: the login that [connect]
    runs on a client that is not connected, or whose credentials
    changed. *)
Definition login (self : t) (tr : Transport.t) : Py.res bool * t :=
  if negb (truthy (email self)) || negb (truthy (password self)) then
    (Py.Ok false, set_last_error self (Some "Missing credentials"))
  else
    let failed (self : t) (e : Py.exn) : Py.res bool * t :=
      let self :=
        set_last_error self (Some (Transport.interpret_exception tr e)) in
      (Py.Ok false, _clear_connection_state self) in
    match Transport.create tr with
    | Py.Raise e => failed self e
    | Py.Ok _ =>
        let self := set_api self true in
        match Transport.connect tr with
        | Py.Raise e => failed self e
        | Py.Ok (false, reason) =>
            if Transport.is_two_factor_challenge reason then
              let self := _handle_two_factor_challenge self reason in
              (Py.Ok false,
               set_last_error self (two_factor_message self))
            else
              let self :=
                set_last_error self
                  (Some (Transport.interpreted reason)) in
              (Py.Ok false, _clear_connection_state self)
        | Py.Ok (true, _) =>
            match _finalize_successful_login self tr with
            | (Py.Ok _, self) => (Py.Ok true, self)
            | (Py.Raise e, self) => failed self e
            end
        end
    end.

(** Lines 83-95 of [connect]: the arguments taken in and the pending
    challenge dropped. *)
Definition take_arguments (self : t) (email_arg password_arg : option string)
    (account_type_arg : option AccountType) : t :=
  let self :=
    if truthy email_arg
    then set_credentials self email_arg (password self) else self in
  let self :=
    if truthy password_arg
    then set_credentials self (email self) password_arg else self in
  let self :=
    match account_type_arg with
    | Some a => set_account_type self a
    | None => self
    end in
  set_two_factor self false None.

(** [submit_two_factor_code(code)] *)
Definition submit_two_factor_code (self : t) (code : string)
    (tr : Transport.t) : Py.res (bool * string) * t :=
  if negb (awaiting_two_factor self) || negb (api self) then
    (Py.Ok (false, "Nenhum desafio de verificacao pendente."), self)
  else
    match Transport.connect_2fa tr code with
    | Py.Raise e =>
        let message :=
          "Erro ao validar codigo: " +:+ Transport.str_exception tr e in
        (Py.Ok (false, message), set_last_error self (Some message))
    | Py.Ok (false, reason) =>
        let '(message, self) :=
          if Transport.is_two_factor_challenge reason then
            let self := _handle_two_factor_challenge self reason in
            (default "Codigo invalido. Tente novamente."
               (match two_factor_message self with
                | Some (String c s) => Some (String c s)
                | _ => None
                end),
             self)
          else
            (Transport.interpreted reason, _clear_connection_state self) in
        (Py.Ok (false, message), set_last_error self (Some message))
    | Py.Ok (true, _) =>
        match _finalize_successful_login self tr with
        | (Py.Raise e, self) => (Py.Raise e, self)
        | (Py.Ok _, self) =>
            (Py.Ok (true,
                    "Verificacao concluida! Conta "
                    +:+ AccountType_str (account_type self)),
             self)
        end
    end.

(** [check_connection], with the transport's answer to the probe.  Without
    a [check_connect] method the client asks its own [get_balance], which
    records the balance when it gets one and returns a dictionary in every
    case. *)
Definition check_connection (self : t) (tr : Transport.t) : bool * t :=
  if negb (api self) || negb (connected self) then (false, self)
  else
    match Transport.check_connect tr with
    | Some (Py.Raise e) =>
        (false,
         set_last_error (set_connected self false)
           (Some (Transport.str_exception tr e)))
    | Some (Py.Ok is_ok) =>
        let self := set_connected self is_ok in
        (is_ok,
         if is_ok then self
         else set_last_error self (Some "Sessao desconectada"))
    | None =>
        let self :=
          match Transport.get_balance tr with
          | Py.Ok (Some balance) =>
              set_last_known_balance self (Some balance)
          | _ => self
          end in
        (true, set_connected self true)
    end.

(** [_convert_timeframe_to_seconds], used by [get_candles] on the minutes
    it is handed. *)
Definition _convert_timeframe_to_seconds (timeframe_minutes : Z) : Z :=
  timeframe_minutes * 60.

(** [connect_with_credentials(email, password, account_type)] *)
Definition connect_with_credentials (self : t)
    (email_arg password_arg : option string)
    (account_type_arg : option AccountType) (tr : Transport.t)
    : Py.res (bool * string) * t :=
  let self := set_credentials self email_arg password_arg in
  let self :=
    match account_type_arg with
    | Some a => set_account_type self a
    | None => self
    end in
  match connect self None None None tr with
  | (Py.Raise e, self) => (Py.Raise e, self)
  | (Py.Ok true, self) =>
      (Py.Ok (true,
              "Conectado ao IQ Option com sucesso! Conta: "
              +:+ AccountType_str (account_type self)),
       self)
  | (Py.Ok false, self) =>
      (Py.Ok (false,
              default "Falha ao conectar ao IQ Option"
                (match last_error self with
                 | Some (String c s) => Some (String c s)
                 | _ => None
                 end)),
       self)
  end.

(** What the methods keep true of a client: it is connected, or waits for
    a second factor, only while it holds a transport object, and it never
    does both; a pending challenge comes with its message. *)
Definition well_formed (self : t) : Prop :=
  (connected self = true -> api self = true)
  /\ (awaiting_two_factor self = true ->
      api self = true /\ connected self = false
      /\ truthy (two_factor_message self) = true).

End IQOptionClient.

(** ** The session registry ([iqoption/session_manager.py])

    [sessions] maps a user to a client object.  Client objects live in a
    store addressed by [nat]; [made_for] remembers, for each object, the user
    whose [connect_user] call created it (the code keeps no such record: it
    serves to state which live connections belong to a user). *)

Module IQOptionSessionManager.

Record t := mk {
  store : gmap nat IQOptionClient.t;
  made_for : gmap nat string;
  sessions : gmap string nat;
  session_timeouts : gmap string Py.datetime;
  account_types : gmap string AccountType
}.

(** [__init__] *)
Definition init : t := mk ∅ ∅ ∅ ∅ ∅.

Definition with_client (self : t) (c : nat) (client : IQOptionClient.t)
    : t :=
  mk (<[c := client]> (store self)) (made_for self) (sessions self)
     (session_timeouts self) (account_types self).

(** A new client object, at an address not in use. *)
Definition new_client (self : t) (username : string)
    (client : IQOptionClient.t) : nat * t :=
  let c := fresh (dom (store self)) in
  (c, mk (<[c := client]> (store self)) (<[c := username]> (made_for self))
         (sessions self) (session_timeouts self) (account_types self)).

(** Lines 90-92, 96-98: the three assignments that register a client. *)
Definition register (self : t) (username : string) (c : nat)
    (now : Py.datetime) (a : AccountType) : t :=
  mk (store self) (made_for self) (<[username := c]> (sessions self))
     (<[username := now]> (session_timeouts self))
     (<[username := a]> (account_types self)).

(** The object at an address.  The registry and the calls in progress only
    hold addresses handed out by [new_client], which are in the store. *)
Definition client_at (self : t) (c : nat) : IQOptionClient.t :=
  default (IQOptionClient.init None None None
             (Transport.mk_environ None None PRACTICE))
          (store self !! c).

(** [disconnect_user] *)
Definition disconnect_user (self : t) (username : string) : bool * t :=
  match sessions self !! username with
  | Some c =>
      let client := IQOptionClient.disconnect (client_at self c) in
      (true,
       mk (<[c := client]> (store self)) (made_for self)
          (delete username (sessions self))
          (delete username (session_timeouts self))
          (delete username (account_types self)))
  | None => (false, self)
  end.

(** [is_connected] *)
Definition is_connected (self : t) (username : string) : bool :=
  match sessions self !! username with
  | Some c => IQOptionClient.connected (client_at self c)
  | None => false
  end.

(** The arguments of one [connect_user] call. *)
Record call := mk_call {
  username : string;
  email : option string;
  password : option string;
  account_type : option AccountType
}.

(** Where a [connect_user] call stands: not started, suspended at one of
    its [await]s (another coroutine may run meanwhile), or returned. *)
Inductive pc :=
| Entry
| AwaitCheck (c : nat)       (** line 64, [client.check_connection()] *)
| AwaitSwitch (c : nat)      (** line 69, [client.connect(account_type=...)] *)
| AwaitDisconnect            (** line 75, [self.disconnect_user(username)] *)
| AwaitConnect (c : nat)     (** line 82, [client.connect(...)], new client *)
| Returned (result : bool * string).

(** Lines 77-81: the new client object, about to connect; [tr] holds the
    environment it is made in. *)
Definition create_client (args : call) (tr : Transport.t) (self : t)
    : pc * t :=
  let '(c, self) :=
    new_client self (username args)
      (IQOptionClient.init (email args) (password args)
         (account_type args) (Transport.getenv tr)) in
  (AwaitConnect c, self).

(** One uninterrupted stretch of [connect_user]: from where the call
    stands to its next [await] or to its [return].  [tr] is what the
    transport answers to the awaited operation and [now] the clock. *)
Definition resume (args : call) (at_pc : pc) (tr : Transport.t)
    (now : Py.datetime) (self : t) : pc * t :=
  let user := username args in
  match at_pc with
  | Entry =>
      match sessions self !! user with
      | Some c =>
          let client := client_at self c in
          let client :=
            match account_type args with
            | Some a => IQOptionClient.set_account_type client a
            | None => client
            end in
          let self := with_client self c client in
          if IQOptionClient.awaiting_two_factor client then
            (Returned
               (false,
                default "Verificacao IQ Option pendente."
                  (match IQOptionClient.two_factor_message client with
                   | Some (String ch s) => Some (String ch s)
                   | _ => None
                   end)),
             self)
          else (AwaitCheck c, self)
      | None => create_client args tr self
      end
  | AwaitCheck c =>
      let '(alive, client) :=
        IQOptionClient.check_connection (client_at self c) tr in
      let self := with_client self c client in
      if alive then
        let self :=
          mk (store self) (made_for self) (sessions self)
             (<[user := now]> (session_timeouts self))
             (account_types self) in
        match account_type args with
        | Some _ => (AwaitSwitch c, self)
        | None => (Returned (true, "Sessao ja ativa"), self)
        end
      else (AwaitDisconnect, self)
  | AwaitSwitch c =>
      match IQOptionClient.connect (client_at self c) None None
              (account_type args) tr with
      | (Py.Ok _, client) =>
          let self := with_client self c client in
          let a := IQOptionClient.account_type client in
          (Returned
             (true, "Sessao ja ativa na conta " +:+ AccountType_str a),
           mk (store self) (made_for self) (sessions self)
              (session_timeouts self)
              (<[user := a]> (account_types self)))
      | (Py.Raise e, client) =>
          (Returned (false, Transport.str_exception tr e),
           with_client self c client)
      end
  | AwaitDisconnect =>
      let '(_, self) := disconnect_user self user in
      create_client args tr self
  | AwaitConnect c =>
      match IQOptionClient.connect (client_at self c) None None
              (account_type args) tr with
      | (Py.Ok success, client) =>
          let self := with_client self c client in
          let a := IQOptionClient.account_type client in
          let message :=
            if success
            then "Conectado ao IQ Option (" +:+ AccountType_str a +:+ ")"
            else default "Falha ao conectar"
                   (match IQOptionClient.last_error client with
                    | Some (String ch s) => Some (String ch s)
                    | _ => None
                    end) in
          if IQOptionClient.awaiting_two_factor client then
            (Returned
               (false,
                default "Verificacao pendente."
                  (match IQOptionClient.two_factor_message client with
                   | Some (String ch s) => Some (String ch s)
                   | _ => None
                   end)),
             register self user c now a)
          else if success then
            (Returned (true, message), register self user c now a)
          else (Returned (false, message), self)
      | (Py.Raise e, client) =>
          (Returned (false, Transport.str_exception tr e),
           with_client self c client)
      end
  | Returned r => (Returned r, self)
  end.

(** One call running alone, fed the transport's answers in order, until
    it returns. *)
Fixpoint run_alone (args : call) (at_pc : pc)
    (answers : list (Transport.t * Py.datetime)) (self : t) : pc * t :=
  match at_pc, answers with
  | Returned r, _ => (Returned r, self)
  | _, [] => (at_pc, self)
  | _, (tr, now) :: answers =>
      let '(at_pc, self) := resume args at_pc tr now self in
      run_alone args at_pc answers self
  end.

(** Several calls in progress on one registry: the event loop resumes one
    of them at a time. *)
Definition pool := list (call * pc).

Definition schedule_step (p : pool) (self : t)
    (e : nat * Transport.t * Py.datetime) : pool * t :=
  let '(i, tr, now) := e in
  match p !! i with
  | Some (args, at_pc) =>
      let '(at_pc, self) := resume args at_pc tr now self in
      (<[i := (args, at_pc)]> p, self)
  | None => (p, self)
  end.

Definition schedule (p : pool) (self : t)
    (events : list (nat * Transport.t * Py.datetime)) : pool * t :=
  foldl (fun ps e => schedule_step (fst ps) (snd ps) e) (p, self) events.

(** The client objects made for [user] that hold a live connection. *)
Definition live_sessions (self : t) (user : string) : list nat :=
  filter (fun c =>
            made_for self !! c = Some user
            /\ (IQOptionClient.connected <$> store self !! c) = Some true)
         (elements (dom (store self))).

(** Every live connection made for [user] is the one registered under
    [user]: there is at most one, and the registry knows it. *)
Definition one_session (self : t) (user : string) : Prop :=
  forall c client,
    store self !! c = Some client ->
    made_for self !! c = Some user ->
    IQOptionClient.connected client = true ->
    sessions self !! user = Some c.

(** Where a call that runs alone can stand: it probes or switches the
    registered client, or connects a new client while none is registered. *)
Definition standing (self : t) (user : string) (at_pc : pc) : Prop :=
  match at_pc with
  | AwaitCheck c | AwaitSwitch c => sessions self !! user = Some c
  | AwaitConnect c =>
      sessions self !! user = None
      /\ exists client,
           store self !! c = Some client
           /\ IQOptionClient.connected client = false
  | Entry | AwaitDisconnect | Returned _ => True
  end.

(** [complete_two_factor] *)
Definition complete_two_factor (self : t) (user : string) (code : string)
    (tr : Transport.t) (now : Py.datetime) : (bool * string) * t :=
  match sessions self !! user with
  | None => ((false, "Sessao IQ Option nao encontrada."), self)
  | Some c =>
      match IQOptionClient.submit_two_factor_code (client_at self c) code
              tr with
      | (Py.Ok (true, message), client) =>
          let self := with_client self c client in
          ((true, message),
           mk (store self) (made_for self) (sessions self)
              (<[user := now]> (session_timeouts self))
              (<[user := IQOptionClient.account_type client]>
                 (account_types self)))
      | (Py.Ok (false, message), client) =>
          let self := with_client self c client in
          ((false, message),
           if IQOptionClient.awaiting_two_factor client then self
           else snd (disconnect_user self user))
      | (Py.Raise e, client) =>
          ((false, Transport.str_exception tr e),
           with_client self c client)
      end
  end.

(** [get_client]: the address of the registered client; asking for it
    counts as activity. *)
Definition get_client (self : t) (user : string) (now : Py.datetime)
    : option nat * t :=
  match sessions self !! user with
  | Some c =>
      (Some c,
       mk (store self) (made_for self) (sessions self)
          (<[user := now]> (session_timeouts self)) (account_types self))
  | None => (None, self)
  end.

(** [get_user_account_type] *)
Definition get_user_account_type (self : t) (user : string)
    : option AccountType :=
  match sessions self !! user with
  | Some c => Some (IQOptionClient.account_type (client_at self c))
  | None => account_types self !! user
  end.

(** Lines 195-196 of [get_user_candles]: the minutes handed to the
    client's [get_candles] for a timeframe given in seconds; [//] is the
    floor division. *)
Definition timeframe_minutes (timeframe : Z) : Z :=
  let timeframe_seconds := Z.max timeframe 60 in
  Z.max 1 (timeframe_seconds / 60).

(** [for username in ...: await self.disconnect_user(username)], as in
    [stop] and in [_cleanup_sessions], with nothing else running in
    between. *)
Definition disconnect_all (self : t) (users : list string) : t :=
  foldl (fun self user => snd (disconnect_user self user)) self users.

(** [self.timeout_minutes] of [__init__]. *)
Definition timeout_minutes : Z := 30.

(** Lines 226-230 of [_cleanup_sessions]: whether a session with this last
    activity is taken for inactive at [now]. *)
Definition inactive (now last_activity : Py.datetime) : Prop :=
  last_activity < now - Py.minutes timeout_minutes.

Global Instance inactive_dec now last_activity
  : Decision (inactive now last_activity).
Proof. unfold inactive. apply _. Defined.

(** One round of [_cleanup_sessions] (lines 223-234).  The dictionary is
    read in its own order, which the finite map does not keep; the
    theorems on [disconnect_all] hold for every order of the users. *)
Definition inactive_users (self : t) (now : Py.datetime) : list string :=
  fst <$> filter (fun entry => inactive now (snd entry))
                 (map_to_list (session_timeouts self)).

Definition cleanup_round (self : t) (now : Py.datetime) : t :=
  disconnect_all self (inactive_users self now).

(** [stop], after the cleanup task is cancelled. *)
Definition stop (self : t) : t :=
  disconnect_all self (fst <$> map_to_list (sessions self)).

(** The three dictionaries of the registry know the same users. *)
Definition registered_alike (self : t) : Prop :=
  forall user,
    (is_Some (sessions self !! user)
     <-> is_Some (session_timeouts self !! user))
    /\ (is_Some (sessions self !! user)
        <-> is_Some (account_types self !! user)).

End IQOptionSessionManager.

(** ** The specification's wording, for comparison with the code *)

Module Spec.

(** "+15 for an engulfing pattern, +10 for a break-of-structure pattern" *)
Definition pattern_bonus (p : PatternType) : Z :=
  match p with
  | engulfing_bullish | engulfing_bearish => 15
  | bos_bullish | bos_bearish => 10
  | pin_bar | inside_bar | doji => 0
  end.

(** "+3 x level-strength if a level is attached" *)
Definition level_bonus (attached : option SupportResistanceLevel.t) : Z :=
  match attached with
  | Some l => 3 * SupportResistanceLevel.strength l
  | None => 0
  end.

Definition clamp (lo hi x : Z) : Z := Z.max lo (Z.min x hi).

(** "next full-minute boundary from now": the one whole minute that lies
    after [now] and at most a minute away. *)
Definition next_minute_boundary (now boundary : Py.datetime) : Prop :=
  (Py.minutes 1 | boundary) /\ now < boundary <= now + Py.minutes 1.

(** "base 50, +5 per confluence reason, ...; clamp to [0,95]" *)
Definition confidence (reasons : list string) (p : PatternType)
    (attached : option SupportResistanceLevel.t) : Z :=
  clamp 0 95
    (50 + 5 * Z.of_nat (length reasons) + pattern_bonus p
     + level_bonus attached).

(** "case-insensitive, exact symbol match": the same text once letter case
    is ignored. *)
Definition same_symbol (a b : string) : Prop := Py.upper a = Py.upper b.

Definition allowed (allowlist : list string) (p : TradingPair.t) : Prop :=
  Exists (same_symbol (TradingPair.symbol p)) allowlist.

Global Instance allowed_dec allowlist p : Decision (allowed allowlist p).
Proof. unfold allowed, same_symbol. apply _. Defined.

(** "intersect the full instrument list with the allowlist" *)
Definition allowlist_intersection (all_pairs : list TradingPair.t)
    (allowlist : list string) : list TradingPair.t :=
  filter (allowed allowlist) all_pairs.

End Spec.

(** ** A concrete generator and concrete data, to run the definitions on *)

Module Example.

Definition price (z : Z) : Qc := Q2Qc (inject_Z z).

(** A candle that opens at [o] and closes at [c]. *)
Definition candle (t : Py.datetime) (o c : Z) : Candle.t :=
  Candle.mk (Candle.Timestamp t) (price o) (price (Z.max o c)) (price (Z.min o c)) (price c)
    (price 100).

Definition level : SupportResistanceLevel.t :=
  SupportResistanceLevel.mk (price 12) support 3 3.

Definition config (sensitivity : Sensitivity) : ScanConfig.t :=
  ScanConfig.mk auto None 5 sensitivity true true true false false.

(** Detectors that find no pattern and one level, near every price;
    indicators without history. *)
Definition generator_of (config : ScanConfig.t) : SignalGenerator.t :=
  SignalGenerator.mk config
    (PriceActionDetector.mk (fun _ => []))
    (SupportResistanceDetector.mk (fun _ => [level]) (fun _ _ => true))
    (TechnicalIndicators.mk
       (fun df => (fun _ => Py.nan) <$> df)
       (fun _ => ([], [], []))
       (fun _ => neutral)
       (fun _ => false)
       (fun _ => false))
    (fun _ => "0.00000")
    (fun _ => "nan").

Definition generator (sensitivity : Sensitivity) : SignalGenerator.t :=
  generator_of (config sensitivity).

Definition frame : DataFrame :=
  [candle 0 10 11; candle 60000000 11 12].

(** The same two candles in a frame made from a list of dictionaries: the
    rows are labelled by their positions. *)
Definition listed_frame : DataFrame :=
  [Candle.mk (Candle.Position 0) (price 10) (price 11) (price 10)
     (price 11) (price 100);
   Candle.mk (Candle.Position 1) (price 11) (price 12) (price 11)
     (price 12) (price 100)].

(** A transport that accepts the second factor and answers the login, the
    account switch and the balance request as given. *)
Definition no_reason : Transport.reason := Transport.mk_reason false None "".

Definition challenge : Transport.reason :=
  Transport.mk_reason true (Some "sms") "verify".

(** An environment that sets none of the three variables. *)
Definition environ : Transport.environ :=
  Transport.mk_environ None None PRACTICE.

Definition transport (login : Py.res (bool * Transport.reason))
    (switch : Py.res unit) (balance : Py.res (option Qc)) : Transport.t :=
  Transport.mk true (Py.Ok tt) login (fun _ => Py.Ok (true, no_reason))
    switch (Some (Py.Ok true)) balance (fun _ => "error") (fun _ => "error")
    environ.

(** A client whose login was answered by a second-factor challenge. *)
Definition pending_client : IQOptionClient.t :=
  snd (IQOptionClient.connect
         (IQOptionClient.init (Some "user@example.org") (Some "secret") None
            environ)
         None None None
         (transport (Py.Ok (false, challenge)) (Py.Ok tt) (Py.Ok None))).

(** Detectors that see a doji in every row and a break of structure in
    every frame, and the aggressive generator running them. *)
Definition busy_detectors : PriceActionDetector.detectors :=
  PriceActionDetector.mk_detectors
    (fun _ _ => None) (fun _ _ => None) (fun _ _ => None)
    (fun _ i => Some (PriceActionPattern.mk doji "Doji" (Z.of_nat i)))
    (fun df =>
       Some (PriceActionPattern.mk bos_bullish "Break of Structure"
               (Z.of_nat (length df) - 1))).

Definition busy_generator : SignalGenerator.t :=
  let g := generator aggressive in
  SignalGenerator.mk (SignalGenerator.config g)
    (PriceActionDetector.of_detectors busy_detectors)
    (SignalGenerator.sr_detector g)
    (SignalGenerator.indicators g)
    (SignalGenerator.format_5f g)
    (SignalGenerator.format_1f g).

(** A transport that lets the login through, and a client connected
    over it. *)
Definition good_transport : Transport.t :=
  transport (Py.Ok (true, no_reason)) (Py.Ok tt) (Py.Ok (Some (price 100))).

Definition new_client : IQOptionClient.t :=
  IQOptionClient.init (Some "user@example.org") (Some "secret") None environ.

Definition connected_client : IQOptionClient.t :=
  snd (IQOptionClient.connect new_client None None None good_transport).

(** A registry in which alice connected at time 0. *)
Definition alice : IQOptionSessionManager.call :=
  IQOptionSessionManager.mk_call "alice" (Some "user@example.org")
    (Some "secret") None.

Definition registry : IQOptionSessionManager.t :=
  snd (IQOptionSessionManager.run_alone alice IQOptionSessionManager.Entry
         [(good_transport, 0); (good_transport, 0)]
         IQOptionSessionManager.init).

Definition doji_pattern : PriceActionPattern.t :=
  PriceActionPattern.mk doji "Doji" 1.

(** Twenty one-minute candles. *)
Definition long_frame : DataFrame :=
  (fun i => candle (Z.of_nat i * 60000000) 10 11) <$> seq 0 20.

Definition instrument (symbol : string) (otc active : bool)
    : TradingPair.t :=
  TradingPair.mk symbol symbol otc active "BINARY".

(** A signal as the generator would build it, generated at [t]. *)
Definition signal (id : string) (t : Py.datetime) (symbol : string)
    (d : Direction) (confidence : Z) : TradingSignal.t :=
  TradingSignal.mk id t symbol 5 d (price 12)
    (Some (Py.replace_second0_microsecond0 (t + Py.minutes 1)))
    (Some (Py.replace_second0_microsecond0 (t + Py.minutes 1)
           + Py.minutes 5))
    (PriceActionPattern.mk pin_bar "Pin Bar" 1) None
    ["Padro: Pin Bar"] confidence 5.

Definition scanner (sensitivity : Sensitivity) : AutoScanner.t :=
  AutoScanner.init (generator sensitivity).

(** The same with a detector that finds no level, so that the direction
    follows the last candle. *)
Definition generator_without_levels (sensitivity : Sensitivity)
    : SignalGenerator.t :=
  let g := generator sensitivity in
  SignalGenerator.mk (SignalGenerator.config g)
    (SignalGenerator.pattern_detector g)
    (SupportResistanceDetector.mk (fun _ => []) (fun _ _ => false))
    (SignalGenerator.indicators g)
    (SignalGenerator.format_5f g)
    (SignalGenerator.format_1f g).

Definition scanner_without_levels (sensitivity : Sensitivity)
    : AutoScanner.t :=
  AutoScanner.init (generator_without_levels sensitivity).

End Example.

(** * Properties

    ** The signal generator *)

Module SignalGeneratorFacts.
Import SignalGenerator.

(** [is_near_level] answers [(True, level)] with one of the levels it was
    given, or [(False, None)]. *)
Lemma is_near_level_spec det price levels b o :
  SupportResistanceDetector.is_near_level det price levels = (b, o) ->
  (b = true /\ exists l, o = Some l /\ l ∈ levels)
  \/ (b = false /\ o = None).
Proof.
  revert b o. induction levels as [|l ls IH]; intros b o; simpl.
  - intros [= <- <-]. by right.
  - destruct (SupportResistanceDetector.within_tolerance det price l).
    + intros [= <- <-]. left. split; [done|]. exists l.
      split; [done|]. apply list_elem_of_here.
    + intros H. destruct (IH _ _ H) as [(-> & l' & -> & Hin)|[-> ->]].
      * left. split; [done|]. exists l'.
        split; [done|]. by apply list_elem_of_further.
      * by right.
Qed.

(** What a returned signal is made of. *)
Lemma generate_signal_inv self symbol df now uuid4 sig :
  generate_signal self symbol df now uuid4 = Py.Ok (Some sig) ->
  exists df' pattern sr_level direction,
    prepare self df = Py.Ok (Some df')
    /\ direction_fallback self df'
         (_determine_direction self pattern sr_level df')
       = Py.Ok (Some direction)
    /\ (forall l,
          sr_level = Some l ->
          l ∈ SupportResistanceDetector.detect_levels (sr_detector self) df')
    /\ let confluences :=
         final_confluences self
           (_calculate_confluences self pattern sr_level df' direction) in
       let entry_time :=
         Py.replace_second0_microsecond0 (now + Py.minutes 1)
         + Py.minutes (if is_aggressive self then 1 else 0) in
       let expiry_minutes :=
         Z.max (ScanConfig.timeframe (config self)) 2 in
       TradingSignal.timestamp sig = now
       /\ TradingSignal.direction sig = direction
       /\ TradingSignal.pattern sig = pattern
       /\ TradingSignal.support_resistance sig = sr_level
       /\ TradingSignal.confluences sig = confluences
       /\ TradingSignal.confidence sig
          = _calculate_confidence self confluences pattern sr_level
       /\ TradingSignal.entry_time sig = Some entry_time
       /\ TradingSignal.expiry_minutes sig = expiry_minutes
       /\ TradingSignal.expiry_time sig
          = Some (entry_time + Py.minutes expiry_minutes).
Proof.
  unfold generate_signal. intros H.
  destruct (prepare self df) as [[df'|]|] eqn:Hprep;
    simpl in H; try discriminate.
  destruct (select_patterns self df') as [[patterns|]|] eqn:Hsel;
    simpl in H; try discriminate.
  destruct (last patterns) as [pattern|] eqn:Hlast;
    simpl in H; [|discriminate].
  destruct (last df') as [last_row|] eqn:Hrow; simpl in H; [|discriminate].
  destruct (SupportResistanceDetector.is_near_level _ _ _)
    as [is_near sr_level] eqn:Hnear.
  destruct (direction_fallback _ _ _) as [[direction|]|] eqn:Hdir;
    simpl in H; try discriminate.
  destruct (negb (_apply_filters self df' direction)
            && negb (is_aggressive self)); [discriminate|].
  injection H as <-.
  exists df', pattern, sr_level, direction.
  apply is_near_level_spec in Hnear.
  split; [done|]. split; [done|]. split.
  { intros l ->. destruct Hnear as [(_ & l' & [= <-] & Hin)|[_ [=]]]. done. }
  simpl. destruct Hnear as [(-> & l' & -> & _)|[-> ->]]; done.
Qed.

(** The reasons of a signal are never empty. *)
Lemma final_confluences_nonempty self c :
  (1 <= length (final_confluences self c))%nat.
Proof.
  unfold final_confluences.
  destruct c as [|x c]; simpl; destruct (is_aggressive self); simpl;
    rewrite ?length_app; simpl; lia.
Qed.

(** [is_aggressive] reads the configured sensitivity. *)
Lemma is_aggressive_true self :
  is_aggressive self = true <->
  ScanConfig.sensitivity (config self) = aggressive.
Proof. unfold is_aggressive. apply bool_decide_eq_true. Qed.

(** C1: the confidence of a generated signal is the specified score, within
    [0, 95], and at least 55 in aggressive mode. *)
Theorem generate_signal_confidence self symbol df now uuid4 sig :
  (forall frame l,
     l ∈ SupportResistanceDetector.detect_levels (sr_detector self) frame ->
     SupportResistanceLevel.valid l) ->
  generate_signal self symbol df now uuid4 = Py.Ok (Some sig) ->
  TradingSignal.confidence sig =
    Spec.confidence (TradingSignal.confluences sig)
      (PriceActionPattern.pattern_type (TradingSignal.pattern sig))
      (TradingSignal.support_resistance sig)
  /\ 0 <= TradingSignal.confidence sig <= 95
  /\ (ScanConfig.sensitivity (config self) = aggressive ->
      55 <= TradingSignal.confidence sig).
Proof.
  intros Hvalid Hgen.
  destruct (generate_signal_inv _ _ _ _ _ _ Hgen)
    as (df' & pattern & sr_level & direction & _ & _ & Hin & Hsig).
  simpl in Hsig.
  destruct Hsig as (_ & _ & -> & -> & -> & -> & _).
  pose proof (final_confluences_nonempty self
    (_calculate_confluences self pattern sr_level df' direction)) as Hlen.
  set (reasons := final_confluences self _) in *.
  assert (Hlvl : 0 <= Spec.level_bonus sr_level <= 15).
  { destruct sr_level as [l|]; simpl; [|lia].
    specialize (Hvalid _ _ (Hin l eq_refl)).
    unfold SupportResistanceLevel.valid in Hvalid. lia. }
  assert (Hraw : _calculate_confidence self reasons pattern sr_level =
    Z.min (let raw := 50 + 5 * Z.of_nat (length reasons)
             + Spec.pattern_bonus (PriceActionPattern.pattern_type pattern)
             + Spec.level_bonus sr_level in
           if is_aggressive self then Z.max raw 55 else raw) 95).
  { unfold _calculate_confidence.
    destruct pattern as [pt d i]; simpl.
    destruct pt, sr_level as [l|]; simpl; destruct (is_aggressive self);
      f_equal; lia. }
  rewrite Hraw. unfold Spec.confidence, Spec.clamp.
  assert (Hpat : 0 <= Spec.pattern_bonus
                        (PriceActionPattern.pattern_type pattern))
    by (destruct (PriceActionPattern.pattern_type pattern); simpl; lia).
  simpl. split; [|split].
  - destruct (is_aggressive self); lia.
  - destruct (is_aggressive self); lia.
  - intros _. destruct (is_aggressive self); lia.
Qed.

(** Dropping seconds and microseconds gives the whole minute at or before
    the time, less than a minute away. *)
Lemma replace_second0_microsecond0_spec dt :
  (Py.minutes 1 | Py.replace_second0_microsecond0 dt)
  /\ dt - Py.minutes 1 < Py.replace_second0_microsecond0 dt <= dt.
Proof.
  unfold Py.replace_second0_microsecond0, Py.minutes.
  change (1 * 60000000) with 60000000.
  pose proof (Z.mod_pos_bound dt 60000000 ltac:(lia)) as Hb.
  split; [|lia].
  exists (dt / 60000000).
  pose proof (Z.div_mod dt 60000000 ltac:(lia)). lia.
Qed.

(** C2: the entry time of a generated signal is the next full minute after
    the generation time (one minute more in aggressive mode), hence in the
    future; the expiry is [max(timeframe, 2)] minutes after the entry. *)
Theorem generate_signal_timing self symbol df now uuid4 sig :
  generate_signal self symbol df now uuid4 = Py.Ok (Some sig) ->
  exists boundary entry expiry,
    TradingSignal.timestamp sig = now
    /\ TradingSignal.entry_time sig = Some entry
    /\ TradingSignal.expiry_time sig = Some expiry
    /\ Spec.next_minute_boundary now boundary
    /\ entry = boundary
               + Py.minutes
                   (if bool_decide
                         (ScanConfig.sensitivity (config self) = aggressive)
                    then 1 else 0)
    /\ TradingSignal.timestamp sig < entry
    /\ TradingSignal.expiry_minutes sig
       = Z.max (ScanConfig.timeframe (config self)) 2
    /\ expiry = entry + Py.minutes (TradingSignal.expiry_minutes sig).
Proof.
  intros Hgen.
  destruct (generate_signal_inv _ _ _ _ _ _ Hgen)
    as (df' & pattern & sr_level & direction & _ & _ & _ & Hsig).
  simpl in Hsig.
  destruct Hsig as (Hts & _ & _ & _ & _ & _ & Hentry & Hmin & Hexp).
  destruct (replace_second0_microsecond0_spec (now + Py.minutes 1))
    as [Hdiv Hrange].
  eexists _, _, _. rewrite Hts, Hentry, Hexp, Hmin.
  split; [done|]. split; [done|]. split; [done|].
  split; [split; [exact Hdiv|lia]|].
  split; [done|].
  split; [|done].
  fold (is_aggressive self).
  destruct (is_aggressive self); unfold Py.minutes in *; lia.
Qed.

(** C5: the direction by basis pattern, and the fallback when none is
    resolved. *)
Theorem direction_resolution self pattern sr_level df :
  let kind := PriceActionPattern.pattern_type pattern in
  let resolved := _determine_direction self pattern sr_level df in
  (kind ∈ [pin_bar; engulfing_bullish; bos_bullish] -> resolved = Some CALL)
  /\ (kind ∈ [engulfing_bearish; bos_bearish] -> resolved = Some PUT)
  /\ (kind = doji ->
      forall rsi_value,
        last (TechnicalIndicators.calculate_rsi (indicators self) df)
          = Some rsi_value ->
        resolved
          = Some (if Py.flt_lt rsi_value (Py.of_Z 50) then CALL else PUT))
  /\ (kind = inside_bar ->
      resolved
        = Some (if bool_decide
                     (TechnicalIndicators.detect_trend (indicators self) df
                      = bearish)
                then PUT else CALL))
  /\ (forall d, direction_fallback self df (Some d) = Py.Ok (Some d))
  /\ (ScanConfig.sensitivity (config self) = aggressive ->
      forall last_candle previous_candle,
        Py.iloc_neg df 1 = Some last_candle ->
        Py.iloc_neg df 2 = Some previous_candle ->
        direction_fallback self df None
          = Py.Ok (Some (if bool_decide (Candle.close previous_candle
                                         <= Candle.close last_candle)%Qc
                         then CALL else PUT)))
  /\ (ScanConfig.sensitivity (config self) <> aggressive ->
      direction_fallback self df None = Py.Ok None).
Proof.
  intros kind resolved. subst kind resolved. unfold _determine_direction.
  repeat split.
  - intros Hk. rewrite bool_decide_eq_true_2; done.
  - intros Hk. rewrite bool_decide_eq_false_2.
    + rewrite bool_decide_eq_true_2; done.
    + revert Hk. rewrite !list_elem_of_In. simpl. intuition congruence.
  - intros Hk v Hv. rewrite Hk, Hv. simpl. by destruct (Py.flt_lt _ _).
  - intros Hk. rewrite Hk. simpl. by destruct (bool_decide _).
  - intros Hs c1 c2 H1 H2. unfold direction_fallback.
    rewrite (proj2 (is_aggressive_true self) Hs), H1, H2. done.
  - intros Hs. unfold direction_fallback.
    destruct (is_aggressive self) eqn:E; [|done].
    by apply is_aggressive_true in E.
Qed.

(** The direction is always resolved: the fallback of lines 99-102 never
    runs. *)
Lemma _determine_direction_is_Some self pattern sr_level df :
  is_Some (_determine_direction self pattern sr_level df).
Proof.
  unfold _determine_direction.
  repeat case_bool_decide; eauto.
  - destruct (last _); [destruct (Py.flt_lt _ _)|]; eauto.
Qed.

(** A generated signal carries the direction resolved from its pattern. *)
Lemma generate_signal_direction self symbol df now uuid4 sig :
  generate_signal self symbol df now uuid4 = Py.Ok (Some sig) ->
  exists df',
    prepare self df = Py.Ok (Some df')
    /\ _determine_direction self (TradingSignal.pattern sig)
         (TradingSignal.support_resistance sig) df'
       = Some (TradingSignal.direction sig).
Proof.
  intros Hgen.
  destruct (generate_signal_inv _ _ _ _ _ _ Hgen)
    as (df' & pattern & sr_level & direction & Hprep & Hdir & _ & Hsig).
  simpl in Hsig. destruct Hsig as (_ & -> & -> & -> & _).
  exists df'. split; [done|].
  destruct (_determine_direction_is_Some self pattern sr_level df')
    as [d Hd].
  rewrite Hd in Hdir |- *. injection Hdir as ->. reflexivity.
Qed.

(** The example generator, in aggressive mode, turns the two-candle frame
    into a CALL signal of confidence 84. *)
Lemma generate_signal_confidence_witness :
  exists sig,
    generate_signal (Example.generator aggressive) "EURUSD" Example.frame
      90500000 "a1" = Py.Ok (Some sig)
    /\ TradingSignal.confidence sig = 84.
Proof.
  eexists. split; [vm_compute; reflexivity|].
  edestruct (generate_signal_confidence (Example.generator aggressive)
              "EURUSD" Example.frame 90500000 "a1") as (H & _).
  - intros frame l Hin. simpl in Hin. apply list_elem_of_singleton in Hin.
    subst l. unfold SupportResistanceLevel.valid. simpl. lia.
  - vm_compute. reflexivity.
  - rewrite H. vm_compute. reflexivity.
Defined.

(** Generated 90.5 s after the origin, the example signal enters at 180 s
    and expires five minutes later. *)
Lemma generate_signal_timing_witness :
  exists sig entry expiry,
    generate_signal (Example.generator aggressive) "EURUSD" Example.frame
      90500000 "a1" = Py.Ok (Some sig)
    /\ TradingSignal.entry_time sig = Some entry
    /\ TradingSignal.expiry_time sig = Some expiry
    /\ TradingSignal.timestamp sig < entry
    /\ expiry = entry + Py.minutes (TradingSignal.expiry_minutes sig).
Proof.
  destruct (generate_signal_timing (Example.generator aggressive)
              "EURUSD" Example.frame 90500000 "a1" _ eq_refl)
    as (boundary & entry & expiry & _ & He & Hx & _ & _ & Hlt & _ & Hexp).
  eexists _, entry, expiry. split; [reflexivity|]. done.
Defined.

(** A doji with no RSI history (the value is not a number) resolves to
    PUT. *)
Lemma direction_resolution_witness :
  _determine_direction (Example.generator moderate) Example.doji_pattern
    None Example.frame = Some PUT.
Proof.
  destruct (direction_resolution (Example.generator moderate)
              Example.doji_pattern None Example.frame)
    as (_ & _ & Hdoji & _).
  rewrite (Hdoji eq_refl Py.nan); [reflexivity|].
  vm_compute. reflexivity.
Defined.

End SignalGeneratorFacts.

(** ** The automatic scanner: history, deduplication, queries *)

Module AutoScannerFacts.
Import AutoScanner.

(** The history after one acceptance: the new signal is appended and, past
    200 entries, the head is dropped. *)
Lemma accept_history self s :
  signal_history (accept self s) =
    if bool_decide (200 < length (signal_history self ++ [s]))%nat
    then drop 1 (signal_history self ++ [s])
    else signal_history self ++ [s].
Proof.
  unfold accept. case_bool_decide as Hlen; [|done].
  destruct (signal_history self ++ [s]) eqn:E; [|done].
  simpl in Hlen. lia.
Qed.

Lemma accept_history_length self s :
  (length (signal_history self) <= 200)%nat ->
  (length (signal_history (accept self s)) <= 200)%nat.
Proof.
  intros H. rewrite accept_history.
  case_bool_decide; rewrite ?length_drop, length_app in *; simpl in *; lia.
Qed.

Lemma accept_all_history_length self signals :
  (length (signal_history self) <= 200)%nat ->
  (length (signal_history (accept_all self signals)) <= 200)%nat.
Proof.
  revert self. induction signals as [|s signals IH]; intros self H; simpl.
  - done.
  - apply IH, accept_history_length, H.
Qed.

(** Strict FIFO: the history is the last 200 signals accepted, in order. *)
Lemma accept_all_history self signals :
  (length (signal_history self) <= 200)%nat ->
  signal_history (accept_all self signals) =
    drop (length (signal_history self ++ signals) - 200)
         (signal_history self ++ signals).
Proof.
  revert self. induction signals as [|s signals IH]; intros self H; simpl.
  - rewrite app_nil_r. replace (_ - 200)%nat with 0%nat by lia. done.
  - rewrite IH by (by apply accept_history_length).
    rewrite accept_history.
    replace (signal_history self ++ s :: signals)
      with ((signal_history self ++ [s]) ++ signals)
      by (by rewrite <- app_assoc).
    set (h := signal_history self ++ [s]).
    assert (Hh : length h = S (length (signal_history self)))
      by (subst h; rewrite length_app; simpl; lia).
    case_bool_decide as Hlen.
    + rewrite <- (drop_app_le h signals 1) by lia.
      rewrite drop_drop. f_equal.
      rewrite length_drop, !length_app. lia.
    + done.
Qed.

(** The index and the per-symbol map never refer to an evicted signal. *)
Lemma accept_consistent self s :
  consistent self -> consistent (accept self s).
Proof.
  intros [Hindex Hlatest].
  set (latest := <[TradingSignal.symbol s := s]> (latest_signals self)).
  set (index := <[TradingSignal.signal_id s := s]> (signal_index self)).
  set (history := signal_history self ++ [s]).
  assert (Hi : forall id x, index !! id = Some x ->
                 x ∈ history /\ TradingSignal.signal_id x = id).
  { intros id x. subst index history. rewrite lookup_insert.
    case_decide as Hid.
    - intros [= <-]. split; [|done].
      apply elem_of_app. right. apply list_elem_of_here.
    - intros Hx. destruct (Hindex _ _ Hx) as [Hin Heq].
      split; [|done]. apply elem_of_app. by left. }
  assert (Hl : forall sym x, latest !! sym = Some x ->
                 x ∈ history /\ TradingSignal.symbol x = sym).
  { intros sym x. subst latest history. rewrite lookup_insert.
    case_decide as Hsym.
    - intros [= <-]. split; [|done].
      apply elem_of_app. right. apply list_elem_of_here.
    - intros Hx. destruct (Hlatest _ _ Hx) as [Hin Heq].
      split; [|done]. apply elem_of_app. by left. }
  unfold accept. fold latest index history.
  case_bool_decide as Hlen; [|by split].
  destruct history as [|oldest rest] eqn:Eh; [by split|].
  split; simpl.
  - intros id x. rewrite lookup_delete. case_decide as Hid; [done|].
    intros Hx. destruct (Hi _ _ Hx) as [Hin Heq]. split; [|done].
    apply elem_of_cons in Hin as [->|Hin]; [congruence|done].
  - intros sym x Hx.
    assert (Hx' : latest !! sym = Some x
                  /\ ~ (sym = TradingSignal.symbol oldest /\ x = oldest)).
    { case_bool_decide as Hold.
      - rewrite lookup_delete in Hx. case_decide as Hsym; [done|].
        split; [done|]. intros [-> _]. done.
      - split; [done|]. intros [-> ->]. done. }
    destruct Hx' as [Hlk Hne]. destruct (Hl _ _ Hlk) as [Hin Heq].
    split; [|done].
    apply elem_of_cons in Hin as [->|Hin]; [|done].
    exfalso. apply Hne. by split.
Qed.

Lemma accept_all_consistent signals : forall self,
  consistent self -> consistent (accept_all self signals).
Proof.
  induction signals as [|s signals IH]; intros self H; simpl; [done|].
  by apply IH, accept_consistent.
Qed.

(** C3: the history never exceeds 200 signals, and the acceptance that
    would make it 201 evicts the first-appended signal from the history
    and from the by-id index, and from the per-symbol map exactly when it
    is that symbol's latest. *)
Theorem history_eviction generator signals :
  let self := accept_all (init generator) signals in
  (length (signal_history self) <= 200)%nat
  /\ signal_history self = drop (length signals - 200) signals
  /\ consistent self
  /\ forall s,
       let after := accept self s in
       let latest :=
         <[TradingSignal.symbol s := s]> (latest_signals self) in
       let index :=
         <[TradingSignal.signal_id s := s]> (signal_index self) in
       ((length (signal_history self) < 200)%nat ->
          signal_history after = signal_history self ++ [s]
          /\ signal_index after = index
          /\ latest_signals after = latest)
       /\ (length (signal_history self) = 200%nat ->
           exists oldest rest,
             signal_history self = oldest :: rest
             /\ signal_history after = rest ++ [s]
             /\ signal_index after
                = delete (TradingSignal.signal_id oldest) index
             /\ signal_index after !! TradingSignal.signal_id oldest = None
             /\ (latest !! TradingSignal.symbol oldest = Some oldest ->
                 latest_signals after
                 = delete (TradingSignal.symbol oldest) latest
                 /\ latest_signals after !! TradingSignal.symbol oldest
                    = None)
             /\ (latest !! TradingSignal.symbol oldest <> Some oldest ->
                 latest_signals after = latest)).
Proof.
  intros self.
  assert (H0 : (length (signal_history (init generator)) <= 200)%nat)
    by (simpl; lia).
  split; [by apply accept_all_history_length|].
  split; [subst self; by rewrite accept_all_history|].
  split; [apply accept_all_consistent; split; intros k x;
          simpl; rewrite lookup_empty; discriminate|].
  intros s after latest index. subst after. split.
  - intros Hlt. unfold accept.
    rewrite bool_decide_eq_false_2 by (rewrite length_app; simpl; lia).
    done.
  - intros Heq.
    destruct (signal_history self) as [|oldest rest] eqn:Eh;
      [simpl in Heq; lia|].
    exists oldest, rest. split; [done|].
    unfold accept. rewrite Eh.
    rewrite bool_decide_eq_true_2
      by (rewrite length_app; simpl in *; lia).
    simpl. fold latest index.
    split; [done|]. split; [done|].
    split; [apply lookup_delete_eq|].
    split.
    + intros Hl. rewrite bool_decide_eq_true_2 by done.
      split; [done|]. apply lookup_delete_eq.
    + intros Hl. by rewrite bool_decide_eq_false_2.
Qed.

(** C4: a new signal is dropped when the symbol's latest signal has the same
    direction and is less than 15 seconds older; it passes when the
    direction differs, when the gap is 15 seconds or more, or when the
    symbol has no latest signal. *)
Theorem _scan_pair_deduplication self pair df now uuid4 signal :
  ((if bool_decide (ScanConfig.sensitivity (config self) = aggressive)
    then 20 else 30) <= length df)%nat ->
  SignalGenerator.generate_signal (signal_generator self)
    (TradingPair.symbol pair) df now uuid4 = Py.Ok (Some signal) ->
  let result := _scan_pair self pair (Py.Ok (Some df)) now uuid4 in
  (forall prev_signal,
     latest_signals self !! TradingPair.symbol pair = Some prev_signal ->
     (TradingSignal.timestamp signal - TradingSignal.timestamp prev_signal
        < Py.seconds 15 ->
      TradingSignal.direction signal = TradingSignal.direction prev_signal ->
      result = None)
     /\ (TradingSignal.direction signal
           <> TradingSignal.direction prev_signal
         \/ Py.seconds 15
            <= TradingSignal.timestamp signal
               - TradingSignal.timestamp prev_signal ->
         result = Some signal))
  /\ (latest_signals self !! TradingPair.symbol pair = None ->
      result = Some signal).
Proof.
  intros Hlen Hgen result. subst result. unfold _scan_pair.
  rewrite bool_decide_eq_false_2 by lia. rewrite Hgen.
  split.
  - intros prev Hprev. rewrite Hprev. split.
    + intros Hgap Hdir.
      by rewrite !bool_decide_eq_true_2.
    + intros [Hdir|Hgap].
      * rewrite (bool_decide_eq_false_2 (_ = _)) by done.
        by rewrite andb_false_r.
      * by rewrite bool_decide_eq_false_2 by lia.
  - intros Hnone. by rewrite Hnone.
Qed.

Lemma slice_to_nonneg {A} (l : list A) (n : Z) :
  0 <= n -> Py.slice_to l n = take (Z.to_nat n) l.
Proof. intros H. unfold Py.slice_to. by rewrite decide_False by lia. Qed.

Lemma slice_to_neg {A} (l : list A) (n : Z) :
  n < 0 -> Py.slice_to l n = take (length l - Z.to_nat (- n)) l.
Proof.
  intros H. unfold Py.slice_to. rewrite decide_True by done.
  f_equal. lia.
Qed.

(** What [get_latest_signals] does for every [limit]: only signals at or
    above the confidence floor, most recently accepted first, at most
    [limit] of them when [limit] is not negative; the scanner is left as it
    was. *)
Lemma get_latest_signals_result self limit min_confidence :
  let qualifies s :=
    Py.flt_ge (Py.of_Z (TradingSignal.confidence s)) min_confidence = true in
  let result := fst (get_latest_signals self limit min_confidence) in
  snd (get_latest_signals self limit min_confidence) = self
  /\ Forall qualifies result
  /\ result `sublist_of` reverse (signal_history self)
  /\ (0 <= limit ->
      result
        = take (Z.to_nat limit)
            (filter qualifies (reverse (signal_history self)))
      /\ Z.of_nat (length result) <= limit)
  /\ (limit < 0 ->
      let matching := filter qualifies (reverse (signal_history self)) in
      result = take (length matching - Z.to_nat (- limit)) matching).
Proof.
  intros qualifies result. subst result. unfold get_latest_signals. simpl.
  fold qualifies.
  set (matching := filter qualifies (reverse (signal_history self))).
  assert (Hpre : Py.slice_to matching limit `prefix_of` matching).
  { unfold Py.slice_to. case_decide; apply prefix_take. }
  split; [done|]. split; [|split; [|split]].
  - destruct Hpre as [k Hk].
    assert (Hall : Forall qualifies matching)
      by (subst matching; apply Forall_forall; intros x Hx;
          by apply list_elem_of_filter in Hx as [? _]).
    rewrite Hk in Hall. by apply Forall_app in Hall as [? _].
  - etrans; [|apply (sublist_filter qualifies)]. fold matching.
    unfold Py.slice_to. case_decide; apply sublist_take.
  - intros Hlim. rewrite slice_to_nonneg by done. split; [done|].
    rewrite length_take. lia.
  - intros Hlim. by rewrite slice_to_neg.
Qed.

(** Ten seconds after a CALL on EURUSD, a second CALL on EURUSD is
    dropped. *)
Lemma _scan_pair_deduplication_witness :
  let earlier := Example.signal "p0" 80500000 "EURUSD" CALL 70 in
  let self := accept (Example.scanner aggressive) earlier in
  _scan_pair self (Example.instrument "EURUSD" false true)
    (Py.Ok (Some Example.long_frame)) 90500000 "a1" = None.
Proof.
  intros earlier self.
  edestruct (_scan_pair_deduplication self
               (Example.instrument "EURUSD" false true)
               Example.long_frame 90500000 "a1") as (Hprev & _).
  - vm_compute. lia.
  - vm_compute. reflexivity.
  - destruct (Hprev earlier) as (Hdrop & _).
    + vm_compute. reflexivity.
    + apply Hdrop; vm_compute; reflexivity.
Defined.

(** C10: a negative [limit] does not bound the result.  The slice
    [signals[:limit]] then drops the last [-limit] qualifying signals and
    returns all the others: whenever more than [-limit] signals qualify,
    the call returns signals, where "at most [limit]" allows none. *)
Theorem get_latest_signals_over_limit self limit min_confidence :
  limit < 0 ->
  let qualifies s :=
    Py.flt_ge (Py.of_Z (TradingSignal.confidence s)) min_confidence = true in
  let matching := filter qualifies (reverse (signal_history self)) in
  let result := fst (get_latest_signals self limit min_confidence) in
  (Z.to_nat (- limit) < length matching)%nat ->
  result = take (length matching - Z.to_nat (- limit)) matching
  /\ Z.of_nat (length result) = Z.of_nat (length matching) + limit
  /\ result <> []
  /\ ~ (Z.of_nat (length result) <= limit).
Proof.
  intros Hneg qualifies matching result Hmany.
  assert (Hres : result = take (length matching - Z.to_nat (- limit)) matching).
  { subst result. unfold get_latest_signals. simpl. fold qualifies.
    fold matching. by rewrite slice_to_neg. }
  assert (Hlen : length result
                 = (length matching - Z.to_nat (- limit))%nat).
  { rewrite Hres, length_take. lia. }
  split; [exact Hres|]. split; [lia|]. split; [|lia].
  intros Hnil. rewrite Hnil in Hlen. simpl in Hlen. lia.
Qed.

(** With [limit = -1] and two qualifying signals the call returns one
    signal. *)
Lemma get_latest_signals_over_limit_witness :
  let self :=
    accept_all (Example.scanner moderate)
      [Example.signal "s1" 0 "EURUSD" CALL 80;
       Example.signal "s2" 60000000 "GBPUSD" PUT 80] in
  let result := fst (get_latest_signals self (-1) (Py.of_Z 60)) in
  result = [Example.signal "s2" 60000000 "GBPUSD" PUT 80]
  /\ ~ (Z.of_nat (length result) <= -1).
Proof.
  intros self result.
  destruct (get_latest_signals_over_limit self (-1) (Py.of_Z 60))
    as (Hres & _ & _ & Hover).
  - lia.
  - vm_compute. lia.
  - split; [|exact Hover]. etrans; [exact Hres|]. vm_compute. reflexivity.
Defined.

(** With [limit = 1] the same scanner returns the most recent signal
    only. *)
Lemma get_latest_signals_result_witness :
  let self :=
    accept_all (Example.scanner moderate)
      [Example.signal "s1" 0 "EURUSD" CALL 80;
       Example.signal "s2" 60000000 "GBPUSD" PUT 80] in
  Z.of_nat (length (fst (get_latest_signals self 1 (Py.of_Z 60)))) <= 1.
Proof.
  intros self.
  destruct (get_latest_signals_result self 1 (Py.of_Z 60))
    as (_ & _ & _ & Hpos & _).
  apply Hpos. lia.
Defined.

End AutoScannerFacts.

(** ** Instrument selection and the scan cycles *)

Module ScannerFacts.

(** The broker-gated scanner drops an allowlisted instrument that is not
    active: the resolved set is not the intersection of the full list with
    the allowlist. *)
Lemma allowlist_drops_inactive :
  let config :=
    ScanConfig.mk manual (Some ["EURUSD"]) 5 moderate true true true
      false false in
  let all_pairs :=
    [Example.instrument "EURUSD" false false;
     Example.instrument "GBPUSD" false true] in
  IQOptionScanner._get_otc_pairs config (Py.Ok all_pairs) = []
  /\ Spec.allowlist_intersection all_pairs ["EURUSD"]
     = [Example.instrument "EURUSD" false false]
  /\ IQOptionScanner._get_otc_pairs config (Py.Ok all_pairs)
     <> Spec.allowlist_intersection all_pairs ["EURUSD"].
Proof.
  intros config all_pairs.
  assert (H1 : IQOptionScanner._get_otc_pairs config (Py.Ok all_pairs) = [])
    by (vm_compute; reflexivity).
  assert (H2 : Spec.allowlist_intersection all_pairs ["EURUSD"]
               = [Example.instrument "EURUSD" false false])
    by (vm_compute; reflexivity).
  split; [exact H1|]. split; [exact H2|].
  rewrite H1, H2. discriminate.
Qed.

(** The automatic scanner compares symbols as they are written. *)
Example _get_pairs_to_scan_lower_case :
  let config :=
    ScanConfig.mk manual (Some ["eurusd"]) 5 moderate true true true
      false false in
  let self := AutoScanner.init (Example.generator_of config) in
  AutoScanner._get_pairs_to_scan self
    (fun _ => [Example.instrument "EURUSD" false true]) = [].
Proof. vm_compute. reflexivity. Qed.

Lemma upper_in_set (s : string) (allowlist : list string) :
  Py.upper s ∈ (list_to_set (Py.upper <$> allowlist) : gset string)
  <-> Exists (Spec.same_symbol s) allowlist.
Proof.
  rewrite elem_of_list_to_set, list_elem_of_fmap, Exists_exists.
  unfold Spec.same_symbol. split; intros (a & H1 & H2); exists a; done.
Qed.

(** C9, as amended: with a non-empty allowlist the broker-gated scanner
    keeps the active instruments that pass its market filter and match an
    allowlist entry ignoring case; the automatic scanner, in manual mode,
    keeps instruments of the full list, among them every one whose symbol
    is in the allowlist, and only ones that match an entry ignoring
    case. *)
Theorem allowlist_selection config allowlist :
  ScanConfig.symbols config = Some allowlist ->
  allowlist <> [] ->
  (forall all_pairs,
     IQOptionScanner._get_otc_pairs config (Py.Ok all_pairs)
     = Spec.allowlist_intersection
         (filter (IQOptionScanner.eligible config) all_pairs) allowlist)
  /\ (forall self get_available_pairs,
        AutoScanner.config self = config ->
        ScanConfig.mode config = manual ->
        let result :=
          AutoScanner._get_pairs_to_scan self get_available_pairs in
        result `sublist_of` get_available_pairs true
        /\ (forall p, p ∈ get_available_pairs true ->
                      TradingPair.symbol p ∈ allowlist -> p ∈ result)
        /\ (forall p, p ∈ result -> Spec.allowed allowlist p)).
Proof.
  intros Hsym Hne. destruct allowlist as [|a allowlist]; [done|]. split.
  - intros all_pairs. unfold IQOptionScanner._get_otc_pairs.
    rewrite Hsym. unfold Spec.allowlist_intersection.
    set (active := filter _ all_pairs).
    assert (Hmarket :
      (if ScanConfig.only_otc config
       then filter (fun p => TradingPair.is_otc p = true) active
       else if ScanConfig.only_open_market config
            then filter (fun p => TradingPair.is_otc p = false) active
            else active) = filter (IQOptionScanner.eligible config) all_pairs).
    { subst active.
      destruct (ScanConfig.only_otc config) eqn:Eotc at 1;
        [|destruct (ScanConfig.only_open_market config) eqn:Eopen at 1];
        rewrite ?list_filter_filter; apply list_filter_iff; intros p;
        unfold IQOptionScanner.eligible; rewrite Eotc, ?Eopen;
        intuition congruence. }
    rewrite Hmarket. apply list_filter_iff. intros p.
    unfold Spec.allowed. apply upper_in_set.
  - intros self client Hcfg Hmode result. subst result.
    unfold AutoScanner._get_pairs_to_scan. rewrite Hcfg, Hmode, Hsym.
    split; [apply sublist_filter|]. split.
    + intros p Hp Hin. apply list_elem_of_filter. done.
    + intros p Hp. apply list_elem_of_filter in Hp as [Hin _].
      unfold Spec.allowed. apply Exists_exists.
      exists (TradingPair.symbol p). split; [done|]. reflexivity.
Qed.

(** With the allowlist [eurusd], the broker-gated scanner keeps the active
    EURUSD. *)
Lemma allowlist_selection_witness :
  let config :=
    ScanConfig.mk manual (Some ["eurusd"]) 5 moderate true true true
      false false in
  IQOptionScanner._get_otc_pairs config
    (Py.Ok [Example.instrument "EURUSD" false true;
            Example.instrument "GBPUSD" false true])
  = [Example.instrument "EURUSD" false true].
Proof.
  intros config.
  destruct (allowlist_selection config ["eurusd"]) as [H _];
    [reflexivity | discriminate |].
  rewrite H. vm_compute. reflexivity.
Defined.











End ScannerFacts.

(** ** The login: validation of the balance *)

Module LoginFacts.
Import IQOptionClient.

(** What [_finalize_successful_login] leaves behind: it returns only after
    a balance that is not null and not negative; when it raises, the client
    is disconnected unless the exception came from the account switch or
    from the liveness probe. *)
Lemma _finalize_successful_login_outcome self tr :
  api self = true ->
  match _finalize_successful_login self tr with
  | (Py.Ok _, after) =>
      connected after = true
      /\ exists balance,
           Transport.get_balance tr = Py.Ok (Some balance)
           /\ (0 <= balance)%Qc
  | (Py.Raise e, after) =>
      connected after = true ->
      Transport.change_balance tr = Py.Raise e
      \/ Transport.check_connect tr = Some (Py.Raise e)
  end.
Proof.
  intros Hapi. unfold _finalize_successful_login. rewrite Hapi. simpl.
  destruct (Transport.change_balance tr) as [[]|e]; [|by left].
  destruct (Transport.check_connect tr) as [[[|]|e]|];
    try (by right); try discriminate;
    (destruct (Transport.get_balance tr) as [[b|]|e]; try discriminate;
     case_bool_decide as Hneg; try discriminate; simpl;
     (split; [done|]); exists b; split; [done|];
     by apply Qcnot_lt_le).
Qed.

(** A balance fetch that is reached and returns null, a negative value or
    raises makes the finalisation raise and leaves the client
    disconnected. *)
Lemma _finalize_successful_login_bad_balance self tr :
  api self = true ->
  (exists u, Transport.change_balance tr = Py.Ok u) ->
  (Transport.check_connect tr = None
   \/ Transport.check_connect tr = Some (Py.Ok true)) ->
  (Transport.get_balance tr = Py.Ok None
   \/ (exists balance, Transport.get_balance tr = Py.Ok (Some balance)
                       /\ (balance < 0)%Qc)
   \/ (exists e, Transport.get_balance tr = Py.Raise e)) ->
  exists e after,
    _finalize_successful_login self tr = (Py.Raise e, after)
    /\ connected after = false.
Proof.
  intros Hapi [u Hcb] Hcheck Hbal.
  unfold _finalize_successful_login. rewrite Hapi, Hcb. simpl.
  destruct Hcheck as [-> | ->];
    destruct Hbal as [-> | [(b & -> & Hb) | (e & ->)]];
    rewrite ?bool_decide_eq_true_2 by done;
    eexists _, _; (split; [reflexivity|done]).
Qed.

(** Through [connect]: a login attempt by a client that is not connected
    never raises, ends connected exactly when it returns [True], and
    returns [True] only after the transport accepted the login and the
    balance came back not null and not negative. *)
Lemma connect_validates_balance self email_arg password_arg account tr :
  connected self = false ->
  exists flag after,
    connect self email_arg password_arg account tr = (Py.Ok flag, after)
    /\ (connected after = true <-> flag = true)
    /\ (flag = true ->
        exists balance,
          Transport.get_balance tr = Py.Ok (Some balance)
          /\ (0 <= balance)%Qc).
Proof.
  intros Hconn. unfold connect.
  destruct (Transport.available tr); simpl;
    [|eexists _, _; split; [reflexivity|]; simpl; rewrite Hconn;
      split; [split|]; discriminate].
  set (s1 := if truthy email_arg then _ else self).
  set (s2 := if truthy password_arg then _ else s1).
  set (s3 := match account with Some a => _ | None => s2 end).
  assert (H3 : connected s3 = false).
  { subst s3 s2 s1.
    destruct account, (truthy password_arg), (truthy email_arg);
      simpl; exact Hconn. }
  rewrite H3. simpl.
  destruct (_ || _);
    [eexists _, _; split; [reflexivity|]; simpl; rewrite H3;
     split; [split|]; discriminate|].
  destruct (Transport.create tr) as [[]|e];
    [|eexists _, _; split; [reflexivity|]; simpl;
      split; [split|]; discriminate].
  destruct (Transport.connect tr) as [[[|] reason]|e];
    [| |eexists _, _; split; [reflexivity|]; simpl;
        split; [split|]; discriminate].
  - match goal with
    | |- context [_finalize_successful_login ?s tr] =>
        pose proof (_finalize_successful_login_outcome s tr eq_refl) as Hfin;
        destruct (_finalize_successful_login s tr) as [[[]|e] after]
    end.
    + destruct Hfin as [Hc Hb].
      eexists _, _. split; [reflexivity|]. split; [done|]. intros _. exact Hb.
    + eexists _, _. split; [reflexivity|]. simpl.
      split; [split|]; discriminate.
  - destruct (Transport.is_two_factor_challenge reason);
      eexists _, _; (split; [reflexivity|]); simpl; rewrite ?H3;
      (split; [split|]; discriminate).
Qed.

(** Through [submit_two_factor_code]: success is reported only after a
    balance that is not null and not negative, and a balance fetch that is
    reached and fails makes the method raise and leaves the client
    disconnected. *)
Lemma submit_two_factor_code_validates_balance self code tr reason :
  awaiting_two_factor self = true ->
  api self = true ->
  Transport.connect_2fa tr code = Py.Ok (true, reason) ->
  (forall message after,
     submit_two_factor_code self code tr = (Py.Ok (true, message), after) ->
     connected after = true
     /\ exists balance,
          Transport.get_balance tr = Py.Ok (Some balance)
          /\ (0 <= balance)%Qc)
  /\ ((exists u, Transport.change_balance tr = Py.Ok u) ->
      (Transport.check_connect tr = None
       \/ Transport.check_connect tr = Some (Py.Ok true)) ->
      (Transport.get_balance tr = Py.Ok None
       \/ (exists balance, Transport.get_balance tr = Py.Ok (Some balance)
                           /\ (balance < 0)%Qc)
       \/ (exists e, Transport.get_balance tr = Py.Raise e)) ->
      exists e after,
        submit_two_factor_code self code tr = (Py.Raise e, after)
        /\ connected after = false).
Proof.
  intros Haw Hapi H2fa. unfold submit_two_factor_code.
  rewrite Haw, Hapi, H2fa. simpl. split.
  - intros message after.
    pose proof (_finalize_successful_login_outcome self tr Hapi) as Hfin.
    destruct (_finalize_successful_login self tr) as [[[]|e] s];
      [|discriminate].
    intros [= _ <-]. exact Hfin.
  - intros Hcb Hcheck Hbal.
    destruct (_finalize_successful_login_bad_balance self tr Hapi Hcb
                Hcheck Hbal) as (e & after & -> & Hc).
    by exists e, after.
Qed.

(** C8, where the code departs from it: when the second factor is accepted
    and the account switch that follows raises, the exception leaves
    [submit_two_factor_code] (nothing catches it there, while [connect]
    catches it and clears the state) and the client stays connected
    although no balance was fetched. *)
Theorem submit_two_factor_code_unvalidated self code tr reason e :
  awaiting_two_factor self = true ->
  api self = true ->
  Transport.connect_2fa tr code = Py.Ok (true, reason) ->
  Transport.change_balance tr = Py.Raise e ->
  exists after,
    submit_two_factor_code self code tr = (Py.Raise e, after)
    /\ connected after = true.
Proof.
  intros Haw Hapi H2fa Hcb. unfold submit_two_factor_code.
  rewrite Haw, Hapi, H2fa. simpl.
  unfold _finalize_successful_login. rewrite Hapi, Hcb. simpl.
  eexists. split; reflexivity.
Qed.

(** The pending example client, a second factor that is accepted and an
    account switch that raises: the call raises and the client is left
    connected. *)
Lemma submit_two_factor_code_unvalidated_witness :
  exists after,
    submit_two_factor_code Example.pending_client "123456"
      (Example.transport (Py.Ok (true, Example.no_reason))
         (Py.Raise (Py.TransportError "socket closed")) (Py.Ok None))
    = (Py.Raise (Py.TransportError "socket closed"), after)
    /\ connected after = true.
Proof.
  apply (submit_two_factor_code_unvalidated Example.pending_client "123456"
           _ Example.no_reason); vm_compute; reflexivity.
Defined.

(** The same login at the registry: [complete_two_factor] reports a
    failure, and [is_connected] then answers [True]. *)
Example complete_two_factor_unvalidated :
  let registry :=
    snd (IQOptionSessionManager.resume
           (IQOptionSessionManager.mk_call "alice" (Some "user@example.org")
              (Some "secret") None)
           (IQOptionSessionManager.AwaitConnect 0)
           (Example.transport (Py.Ok (false, Example.challenge)) (Py.Ok tt)
              (Py.Ok None))
           0
           (snd (IQOptionSessionManager.create_client
                   (IQOptionSessionManager.mk_call "alice"
                      (Some "user@example.org") (Some "secret") None)
                   (Example.transport (Py.Ok (false, Example.challenge))
                      (Py.Ok tt) (Py.Ok None))
                   IQOptionSessionManager.init))) in
  let '(result, after) :=
    IQOptionSessionManager.complete_two_factor registry "alice" "123456"
      (Example.transport (Py.Ok (true, Example.no_reason))
         (Py.Raise (Py.TransportError "socket closed")) (Py.Ok None))
      1 in
  fst result = false
  /\ IQOptionSessionManager.is_connected after "alice" = true.
Proof. vm_compute. split; reflexivity. Qed.

(** With the account switch answered, the same second factor and a null
    balance end disconnected, as the specification says. *)
Example submit_two_factor_code_null_balance :
  exists e after,
    submit_two_factor_code Example.pending_client "123456"
      (Example.transport (Py.Ok (true, Example.no_reason)) (Py.Ok tt)
         (Py.Ok None))
    = (Py.Raise e, after)
    /\ connected after = false.
Proof. eexists _, _. vm_compute. split; reflexivity. Qed.

End LoginFacts.

(** ** The session registry: one session per user *)

Module RegistryFacts.
Import IQOptionSessionManager.

(** Two [connect_user] calls for the same user that overlap: both find no
    session, both connect a client of their own, both register it.  The
    first client stays connected but is no longer in the registry. *)
Lemma connect_user_overlap_two_live :
  let args := mk_call "alice" (Some "user@example.org") (Some "secret") None in
  let accept :=
    Example.transport (Py.Ok (true, Example.no_reason)) (Py.Ok tt)
      (Py.Ok (Some (Example.price 100))) in
  let outcome :=
    schedule [(args, Entry); (args, Entry)] init
      [(0%nat, accept, 0); (1%nat, accept, 0);
       (0%nat, accept, 1); (1%nat, accept, 2)] in
  (exists m1 m2, fst outcome = [(args, Returned (true, m1));
                                (args, Returned (true, m2))])
  /\ live_sessions (snd outcome) "alice" ≡ₚ [0%nat; 1%nat]
  /\ sessions (snd outcome) !! "alice" = Some 1%nat
  /\ ~ one_session (snd outcome) "alice".
Proof.
  intros args accept outcome.
  assert (Hlive : live_sessions (snd outcome) "alice" ≡ₚ [0%nat; 1%nat]).
  { replace (live_sessions (snd outcome) "alice") with [1%nat; 0%nat]
      by (vm_compute; reflexivity).
    apply perm_swap. }
  assert (Hreg : sessions (snd outcome) !! "alice" = Some 1%nat)
    by (vm_compute; reflexivity).
  split; [eexists _, _; vm_compute; reflexivity|].
  split; [exact Hlive|]. split; [exact Hreg|].
  intros Hone.
  assert (Hc : exists client, store (snd outcome) !! 0%nat = Some client
                 /\ IQOptionClient.connected client = true)
    by (eexists; split; vm_compute; reflexivity).
  destruct Hc as (client & Hs & Hconn).
  specialize (Hone 0%nat client Hs).
  rewrite Hreg in Hone. 
  assert (Some 1%nat = Some 0%nat) as [=]; apply Hone; [|exact Hconn].
  vm_compute. reflexivity.
Qed.


(** Replacing the registered client's state keeps the property. *)
Lemma one_session_with_registered self user c client :
  one_session self user ->
  sessions self !! user = Some c ->
  one_session (with_client self c client) user.
Proof.
  intros Hone Hreg c0 client0. unfold with_client. simpl.
  destruct (decide (c0 = c)) as [->|Hne].
  - intros _ _ _. exact Hreg.
  - rewrite lookup_insert_ne by done. apply Hone.
Qed.

(** The property only reads the store, the makers and the registry. *)
Lemma one_session_same self self' user :
  store self' = store self ->
  made_for self' = made_for self ->
  sessions self' = sessions self ->
  one_session self user -> one_session self' user.
Proof.
  intros Hs Hm Hr Hone c client. rewrite Hs, Hm, Hr. apply Hone.
Qed.

(** With nobody registered, no connection made for the user is live. *)
Lemma one_session_none self user c client :
  one_session self user ->
  sessions self !! user = None ->
  store self !! c = Some client ->
  made_for self !! c = Some user ->
  IQOptionClient.connected client = false.
Proof.
  intros Hone Hnone Hs Hm.
  destruct (IQOptionClient.connected client) eqn:E; [|done].
  specialize (Hone c client Hs Hm E). congruence.
Qed.

Lemma create_client_standing args tr self :
  one_session self (username args) ->
  sessions self !! username args = None ->
  let '(at_pc, after) := create_client args tr self in
  one_session after (username args) /\ standing after (username args) at_pc.
Proof.
  intros Hone Hnone. unfold create_client, new_client. simpl.
  set (c := fresh (dom (store self))).
  assert (Hfresh : store self !! c = None)
    by (apply not_elem_of_dom, is_fresh).
  split.
  - intros c0 client0. simpl.
    destruct (decide (c0 = c)) as [->|Hne].
    + rewrite lookup_insert_eq. intros [= <-] _ Hc. discriminate.
    + rewrite !lookup_insert_ne by done. apply Hone.
  - split; [exact Hnone|]. eexists. split; [apply lookup_insert_eq|done].
Qed.

Lemma disconnect_user_none self user :
  one_session self user ->
  let after := snd (disconnect_user self user) in
  one_session after user /\ sessions after !! user = None.
Proof.
  intros Hone. unfold disconnect_user.
  destruct (sessions self !! user) as [c|] eqn:Hreg; simpl; [|done].
  split; [|apply lookup_delete_eq].
  intros c0 client0. simpl. intros Hs Hm Hc. exfalso.
  destruct (decide (c0 = c)) as [->|Hne].
  - rewrite lookup_insert_eq in Hs. injection Hs as <-. discriminate.
  - rewrite lookup_insert_ne in Hs by done.
    specialize (Hone c0 client0 Hs Hm Hc). congruence.
Qed.

(** One stretch of a call that runs alone keeps the registry in order. *)
Lemma resume_one_session args at_pc tr now self :
  one_session self (username args) ->
  standing self (username args) at_pc ->
  let '(at_pc', after) := resume args at_pc tr now self in
  one_session after (username args)
  /\ standing after (username args) at_pc'.
Proof.
  intros Hone Hst. destruct at_pc as [|c|c| |c|r]; simpl in Hst |- *.
  - (* Entry *)
    destruct (sessions self !! username args) as [c|] eqn:Hreg;
      [|by apply create_client_standing].
    set (client' := match account_type args with
                    | Some a => _
                    | None => client_at self c
                    end).
    assert (Hone' : one_session (with_client self c client') (username args))
      by (by apply one_session_with_registered).
    destruct (IQOptionClient.awaiting_two_factor client');
      (split; [exact Hone'|]); simpl; done.
  - (* AwaitCheck *)
    destruct (IQOptionClient.check_connection (client_at self c) tr)
      as [alive client'] eqn:Hcheck.
    assert (Hone' : one_session (with_client self c client') (username args))
      by (by apply one_session_with_registered).
    destruct alive; [|done].
    destruct (account_type args); simpl; (split; [|done]);
      eapply one_session_same; try exact Hone'; reflexivity.
  - (* AwaitSwitch *)
    destruct (IQOptionClient.connect (client_at self c) None None
                (account_type args) tr)
      as [[flag|e] client'] eqn:Hconn; simpl; (split; [|done]).
    + eapply one_session_same;
        [| | |apply (one_session_with_registered self _ c client' Hone Hst)];
        reflexivity.
    + by apply one_session_with_registered.
  - (* AwaitDisconnect *)
    pose proof (disconnect_user_none self (username args) Hone) as Hd.
    destruct (disconnect_user self (username args)) as [b self'].
    simpl in Hd. destruct Hd as [Hone' Hnone].
    by apply create_client_standing.
  - (* AwaitConnect *)
    destruct Hst as (Hnone & client & Hs & Hc).
    unfold client_at. rewrite Hs. simpl.
    destruct (LoginFacts.connect_validates_balance client None None
                (account_type args) tr Hc)
      as (flag & client' & Hconn & Hflag & _).
    rewrite Hconn.
    assert (Hkeep : forall c0 client0,
              store (with_client self c client') !! c0 = Some client0 ->
              made_for (with_client self c client') !! c0
                = Some (username args) ->
              IQOptionClient.connected client0 = true ->
              c0 = c).
    { intros c0 client0. unfold with_client. simpl.
      destruct (decide (c0 = c)) as [->|Hne]; [done|].
      rewrite lookup_insert_ne by done. intros Hs0 Hm0 Hc0.
      rewrite (one_session_none self _ c0 client0 Hone Hnone Hs0 Hm0) in Hc0.
      discriminate. }
    assert (Hregd : forall a,
              one_session
                (register (with_client self c client') (username args) c
                   now a) (username args)).
    { intros a c0 client0 Hs0 Hm0 Hc0. simpl in *.
      rewrite lookup_insert_eq. f_equal. symmetry.
      by eapply Hkeep. }
    destruct (IQOptionClient.awaiting_two_factor client');
      [split; [apply Hregd|done]|].
    destruct flag; [split; [apply Hregd|done]|].
    split; [|done].
    intros c0 client0 Hs0 Hm0 Hc0.
    pose proof (Hkeep c0 client0 Hs0 Hm0 Hc0) as ->.
    unfold with_client in Hs0. simpl in Hs0.
    rewrite lookup_insert_eq in Hs0. injection Hs0 as <-.
    apply Hflag in Hc0. discriminate.
  - done.
Qed.

Lemma run_alone_one_session args answers : forall at_pc self at_pc' after,
  one_session self (username args) ->
  standing self (username args) at_pc ->
  run_alone args at_pc answers self = (at_pc', after) ->
  one_session after (username args).
Proof.
  induction answers as [|[tr now] answers IH];
    intros at_pc self at_pc' after Hone Hst.
  - destruct at_pc; simpl; by intros [= _ <-].
  - pose proof (resume_one_session args at_pc tr now self Hone Hst) as Hr.
    destruct (resume args at_pc tr now self) as [pc1 self1] eqn:E.
    destruct Hr as [H1 H2].
    destruct at_pc as [|c|c| |c|r]; cbn [run_alone]; rewrite ?E;
      try (by apply IH).
    by intros [= _ <-].
Qed.

Lemma live_sessions_spec self user c :
  c ∈ live_sessions self user <->
  exists client,
    store self !! c = Some client
    /\ made_for self !! c = Some user
    /\ IQOptionClient.connected client = true.
Proof.
  unfold live_sessions. rewrite list_elem_of_filter, elem_of_elements.
  rewrite elem_of_dom. split.
  - intros [[Hm Hc] [client Hs]]. exists client.
    rewrite Hs in Hc. simpl in Hc. split; [done|]. split; [done|].
    congruence.
  - intros (client & Hs & Hm & Hc). rewrite Hs. simpl.
    split; [split; [done|congruence]|eauto].
Qed.

Lemma one_session_live self user :
  one_session self user ->
  (length (live_sessions self user) <= 1)%nat
  /\ forall c, c ∈ live_sessions self user ->
               sessions self !! user = Some c.
Proof.
  intros Hone.
  assert (Hreg : forall c, c ∈ live_sessions self user ->
                           sessions self !! user = Some c).
  { intros c Hc. apply live_sessions_spec in Hc as (client & Hs & Hm & Hl).
    by eapply Hone. }
  split; [|exact Hreg].
  assert (Hnd : NoDup (live_sessions self user))
    by (apply NoDup_filter, NoDup_elements).
  destruct (live_sessions self user) as [|a [|b l]]; simpl; try lia.
  exfalso.
  pose proof (Hreg a ltac:(apply list_elem_of_here)) as Ha.
  pose proof (Hreg b ltac:(apply list_elem_of_further, list_elem_of_here))
    as Hb.
  rewrite Ha in Hb. injection Hb as ->.
  apply NoDup_cons in Hnd as [Hnotin _]. apply Hnotin, list_elem_of_here.
Qed.

(** C7, as amended: when one [connect_user] call for a user has returned
    before the next one for that user starts, at most one live session made
    for the user exists afterwards, and the registry holds it. *)
Theorem connect_user_in_turn first second answers1 answers2
    self result1 between result2 after :
  username first = username second ->
  one_session self (username first) ->
  run_alone first Entry answers1 self = (Returned result1, between) ->
  run_alone second Entry answers2 between = (Returned result2, after) ->
  one_session after (username first)
  /\ (length (live_sessions after (username first)) <= 1)%nat
  /\ forall c, c ∈ live_sessions after (username first) ->
               sessions after !! username first = Some c.
Proof.
  intros Huser Hone Hrun1 Hrun2.
  pose proof (run_alone_one_session first answers1 Entry self _ _
                Hone I Hrun1) as H1.
  rewrite Huser in H1 |- *.
  pose proof (run_alone_one_session second answers2 Entry between _ _
                H1 I Hrun2) as H2.
  split; [exact H2|]. by apply one_session_live.
Qed.

(** A first call that connects, then a second call that finds the session
    alive and reuses it: one live session, the registered one. *)
Lemma connect_user_in_turn_witness :
  let args := mk_call "alice" (Some "user@example.org") (Some "secret") None in
  let accept :=
    Example.transport (Py.Ok (true, Example.no_reason)) (Py.Ok tt)
      (Py.Ok (Some (Example.price 100))) in
  let between := snd (run_alone args Entry [(accept, 0); (accept, 0)] init) in
  let after := snd (run_alone args Entry [(accept, 1); (accept, 1)] between) in
  live_sessions after "alice" = [0%nat]
  /\ (length (live_sessions after "alice") <= 1)%nat
  /\ sessions after !! "alice" = Some 0%nat.
Proof.
  intros args accept between after.
  destruct (connect_user_in_turn args args [(accept, 0); (accept, 0)]
              [(accept, 1); (accept, 1)] init
              (true, "Conectado ao IQ Option (PRACTICE)") between
              (true, "Sessao ja ativa") after) as (_ & Hlen & Hreg).
  - reflexivity.
  - intros c client H. simpl in H. rewrite lookup_empty in H. discriminate.
  - vm_compute. reflexivity.
  - vm_compute. reflexivity.
  - assert (Hlive : live_sessions after "alice" = [0%nat])
      by (vm_compute; reflexivity).
    split; [exact Hlive|]. split; [exact Hlen|].
    apply Hreg. change (username args) with "alice".
    rewrite Hlive. apply list_elem_of_here.
Defined.

End RegistryFacts.

(** ** The signal generator: what a call returns and what a signal holds *)

Module GeneratorBehaviour.
Import SignalGenerator.

(** Every step a returned signal went through, and the record built at the
    end. *)
Lemma generate_signal_parts self symbol df now uuid4 sig :
  generate_signal self symbol df now uuid4 = Py.Ok (Some sig) ->
  exists df' patterns pattern last_row is_near sr_level direction,
    prepare self df = Py.Ok (Some df')
    /\ select_patterns self df' = Py.Ok (Some patterns)
    /\ last patterns = Some pattern
    /\ last df' = Some last_row
    /\ SupportResistanceDetector.is_near_level (sr_detector self)
         (Candle.close last_row)
         (SupportResistanceDetector.detect_levels (sr_detector self) df')
       = (is_near, sr_level)
    /\ direction_fallback self df'
         (_determine_direction self pattern sr_level df')
       = Py.Ok (Some direction)
    /\ (is_aggressive self = false -> _apply_filters self df' direction = true)
    /\ sig
       = let confluences :=
           final_confluences self
             (_calculate_confluences self pattern sr_level df' direction) in
         let entry_time :=
           Py.replace_second0_microsecond0 (now + Py.minutes 1)
           + Py.minutes (if is_aggressive self then 1 else 0) in
         let expiry_minutes :=
           Z.max (ScanConfig.timeframe (config self)) 2 in
         TradingSignal.mk uuid4 now symbol
           (ScanConfig.timeframe (config self)) direction
           (Candle.close last_row) (Some entry_time)
           (Some (entry_time + Py.minutes expiry_minutes)) pattern
           (match sr_level with
            | Some l => if is_near then Some l else None
            | None => None
            end)
           confluences
           (_calculate_confidence self confluences pattern sr_level)
           expiry_minutes.
Proof.
  unfold generate_signal. intros H.
  destruct (prepare self df) as [[df'|]|] eqn:Hprep;
    simpl in H; try discriminate.
  destruct (select_patterns self df') as [[patterns|]|] eqn:Hsel;
    simpl in H; try discriminate.
  destruct (last patterns) as [pattern|] eqn:Hlast;
    simpl in H; [|discriminate].
  destruct (last df') as [last_row|] eqn:Hrow; simpl in H; [|discriminate].
  destruct (SupportResistanceDetector.is_near_level _ _ _)
    as [is_near sr_level] eqn:Hnear.
  destruct (direction_fallback _ _ _) as [[direction|]|] eqn:Hdir;
    simpl in H; try discriminate.
  destruct (_apply_filters self df' direction) eqn:Hf;
    destruct (is_aggressive self) eqn:Ha; simpl in H; try discriminate;
    injection H as <-;
    exists df', patterns, pattern, last_row, is_near, sr_level, direction;
    rewrite ?Ha; repeat (split; [done|]); done.
Qed.

(** What [pad] returns when it returns: the frame followed by copies of
    its last row, one minute later. *)
Lemma pad_rows df n df' :
  pad df n = Py.Ok df' ->
  df' = df
  \/ exists last_row name,
       last df = Some last_row
       /\ Candle.name last_row = Candle.Timestamp name
       /\ (length df < n)%nat
       /\ df'
          = df ++ replicate (n - length df)
                    (Candle.mk (Candle.Timestamp (name + Py.minutes 1))
                       (Candle.open last_row) (Candle.high last_row)
                       (Candle.low last_row) (Candle.close last_row)
                       (Candle.volume last_row)).
Proof.
  unfold pad. destruct (last df) as [last_row|] eqn:Hlast;
    [|intros [= <-]; by left].
  case_bool_decide as Hlen; [intros [= <-]; by left|].
  destruct (Candle.name last_row) as [name|i] eqn:Hname; [|discriminate].
  intros [= <-]. right. exists last_row, name.
  split; [done|]. split; [done|]. split; [lia|done].
Qed.

(** What [prepare] does to a frame: nothing outside the aggressive mode, and
    in it only rows added after the ones given. *)
Lemma prepare_frame self df df' :
  prepare self df = Py.Ok (Some df') ->
  df <> []
  /\ df `prefix_of` df'
  /\ (is_aggressive self = false -> df' = df /\ (50 <= length df)%nat)
  /\ (is_aggressive self = true -> (5 <= length df')%nat)
  /\ (Candle.close <$> last df') = (Candle.close <$> last df).
Proof.
  unfold prepare.
  destruct (is_aggressive self) eqn:Ha; simpl;
    case_bool_decide as Hlen; try discriminate.
  - case_bool_decide as Hz; [discriminate|].
    destruct (pad df 5) as [padded|] eqn:Hpad; simpl; [|discriminate].
    intros [= <-].
    assert (Hne : df <> []) by (intros ->; simpl in Hz; lia).
    destruct (pad_rows _ _ _ Hpad)
      as [->|(last_row & name & Hlast & _ & _ & ->)].
    + unfold pad in Hpad.
      destruct (last df) eqn:Hl; [|by apply last_None in Hl].
      rewrite bool_decide_eq_false_2 in Hpad by lia.
      destruct (Candle.name _); [|discriminate].
      injection Hpad as Hpad.
      apply (f_equal length) in Hpad.
      rewrite length_app, length_replicate in Hpad. lia.
    + split; [done|]. split; [by apply prefix_app_r|].
      split; [done|]. split.
      * intros _. rewrite length_app, length_replicate. lia.
      * destruct (5 - length df)%nat as [|k] eqn:Hk; [lia|].
        rewrite replicate_S_end, app_assoc, last_snoc, Hlast. done.
  - intros [= <-]. split; [intros ->; simpl in Hlen; lia|].
    split; [done|]. split; [done|]. split; [lia|done].
  - intros [= <-]. split; [intros ->; simpl in Hlen; lia|].
    split; [done|]. split; [intros _; split; [done|lia]|]. done.
Qed.

(** The last row of the prepared frame shows the open and the close of the
    last row received. *)
Lemma prepare_last self df df' last_row last_candle :
  prepare self df = Py.Ok (Some df') ->
  last df' = Some last_row -> last df = Some last_candle ->
  Candle.open last_row = Candle.open last_candle
  /\ Candle.close last_row = Candle.close last_candle.
Proof.
  unfold prepare. intros Hprep Hrow Hl.
  assert (Hpadded : forall n padded,
            pad df n = Py.Ok padded -> padded = df' ->
            Candle.open last_row = Candle.open last_candle
            /\ Candle.close last_row = Candle.close last_candle).
  { intros n padded Hpad <-.
    destruct (pad_rows _ _ _ Hpad)
      as [->|(row & name & Hlast & _ & Hlen & ->)].
    - rewrite Hl in Hrow. by injection Hrow as <-.
    - rewrite Hl in Hlast. injection Hlast as <-.
      destruct (n - length df)%nat as [|k] eqn:Hk; [lia|].
      rewrite replicate_S_end, app_assoc, last_snoc in Hrow.
      by injection Hrow as <-. }
  assert (Hsame : df = df' ->
            Candle.open last_row = Candle.open last_candle
            /\ Candle.close last_row = Candle.close last_candle).
  { intros <-. rewrite Hl in Hrow. by injection Hrow as <-. }
  destruct (bool_decide (length df < _)%nat).
  - destruct (negb (is_aggressive self)); [discriminate|].
    destruct (bool_decide (length df = 0%nat)); [discriminate|].
    destruct (pad df _) as [padded|] eqn:Hpad; simpl in Hprep;
      [|discriminate].
    injection Hprep as Hprep. by apply (Hpadded _ padded Hpad).
  - injection Hprep as Hprep. by apply Hsame.
Qed.

(** X1: outside the aggressive mode a frame of fewer than 50 candles gives no
    signal, and an empty frame gives none in any mode; nothing is raised. *)
Theorem generate_signal_short_frame self symbol df now uuid4 :
  (ScanConfig.sensitivity (config self) <> aggressive
   /\ (length df < 50)%nat)
  \/ df = [] ->
  generate_signal self symbol df now uuid4 = Py.Ok None.
Proof.
  intros Hcase. unfold generate_signal, prepare.
  destruct (is_aggressive self) eqn:Ha.
  - apply SignalGeneratorFacts.is_aggressive_true in Ha.
    destruct Hcase as [[Hs _]| ->]; [done|]. reflexivity.
  - simpl. rewrite bool_decide_eq_true_2; [done|].
    destruct Hcase as [[_ Hlen]| ->]; simpl; lia.
Qed.

(** Two candles and a moderate sensitivity: no signal. *)
Lemma generate_signal_short_frame_witness :
  generate_signal (Example.generator moderate) "EURUSD" Example.frame
    90500000 "a1" = Py.Ok None.
Proof.
  apply generate_signal_short_frame. left. split.
  - discriminate.
  - simpl. lia.
Defined.

(** In aggressive mode a frame that [prepare] lets through always yields a
    signal. *)
Lemma generate_signal_prepared self symbol df df' now uuid4 :
  is_aggressive self = true ->
  prepare self df = Py.Ok (Some df') ->
  exists sig, generate_signal self symbol df now uuid4 = Py.Ok (Some sig).
Proof.
  intros Hs Hprep. unfold generate_signal. rewrite Hprep. simpl.
  destruct (prepare_frame _ _ _ Hprep) as (_ & _ & _ & Hfive & _).
  specialize (Hfive Hs).
  assert (Hrow : exists last_row, last df' = Some last_row).
  { destruct (last df') eqn:E; [eauto|].
    apply last_None in E. subst df'. simpl in Hfive. lia. }
  destruct Hrow as [last_row Hrow].
  assert (Hsel : exists patterns pattern,
            select_patterns self df' = Py.Ok (Some patterns)
            /\ last patterns = Some pattern).
  { unfold select_patterns. rewrite Hs, Hrow.
    destruct (PriceActionDetector.detect_patterns _ df') as [|p ps] eqn:Ep.
    - simpl. eexists _, _. split; reflexivity.
    - simpl. exists (p :: ps).
      destruct (last (p :: ps)) as [q|] eqn:El; [eauto|].
      by apply last_None in El. }
  destruct Hsel as (patterns & pattern & -> & Hlast).
  simpl. rewrite Hlast, Hrow. simpl.
  destruct (SupportResistanceDetector.is_near_level _ _ _)
    as [is_near sr_level].
  destruct (SignalGeneratorFacts._determine_direction_is_Some self pattern
              sr_level df') as [d ->].
  simpl. rewrite Hs, andb_false_r. eauto.
Qed.

(** X2: in aggressive mode a frame of at least five rows always gives a
    signal, and so does a shorter frame with at least one row when its
    last row is labelled by a time: it is padded.  When the last row of
    such a short frame carries its position as label, as in a frame made
    from a list of dictionaries, the padding raises [TypeError]. *)
Theorem generate_signal_aggressive_emits self symbol df now uuid4 :
  ScanConfig.sensitivity (config self) = aggressive ->
  df <> [] ->
  ((5 <= length df)%nat
   \/ (exists last_row name,
         last df = Some last_row
         /\ Candle.name last_row = Candle.Timestamp name) ->
   exists sig, generate_signal self symbol df now uuid4 = Py.Ok (Some sig))
  /\ ((length df < 5)%nat ->
      (exists last_row i,
         last df = Some last_row
         /\ Candle.name last_row = Candle.Position i) ->
      generate_signal self symbol df now uuid4 = Py.Raise Py.TypeError).
Proof.
  intros Hs Hne. apply SignalGeneratorFacts.is_aggressive_true in Hs.
  assert (Hlen0 : bool_decide (length df = 0%nat) = false)
    by (apply bool_decide_eq_false_2; destruct df; [done|simpl; lia]).
  split.
  - intros Hcase.
    assert (Hprep : exists df', prepare self df = Py.Ok (Some df')).
    { unfold prepare. rewrite Hs. simpl.
      destruct (bool_decide (length df < 5)%nat) eqn:Hlen;
        [|exists df; reflexivity].
      apply bool_decide_eq_true in Hlen. rewrite Hlen0.
      destruct Hcase as [?|(last_row & name & Hlast & Hname)]; [lia|].
      unfold pad. rewrite Hlast, Hname.
      rewrite bool_decide_eq_false_2 by lia. simpl. eexists. reflexivity. }
    destruct Hprep as [df' Hprep].
    by apply (generate_signal_prepared self symbol df df').
  - intros Hlen (last_row & i & Hlast & Hname).
    unfold generate_signal, prepare. rewrite Hs. simpl.
    rewrite bool_decide_eq_true_2 by done. rewrite Hlen0.
    unfold pad. rewrite Hlast, Hname.
    by rewrite bool_decide_eq_false_2 by lia.
Qed.

(** The aggressive example generator on two candles: labelled by times
    they give a signal, labelled by positions the call raises. *)
Lemma generate_signal_aggressive_emits_witness :
  (exists sig,
     generate_signal (Example.generator aggressive) "EURUSD" Example.frame
       90500000 "a1" = Py.Ok (Some sig))
  /\ generate_signal (Example.generator aggressive) "EURUSD"
       Example.listed_frame 90500000 "a1" = Py.Raise Py.TypeError.
Proof.
  split.
  - apply generate_signal_aggressive_emits; [reflexivity|discriminate|].
    right. by eexists _, _.
  - apply generate_signal_aggressive_emits; [reflexivity|discriminate| |].
    + simpl. lia.
    + by eexists _, _.
Defined.

(** X3: outside the aggressive mode a returned signal passed every filter
    that is switched on: rising volume, no excessive volatility, and a
    direction that does not go against the trend. *)
Theorem generate_signal_filters self symbol df now uuid4 sig :
  ScanConfig.sensitivity (config self) <> aggressive ->
  generate_signal self symbol df now uuid4 = Py.Ok (Some sig) ->
  let cfg := config self in
  let ind := indicators self in
  (ScanConfig.use_volume_filter cfg = true ->
   TechnicalIndicators.is_volume_increasing ind df = true)
  /\ (ScanConfig.use_volatility_filter cfg = true ->
      TechnicalIndicators.is_high_volatility ind df = false)
  /\ (ScanConfig.use_trend_filter cfg = true ->
      (TradingSignal.direction sig = CALL ->
       TechnicalIndicators.detect_trend ind df <> bearish)
      /\ (TradingSignal.direction sig = PUT ->
          TechnicalIndicators.detect_trend ind df <> bullish)).
Proof.
  intros Hs Hgen cfg ind.
  assert (Ha : is_aggressive self = false).
  { destruct (is_aggressive self) eqn:E; [|done].
    by apply SignalGeneratorFacts.is_aggressive_true in E. }
  destruct (generate_signal_parts _ _ _ _ _ _ Hgen)
    as (df' & patterns & pattern & last_row & is_near & sr_level & direction
        & Hprep & _ & _ & _ & _ & _ & Hf & ->).
  apply prepare_frame in Hprep as (_ & _ & Hsame & _).
  destruct (Hsame Ha) as [-> _]. specialize (Hf Ha).
  unfold _apply_filters in Hf. rewrite Ha in Hf. simpl.
  fold cfg ind in Hf.
  destruct (ScanConfig.use_volume_filter cfg),
    (TechnicalIndicators.is_volume_increasing ind df),
    (ScanConfig.use_volatility_filter cfg),
    (TechnicalIndicators.is_high_volatility ind df),
    (ScanConfig.use_trend_filter cfg),
    (TechnicalIndicators.detect_trend ind df), direction;
    simpl in Hf; try discriminate; repeat split; intros; congruence.
Qed.

(** What [_calculate_confluences] returns: the pattern's reason first, then
    at most five more. *)
Lemma _calculate_confluences_shape self pattern sr_level df direction :
  exists rest,
    _calculate_confluences self pattern sr_level df direction
    = ("Padro: " +:+ PriceActionPattern.description pattern) :: rest
    /\ (length rest <= 5)%nat.
Proof.
  unfold _calculate_confluences.
  repeat case_match; simpl;
    eexists; (split; [reflexivity|]); simpl; lia.
Qed.

(** X4: the reasons of a returned signal start with the reason of its
    pattern; there are at most six of them, or at most seven in aggressive
    mode, where the last one is the note of that mode.  The generic reason
    of line 114 is never added. *)
Theorem generate_signal_confluences self symbol df now uuid4 sig :
  generate_signal self symbol df now uuid4 = Py.Ok (Some sig) ->
  exists found,
    hd_error found
      = Some ("Padro: "
              +:+ PriceActionPattern.description (TradingSignal.pattern sig))
    /\ (1 <= length found <= 6)%nat
    /\ TradingSignal.confluences sig
       = if bool_decide (ScanConfig.sensitivity (config self) = aggressive)
         then found ++ ["Modo agressivo habilitado"]
         else found.
Proof.
  intros Hgen.
  destruct (generate_signal_parts _ _ _ _ _ _ Hgen)
    as (df' & patterns & pattern & last_row & is_near & sr_level & direction
        & _ & _ & _ & _ & _ & _ & _ & ->).
  destruct (_calculate_confluences_shape self pattern sr_level df' direction)
    as (rest & Hshape & Hlen).
  exists (_calculate_confluences self pattern sr_level df' direction).
  simpl. unfold final_confluences. rewrite Hshape. simpl.
  split; [done|]. split; [lia|]. reflexivity.
Qed.

(** The aggressive example signal has three reasons, the last one the note
    of the mode. *)
Lemma generate_signal_confluences_witness :
  exists sig,
    generate_signal (Example.generator aggressive) "EURUSD" Example.frame
      90500000 "a1" = Py.Ok (Some sig)
    /\ last (TradingSignal.confluences sig)
       = Some "Modo agressivo habilitado".
Proof.
  destruct (generate_signal (Example.generator aggressive) "EURUSD"
              Example.frame 90500000 "a1") as [[sig|]|] eqn:E;
    try (vm_compute in E; discriminate).
  exists sig. split; [reflexivity|].
  destruct (generate_signal_confluences _ _ _ _ _ _ E)
    as (found & _ & _ & Hc).
  rewrite Hc. simpl. apply last_snoc.
Defined.

(** The moderate example generator on fifty candles with a detector that
    reports a pin bar: the signal passed the trend filter. *)
Lemma generate_signal_filters_witness :
  let self :=
    mk (Example.config moderate)
       (PriceActionDetector.mk
          (fun _ => [PriceActionPattern.mk pin_bar "Pin Bar" 49]))
       (sr_detector (Example.generator moderate))
       (TechnicalIndicators.mk
          (fun df => (fun _ => Py.nan) <$> df) (fun _ => ([], [], []))
          (fun _ => neutral) (fun _ => false) (fun _ => true))
       (fun _ => "0.00000") (fun _ => "nan") in
  let df := (fun i => Example.candle (Z.of_nat i * 60000000) 10 11)
              <$> seq 0 50 in
  exists sig,
    generate_signal self "EURUSD" df 90500000 "a1" = Py.Ok (Some sig)
    /\ TechnicalIndicators.is_volume_increasing (indicators self) df = true.
Proof.
  intros self df.
  destruct (generate_signal self "EURUSD" df 90500000 "a1")
    as [[sig|]|] eqn:E; try (vm_compute in E; discriminate).
  exists sig. split; [reflexivity|].
  destruct (generate_signal_filters self "EURUSD" df 90500000 "a1" sig)
    as (Hvol & _); [discriminate|exact E|].
  apply Hvol. reflexivity.
Defined.

(** X5: a returned signal carries the identifier, the symbol and the time
    of the call and the configured timeframe, and its entry price is the
    close of the last candle handed in, also when the frame was padded. *)
Theorem generate_signal_entry_price self symbol df now uuid4 sig :
  generate_signal self symbol df now uuid4 = Py.Ok (Some sig) ->
  exists last_candle,
    last df = Some last_candle
    /\ TradingSignal.entry_price sig = Candle.close last_candle
    /\ TradingSignal.signal_id sig = uuid4
    /\ TradingSignal.symbol sig = symbol
    /\ TradingSignal.timestamp sig = now
    /\ TradingSignal.timeframe sig = ScanConfig.timeframe (config self).
Proof.
  intros Hgen.
  destruct (generate_signal_parts _ _ _ _ _ _ Hgen)
    as (df' & patterns & pattern & last_row & is_near & sr_level & direction
        & Hprep & _ & _ & Hrow & _ & _ & _ & ->).
  apply prepare_frame in Hprep as (Hne & _ & _ & _ & Hclose).
  destruct (last df) as [last_candle|] eqn:Hlast;
    [|by apply last_None in Hlast].
  exists last_candle. rewrite Hrow in Hclose. simpl in Hclose.
  injection Hclose as Hclose. by repeat split.
Qed.

(** The aggressive example signal enters at 12, the close of the second
    candle. *)
Lemma generate_signal_entry_price_witness :
  exists sig,
    generate_signal (Example.generator aggressive) "EURUSD" Example.frame
      90500000 "a1" = Py.Ok (Some sig)
    /\ TradingSignal.entry_price sig = Example.price 12.
Proof.
  destruct (generate_signal (Example.generator aggressive) "EURUSD"
              Example.frame 90500000 "a1") as [[sig|]|] eqn:E;
    try (vm_compute in E; discriminate).
  exists sig. split; [reflexivity|].
  destruct (generate_signal_entry_price _ _ _ _ _ _ E)
    as (c & Hlast & -> & _).
  injection Hlast as <-. reflexivity.
Defined.

(** X6: the pattern of a returned signal is the last one the detector
    reports on the prepared frame.  When the detector reports none (which
    only the aggressive mode lets through) the pattern is a break of
    structure made up from the last candle, bullish exactly when it closes
    at or above its open, and the direction follows it. *)
Theorem generate_signal_basis_pattern self symbol df now uuid4 sig :
  generate_signal self symbol df now uuid4 = Py.Ok (Some sig) ->
  exists df' last_candle,
    prepare self df = Py.Ok (Some df')
    /\ last df = Some last_candle
    /\ let detected :=
         PriceActionDetector.detect_patterns (pattern_detector self) df' in
       (detected <> [] -> last detected = Some (TradingSignal.pattern sig))
       /\ (detected = [] ->
           ScanConfig.sensitivity (config self) = aggressive
           /\ TradingSignal.pattern sig
              = PriceActionPattern.mk
                  (if bool_decide (Candle.open last_candle
                                   <= Candle.close last_candle)%Qc
                   then bos_bullish else bos_bearish)
                  "Momentum imediato detectado"
                  (Z.of_nat (length df') - 1)
           /\ TradingSignal.direction sig
              = if bool_decide (Candle.open last_candle
                                <= Candle.close last_candle)%Qc
                then CALL else PUT).
Proof.
  intros Hgen.
  destruct (generate_signal_parts _ _ _ _ _ _ Hgen)
    as (df' & patterns & pattern & last_row & is_near & sr_level & direction
        & Hprep & Hsel & Hlast & Hrow & _ & Hdir & _ & ->).
  pose proof (prepare_frame _ _ _ Hprep) as (Hne & Hpre & Hmod & _ & Hclose).
  destruct (last df) as [last_candle|] eqn:Hl;
    [|by apply last_None in Hl].
  exists df', last_candle. split; [done|]. split; [done|]. simpl.
  unfold select_patterns in Hsel. rewrite Hrow in Hsel.
  destruct (PriceActionDetector.detect_patterns _ df') as [|p ps] eqn:Ep.
  - split; [done|]. intros _.
    destruct (is_aggressive self) eqn:Ha; simpl in Hsel; [|discriminate].
    injection Hsel as <-. simpl in Hlast. injection Hlast as <-.
    split; [by apply SignalGeneratorFacts.is_aggressive_true|].
    destruct (prepare_last _ _ _ _ _ Hprep Hrow Hl) as [Ho Hc].
    rewrite Ho, Hc in Hdir |- *. split; [done|].
    destruct (bool_decide (Candle.open last_candle
                           <= Candle.close last_candle)%Qc);
      by injection Hdir as <-.
  - split; [|done]. intros _.
    assert (Hp : patterns = p :: ps).
    { destruct (is_aggressive self); simpl in Hsel; by injection Hsel as <-. }
    by rewrite <- Hp.
Qed.

(** The example detector reports nothing: the aggressive signal rests on a
    made-up bullish break of structure and is a CALL. *)
Lemma generate_signal_basis_pattern_witness :
  exists sig,
    generate_signal (Example.generator aggressive) "EURUSD" Example.frame
      90500000 "a1" = Py.Ok (Some sig)
    /\ PriceActionPattern.pattern_type (TradingSignal.pattern sig)
       = bos_bullish
    /\ TradingSignal.direction sig = CALL.
Proof.
  destruct (generate_signal (Example.generator aggressive) "EURUSD"
              Example.frame 90500000 "a1") as [[sig|]|] eqn:E;
    try (vm_compute in E; discriminate).
  exists sig. split; [reflexivity|].
  destruct (generate_signal_basis_pattern _ _ _ _ _ _ E)
    as (df' & c & _ & Hlast & _ & Hnone).
  injection Hlast as <-.
  destruct (Hnone eq_refl) as (_ & -> & ->). split; reflexivity.
Defined.

(** [is_near_level] returns the first level within tolerance. *)
Lemma is_near_level_first det price levels :
  match SupportResistanceDetector.is_near_level det price levels with
  | (true, Some l) =>
      exists before after,
        levels = before ++ l :: after
        /\ SupportResistanceDetector.within_tolerance det price l = true
        /\ Forall (fun x =>
                     SupportResistanceDetector.within_tolerance det price x
                     = false) before
  | (false, None) =>
      Forall (fun x =>
                SupportResistanceDetector.within_tolerance det price x
                = false) levels
  | _ => False
  end.
Proof.
  induction levels as [|l levels IH]; simpl; [done|].
  destruct (SupportResistanceDetector.within_tolerance det price l) eqn:E.
  - exists [], levels. by repeat split.
  - destruct (SupportResistanceDetector.is_near_level det price levels)
      as [[|] [l'|]]; try done.
    + destruct IH as (before & after & -> & Hw & Hall).
      exists (l :: before), after. repeat split; [done|by constructor].
    + by constructor.
Qed.

(** X7: the level attached to a returned signal is the first detected level
    within tolerance of the entry price, and no level is attached exactly
    when none of the detected levels is within tolerance. *)
Theorem generate_signal_attached_level self symbol df now uuid4 sig :
  generate_signal self symbol df now uuid4 = Py.Ok (Some sig) ->
  exists df',
    prepare self df = Py.Ok (Some df')
    /\ let near :=
         SupportResistanceDetector.within_tolerance (sr_detector self)
           (TradingSignal.entry_price sig) in
       let levels :=
         SupportResistanceDetector.detect_levels (sr_detector self) df' in
       match TradingSignal.support_resistance sig with
       | Some l =>
           exists before after,
             levels = before ++ l :: after
             /\ near l = true
             /\ Forall (fun x => near x = false) before
       | None => Forall (fun x => near x = false) levels
       end.
Proof.
  intros Hgen.
  destruct (generate_signal_parts _ _ _ _ _ _ Hgen)
    as (df' & patterns & pattern & last_row & is_near & sr_level & direction
        & Hprep & _ & _ & _ & Hnear & _ & _ & ->).
  exists df'. split; [done|]. simpl.
  pose proof (is_near_level_first (sr_detector self) (Candle.close last_row)
                (SupportResistanceDetector.detect_levels (sr_detector self)
                   df')) as Hfirst.
  rewrite Hnear in Hfirst.
  destruct is_near, sr_level; done.
Qed.

(** The example detector finds one level, near every price: it is the one
    attached. *)
Lemma generate_signal_attached_level_witness :
  exists sig,
    generate_signal (Example.generator aggressive) "EURUSD" Example.frame
      90500000 "a1" = Py.Ok (Some sig)
    /\ TradingSignal.support_resistance sig = Some Example.level.
Proof.
  destruct (generate_signal (Example.generator aggressive) "EURUSD"
              Example.frame 90500000 "a1") as [[sig|]|] eqn:E;
    try (vm_compute in E; discriminate).
  exists sig. split; [reflexivity|].
  destruct (generate_signal_attached_level _ _ _ _ _ _ E)
    as (df' & _ & Hlvl).
  simpl in Hlvl.
  destruct (TradingSignal.support_resistance sig) as [l|].
  - destruct Hlvl as (before & after & Heq & _ & _).
    destruct before as [|b before]; [by injection Heq as <-|].
    injection Heq as _ Heq. by destruct before.
  - by apply Forall_cons in Hlvl as [? _].
Defined.

End GeneratorBehaviour.

(** ** The automatic scanner: lookups, clean-up, instrument selection *)

Module ScannerStores.
Import AutoScanner.

(** The rebuilt index maps an id to the last signal of the history that
    bears it. *)
Lemma rebuild_index_lookup history id :
  rebuild_index history !! id
  = last (filter (fun s => TradingSignal.signal_id s = id) history).
Proof.
  unfold rebuild_index.
  induction history as [|x history IH] using rev_ind; [done|].
  rewrite foldl_snoc, filter_app, lookup_insert.
  case_decide as Hid.
  - rewrite filter_cons_True, filter_nil by done. by rewrite last_snoc.
  - rewrite filter_cons_False, filter_nil, app_nil_r by done. exact IH.
Qed.

(** The rebuilt per-symbol map holds, for each symbol of the history, a
    signal of that symbol that no other one of the symbol is later than. *)
Lemma rebuild_latest_spec history :
  (forall sym m,
     rebuild_latest history !! sym = Some m ->
     m ∈ history
     /\ TradingSignal.symbol m = sym
     /\ forall s, s ∈ history -> TradingSignal.symbol s = sym ->
                  TradingSignal.timestamp s <= TradingSignal.timestamp m)
  /\ (forall s, s ∈ history ->
                is_Some (rebuild_latest history !! TradingSignal.symbol s)).
Proof.
  unfold rebuild_latest.
  induction history as [|x history [IH1 IH2]] using rev_ind.
  - split; [intros sym m; simpl; rewrite lookup_empty; discriminate|].
    intros s Hs. by apply elem_of_nil in Hs.
  - rewrite foldl_snoc.
    set (latest := foldl _ ∅ history) in *.
    assert (Hin : forall s, s ∈ history ++ [x] <-> s ∈ history \/ s = x).
    { intros s. rewrite elem_of_app, list_elem_of_singleton. done. }
    destruct (latest !! TradingSignal.symbol x) as [prev|] eqn:Hprev.
    + destruct (IH1 _ _ Hprev) as (Hpin & Hpsym & Hpmax).
      case_bool_decide as Hlt.
      * split.
        -- intros sym m. rewrite lookup_insert. case_decide as Hsym.
           ++ intros [= <-]. split; [apply Hin; by right|]. split; [done|].
              intros s Hs Hss. apply Hin in Hs as [Hs| ->]; [|lia].
              specialize (Hpmax s Hs). rewrite Hss, Hsym in Hpmax.
              specialize (Hpmax eq_refl). lia.
           ++ intros Hm. destruct (IH1 _ _ Hm) as (H1 & H2 & H3).
              split; [apply Hin; by left|]. split; [done|].
              intros s Hs Hss. apply Hin in Hs as [Hs| ->]; [by apply H3|].
              congruence.
        -- intros s Hs. rewrite lookup_insert. case_decide; [eauto|].
           apply Hin in Hs as [Hs| ->]; [by apply IH2|done].
      * split.
        -- intros sym m Hm. destruct (IH1 _ _ Hm) as (H1 & H2 & H3).
           split; [apply Hin; by left|]. split; [done|].
           intros s Hs Hss. apply Hin in Hs as [Hs| ->]; [by apply H3|].
           assert (m = prev) as -> by congruence. lia.
        -- intros s Hs. apply Hin in Hs as [Hs| ->]; [by apply IH2|].
           rewrite Hprev. eauto.
    + split.
      * intros sym m. rewrite lookup_insert. case_decide as Hsym.
        -- intros [= <-]. split; [apply Hin; by right|]. split; [done|].
           intros s Hs Hss. apply Hin in Hs as [Hs| ->]; [|lia].
           destruct (IH2 s Hs) as [m Hm]. rewrite Hss, <- Hsym in Hm.
           congruence.
        -- intros Hm. destruct (IH1 _ _ Hm) as (H1 & H2 & H3).
           split; [apply Hin; by left|]. split; [done|].
           intros s Hs Hss. apply Hin in Hs as [Hs| ->]; [by apply H3|].
           congruence.
      * intros s Hs. rewrite lookup_insert. case_decide; [eauto|].
        apply Hin in Hs as [Hs| ->]; [by apply IH2|done].
Qed.

(** X8: [clear_old_signals] keeps, in their order, exactly the signals
    generated at or after the cutoff [now - max_age_minutes]; afterwards an
    id looks up the last kept signal bearing it, so every kept signal is
    found under its id and no dropped signal is left in the index. *)
Theorem clear_old_signals_history self max_age_minutes now :
  let after := clear_old_signals self max_age_minutes now in
  let cutoff := now - Py.minutes max_age_minutes in
  signal_history after `sublist_of` signal_history self
  /\ (forall s, s ∈ signal_history after <->
                s ∈ signal_history self /\ cutoff <= TradingSignal.timestamp s)
  /\ (forall id,
        get_signal_by_id after id
        = last (filter (fun s => TradingSignal.signal_id s = id)
                       (signal_history after)))
  /\ (forall s, s ∈ signal_history after ->
                is_Some (get_signal_by_id after (TradingSignal.signal_id s)))
  /\ consistent after.
Proof.
  intros after cutoff. subst after. unfold clear_old_signals. simpl.
  fold cutoff.
  set (kept := filter (fun s => cutoff <= TradingSignal.timestamp s)
                      (signal_history self)).
  assert (Hidx : forall id,
            rebuild_index kept !! id
            = last (filter (fun s => TradingSignal.signal_id s = id) kept))
    by apply rebuild_index_lookup.
  split; [apply sublist_filter|].
  split; [intros s; subst kept; rewrite list_elem_of_filter; tauto|].
  split; [exact Hidx|]. split.
  - intros s Hs. unfold get_signal_by_id. simpl. rewrite Hidx.
    apply last_is_Some. intros Hnil.
    eapply (filter_nil_not_elem_of _ _ s); [exact Hnil|done|exact Hs].
  - split; simpl.
    + intros id s Hs. rewrite Hidx in Hs.
      apply last_Some_elem_of in Hs.
      by apply list_elem_of_filter in Hs as [? ?].
    + intros sym s Hs.
      destruct (proj1 (rebuild_latest_spec kept) _ _ Hs) as (? & ? & _).
      done.
Qed.

(** X9: after [clear_old_signals] the per-symbol map has an entry for
    exactly the symbols that still have a kept signal, and the entry is a
    kept signal of that symbol with the greatest timestamp among them. *)
Theorem clear_old_signals_latest self max_age_minutes now sym :
  let after := clear_old_signals self max_age_minutes now in
  match latest_signals after !! sym with
  | Some m =>
      m ∈ signal_history after
      /\ TradingSignal.symbol m = sym
      /\ forall s, s ∈ signal_history after ->
                   TradingSignal.symbol s = sym ->
                   TradingSignal.timestamp s <= TradingSignal.timestamp m
  | None =>
      forall s, s ∈ signal_history after -> TradingSignal.symbol s <> sym
  end.
Proof.
  intros after. subst after. unfold clear_old_signals. simpl.
  set (kept := filter _ (signal_history self)).
  destruct (rebuild_latest_spec kept) as [H1 H2].
  destruct (rebuild_latest kept !! sym) as [m|] eqn:Hm.
  - by apply H1.
  - intros s Hs Hsym. destruct (H2 s Hs) as [m Hm']. congruence.
Qed.

(** Signals of a list whose ids all differ are told apart by their id. *)
Lemma distinct_ids (l : list TradingSignal.t) :
  NoDup (TradingSignal.signal_id <$> l) ->
  forall a b, a ∈ l -> b ∈ l ->
              TradingSignal.signal_id a = TradingSignal.signal_id b -> a = b.
Proof.
  intros Hnd a b Ha Hb Hab.
  apply list_elem_of_lookup in Ha as [i Hi].
  apply list_elem_of_lookup in Hb as [j Hj].
  assert (i = j).
  { apply (NoDup_lookup _ i j (TradingSignal.signal_id a) Hnd);
      rewrite list_lookup_fmap; [by rewrite Hi|rewrite Hj; simpl; by rewrite Hab]. }
  subst j. congruence.
Qed.

(** The stores after one acceptance, before and after the eviction. *)
Lemma accept_stores self n :
  let latest := <[TradingSignal.symbol n := n]> (latest_signals self) in
  let index := <[TradingSignal.signal_id n := n]> (signal_index self) in
  ((length (signal_history self) < 200)%nat ->
   signal_history (accept self n) = signal_history self ++ [n]
   /\ signal_index (accept self n) = index
   /\ latest_signals (accept self n) = latest)
  /\ ((200 <= length (signal_history self))%nat ->
      exists oldest rest,
        signal_history self ++ [n] = oldest :: rest
        /\ signal_history (accept self n) = rest
        /\ signal_index (accept self n)
           = delete (TradingSignal.signal_id oldest) index
        /\ latest_signals (accept self n)
           = if bool_decide
                  (latest !! TradingSignal.symbol oldest = Some oldest)
             then delete (TradingSignal.symbol oldest) latest
             else latest).
Proof.
  intros latest index. unfold accept. fold latest index. split.
  - intros Hlt.
    rewrite bool_decide_eq_false_2 by (rewrite length_app; simpl; lia).
    done.
  - intros Hge.
    rewrite bool_decide_eq_true_2 by (rewrite length_app; simpl; lia).
    destruct (signal_history self ++ [n]) as [|oldest rest] eqn:E.
    + by destruct (signal_history self).
    + by exists oldest, rest.
Qed.

(** With ids that differ, acceptance keeps every signal of the history
    under its id and keeps the per-symbol map on the last signal of each
    symbol. *)
Lemma accept_distinct self n :
  NoDup (TradingSignal.signal_id <$> signal_history self ++ [n]) ->
  (forall s, s ∈ signal_history self ->
             signal_index self !! TradingSignal.signal_id s = Some s) ->
  (forall sym,
     latest_signals self !! sym
     = last (filter (fun s => TradingSignal.symbol s = sym)
                    (signal_history self))) ->
  (forall s, s ∈ signal_history (accept self n) ->
             signal_index (accept self n) !! TradingSignal.signal_id s
             = Some s)
  /\ (forall sym,
        latest_signals (accept self n) !! sym
        = last (filter (fun s => TradingSignal.symbol s = sym)
                       (signal_history (accept self n)))).
Proof.
  intros Hnd Hidx Hlat.
  set (latest := <[TradingSignal.symbol n := n]> (latest_signals self)).
  set (index := <[TradingSignal.signal_id n := n]> (signal_index self)).
  assert (Hids : forall a b, a ∈ signal_history self ++ [n] ->
                   b ∈ signal_history self ++ [n] ->
                   TradingSignal.signal_id a = TradingSignal.signal_id b ->
                   a = b).
  { intros a b Ha Hb Hab.
    by apply (distinct_ids _ Hnd). }
  assert (Hi1 : forall s, s ∈ signal_history self ++ [n] ->
                  index !! TradingSignal.signal_id s = Some s).
  { intros s Hs. subst index. rewrite lookup_insert. case_decide as Hid.
    - f_equal. apply Hids; [|done|done].
      apply elem_of_app. right. apply list_elem_of_here.
    - apply elem_of_app in Hs as [Hs|Hs]; [by apply Hidx|].
      apply list_elem_of_singleton in Hs. by subst. }
  assert (Hl1 : forall sym,
            latest !! sym
            = last (filter (fun s => TradingSignal.symbol s = sym)
                           (signal_history self ++ [n]))).
  { intros sym. subst latest. rewrite lookup_insert, filter_app.
    case_decide as Hsym.
    - rewrite (filter_cons_True _ n), filter_nil by done.
      by rewrite last_snoc.
    - rewrite (filter_cons_False _ n), filter_nil, app_nil_r by done.
      apply Hlat. }
  destruct (accept_stores self n) as [Hsmall Hfull].
  destruct (decide (length (signal_history self) < 200)%nat) as [Hlt|Hge].
  - destruct (Hsmall Hlt) as (-> & -> & ->). by split.
  - destruct (Hfull ltac:(lia))
      as (oldest & rest & Hsplit & -> & -> & ->).
    fold latest index. rewrite Hsplit in *.
    assert (Hnd' : NoDup (oldest :: rest)) by (by eapply NoDup_fmap_1).
    apply NoDup_cons in Hnd' as [Hnotin Hnd'].
    split.
    + intros s Hs. rewrite lookup_delete_ne.
      * apply Hi1. by apply list_elem_of_further.
      * intros Hid. apply Hnotin.
        rewrite (Hids oldest s); [done|apply list_elem_of_here| |done].
        by apply list_elem_of_further.
    + intros sym. specialize (Hl1 sym).
      destruct (decide (TradingSignal.symbol oldest = sym)) as [Hsym|Hsym].
      * rewrite (filter_cons_True _ oldest) in Hl1 by done.
        destruct (filter (fun s => TradingSignal.symbol s = sym) rest)
          as [|y ys] eqn:Ef.
        -- simpl in Hl1. rewrite <- Hsym in Hl1.
           rewrite bool_decide_eq_true_2 by done.
           rewrite Hsym. by rewrite lookup_delete_eq.
        -- rewrite last_cons_cons in Hl1.
           assert (Hne : latest !! TradingSignal.symbol oldest
                         <> Some oldest).
           { rewrite Hsym, Hl1. intros Hlast.
             apply last_Some_elem_of in Hlast. rewrite <- Ef in Hlast.
             apply list_elem_of_filter in Hlast as [_ Hin]. done. }
           by rewrite bool_decide_eq_false_2.
      * rewrite (filter_cons_False _ oldest) in Hl1 by done.
        case_bool_decide; [|done].
        by rewrite lookup_delete_ne.
Qed.

Lemma accept_all_distinct signals : forall self,
  NoDup (TradingSignal.signal_id <$> signal_history self ++ signals) ->
  (forall s, s ∈ signal_history self ->
             signal_index self !! TradingSignal.signal_id s = Some s) ->
  (forall sym,
     latest_signals self !! sym
     = last (filter (fun s => TradingSignal.symbol s = sym)
                    (signal_history self))) ->
  let after := accept_all self signals in
  (forall s, s ∈ signal_history after ->
             signal_index after !! TradingSignal.signal_id s = Some s)
  /\ (forall sym,
        latest_signals after !! sym
        = last (filter (fun s => TradingSignal.symbol s = sym)
                       (signal_history after))).
Proof.
  induction signals as [|n signals IH]; intros self Hnd Hidx Hlat; simpl.
  - by split.
  - assert (Hnd1 : NoDup (TradingSignal.signal_id
                            <$> signal_history self ++ [n])).
    { replace (signal_history self ++ n :: signals)
        with ((signal_history self ++ [n]) ++ signals) in Hnd
        by (by rewrite <- app_assoc).
      rewrite fmap_app in Hnd. by apply NoDup_app in Hnd as [? _]. }
    destruct (accept_distinct self n Hnd1 Hidx Hlat) as [Hi Hl].
    apply IH; [|done|done].
    eapply sublist_NoDup; [exact Hnd|].
    apply fmap_sublist.
    replace (signal_history self ++ n :: signals)
      with ((signal_history self ++ [n]) ++ signals)
      by (by rewrite <- app_assoc).
    apply sublist_app; [|done].
    destruct (accept_stores self n) as [Hsmall Hfull].
    destruct (decide (length (signal_history self) < 200)%nat) as [Hlt|Hge].
    + destruct (Hsmall Hlt) as (-> & _). done.
    + destruct (Hfull ltac:(lia)) as (oldest & rest & -> & -> & _).
      by apply sublist_cons.
Qed.

(** X10: when the accepted signals bear ids that all differ,
    [get_signal_by_id] finds exactly the signals of the history: each of
    them under its own id, and nothing under the id of an evicted
    signal. *)
Theorem get_signal_by_id_history generator signals :
  NoDup (TradingSignal.signal_id <$> signals) ->
  let self := accept_all (init generator) signals in
  (forall s, s ∈ signal_history self ->
             get_signal_by_id self (TradingSignal.signal_id s) = Some s)
  /\ (forall id s, get_signal_by_id self id = Some s ->
                   s ∈ signal_history self
                   /\ TradingSignal.signal_id s = id)
  /\ (forall s, s ∈ signals -> s ∉ signal_history self ->
                get_signal_by_id self (TradingSignal.signal_id s) = None).
Proof.
  intros Hnd self.
  destruct (accept_all_distinct signals (init generator)) as [Hidx _];
    [done|intros s Hs; by apply elem_of_nil in Hs|
     intros sym; simpl; by rewrite lookup_empty|].
  fold self in Hidx.
  assert (Hcons : consistent self).
  { apply AutoScannerFacts.accept_all_consistent.
    split; intros k x; simpl; rewrite lookup_empty; discriminate. }
  split; [exact Hidx|]. split; [apply Hcons|].
  intros s Hs Hout. unfold get_signal_by_id.
  destruct (signal_index self !! TradingSignal.signal_id s) as [s'|] eqn:E;
    [|done].
  destruct (proj1 Hcons _ _ E) as [Hin Hid]. exfalso. apply Hout.
  assert (Hsub : signal_history self `sublist_of` signals).
  { subst self.
    rewrite AutoScannerFacts.accept_all_history by (simpl; lia).
    apply sublist_drop. }
  assert (Hin' : s' ∈ signals)
    by (eapply elem_of_sublist; [exact Hin|exact Hsub]).
  assert (s' = s) as <-; [|done].
  by apply (distinct_ids _ Hnd).
Qed.

(** X11: when the accepted signals bear ids that all differ, the
    per-symbol map points, for every symbol, at the most recently accepted
    signal of that symbol that is still in the history, and has no entry
    for a symbol without one. *)
Theorem latest_signals_most_recent generator signals sym :
  NoDup (TradingSignal.signal_id <$> signals) ->
  let self := accept_all (init generator) signals in
  latest_signals self !! sym
  = last (filter (fun s => TradingSignal.symbol s = sym)
                 (signal_history self)).
Proof.
  intros Hnd self.
  destruct (accept_all_distinct signals (init generator)) as [_ Hlat];
    [done|intros s Hs; by apply elem_of_nil in Hs|
     intros sym'; simpl; by rewrite lookup_empty|].
  apply Hlat.
Qed.

(** Three signals on two symbols: each is found under its id, and EURUSD
    points at the later of its two signals. *)
Lemma get_signal_by_id_history_witness :
  let signals :=
    [Example.signal "s1" 0 "EURUSD" CALL 80;
     Example.signal "s2" 60000000 "GBPUSD" PUT 80;
     Example.signal "s3" 120000000 "EURUSD" PUT 70] in
  get_signal_by_id (accept_all (Example.scanner moderate) signals) "s2"
  = Some (Example.signal "s2" 60000000 "GBPUSD" PUT 80).
Proof.
  intros signals.
  destruct (get_signal_by_id_history (Example.generator moderate) signals)
    as (Hfound & _).
  - simpl. repeat constructor; rewrite ?elem_of_cons, ?elem_of_nil;
      intros H; intuition discriminate.
  - apply (Hfound (Example.signal "s2" 60000000 "GBPUSD" PUT 80)).
    vm_compute. apply list_elem_of_further, list_elem_of_here.
Defined.

Lemma latest_signals_most_recent_witness :
  let signals :=
    [Example.signal "s1" 0 "EURUSD" CALL 80;
     Example.signal "s2" 60000000 "GBPUSD" PUT 80;
     Example.signal "s3" 120000000 "EURUSD" PUT 70] in
  latest_signals (accept_all (Example.scanner moderate) signals) !! "EURUSD"
  = Some (Example.signal "s3" 120000000 "EURUSD" PUT 70).
Proof.
  intros signals.
  rewrite (latest_signals_most_recent (Example.generator moderate) signals).
  - vm_compute. reflexivity.
  - simpl. repeat constructor; rewrite ?elem_of_cons, ?elem_of_nil;
      intros H; intuition discriminate.
Defined.

End ScannerStores.

(** ** The automatic scanner: one pass of the scanning loop *)

Module ScanPass.
Import AutoScanner.

Lemma slice_to_30 {A} (l : list A) : Py.slice_to l 30 = take 30 l.
Proof. unfold Py.slice_to. by rewrite decide_False by lia. Qed.

(** X12: outside the manual mode with named symbols, the scanner asks the
    client for its instruments (without OTC ones when only the open market
    is wanted), keeps at most the first 30 of those that pass the market
    filter, in the client's order; with both market flags set and a client
    that honours the request, nothing is scanned. *)
Theorem _get_pairs_to_scan_auto self get_available_pairs :
  ScanConfig.mode (config self) = auto
  \/ ScanConfig.symbols (config self) = None
  \/ ScanConfig.symbols (config self) = Some [] ->
  let cfg := config self in
  let offered :=
    get_available_pairs (negb (ScanConfig.only_open_market cfg)) in
  let pairs := _get_pairs_to_scan self get_available_pairs in
  pairs `sublist_of` offered
  /\ (length pairs <= 30)%nat
  /\ (ScanConfig.only_otc cfg = true ->
      pairs = take 30 (filter (fun p => TradingPair.is_otc p = true) offered))
  /\ (ScanConfig.only_otc cfg = false ->
      ScanConfig.only_open_market cfg = true ->
      pairs
      = take 30 (filter (fun p => TradingPair.is_otc p = false) offered))
  /\ (ScanConfig.only_otc cfg = false ->
      ScanConfig.only_open_market cfg = false ->
      pairs = take 30 offered)
  /\ (ScanConfig.only_otc cfg = true ->
      ScanConfig.only_open_market cfg = true ->
      (forall p, p ∈ get_available_pairs false ->
                 TradingPair.is_otc p = false) ->
      pairs = []).
Proof.
  intros Hmode cfg offered pairs.
  assert (Hp : pairs
               = take 30
                   (if ScanConfig.only_otc cfg
                    then filter (fun p => TradingPair.is_otc p = true) offered
                    else if ScanConfig.only_open_market cfg
                    then filter (fun p => TradingPair.is_otc p = false)
                                offered
                    else offered)).
  { subst pairs offered cfg. unfold _get_pairs_to_scan.
    rewrite <- slice_to_30.
    destruct Hmode as [-> | [-> | ->]]; [done| |];
      by destruct (ScanConfig.mode (config self)). }
  split.
  { rewrite Hp. etrans; [apply sublist_take|].
    destruct (ScanConfig.only_otc cfg).
    - apply (sublist_filter (fun p => TradingPair.is_otc p = true)).
    - destruct (ScanConfig.only_open_market cfg); [|done].
      apply (sublist_filter (fun p => TradingPair.is_otc p = false)). }
  split; [rewrite Hp, length_take; lia|].
  split; [by intros Ho; rewrite Hp, Ho|].
  split; [by intros Ho Hm; rewrite Hp, Ho, Hm|].
  split; [by intros Ho Hm; rewrite Hp, Ho, Hm|].
  intros Ho Hm Hhon. rewrite Hp, Ho.
  subst offered. rewrite Hm. simpl. clear Hp.
  destruct (filter _ _) as [|p rest] eqn:Ef; [apply take_nil|].
  assert (Hin : p ∈ filter (fun p => TradingPair.is_otc p = true)
                      (get_available_pairs false))
    by (rewrite Ef; apply list_elem_of_here).
  apply list_elem_of_filter in Hin as [Hotc Hin].
  rewrite (Hhon p Hin) in Hotc. discriminate.
Qed.

(** What stands behind a signal returned by [_scan_pair]. *)
Lemma _scan_pair_some self pair data now uuid4 signal :
  _scan_pair self pair data now uuid4 = Some signal ->
  exists df,
    data = Py.Ok (Some df)
    /\ ((if bool_decide (ScanConfig.sensitivity (config self) = aggressive)
         then 20 else 30) <= length df)%nat
    /\ SignalGenerator.generate_signal (signal_generator self)
         (TradingPair.symbol pair) df now uuid4 = Py.Ok (Some signal)
    /\ TradingSignal.symbol signal = TradingPair.symbol pair
    /\ TradingSignal.signal_id signal = uuid4
    /\ TradingSignal.timestamp signal = now.
Proof.
  intros Hscan. unfold _scan_pair in Hscan.
  destruct data as [[df|]|]; try discriminate.
  destruct (bool_decide (length df < _)%nat) eqn:Hmin; [discriminate|].
  apply bool_decide_eq_false in Hmin.
  destruct (SignalGenerator.generate_signal _ _ _ _ _)
    as [[signal'|]|] eqn:Hgen; try discriminate.
  assert (signal' = signal) as ->.
  { destruct (latest_signals self !! TradingPair.symbol pair);
      [destruct (_ && _); [discriminate|]|]; congruence. }
  exists df. split; [done|]. split; [lia|]. split; [done|].
  destruct (GeneratorBehaviour.generate_signal_parts _ _ _ _ _ _ Hgen)
    as (df' & patterns & pattern & last_row & is_near & sr_level & direction
        & _ & _ & _ & _ & _ & _ & _ & Hsig).
  by rewrite Hsig.
Qed.

(** X13: a signal returned by [_scan_pair] is the one the generator built
    for the instrument's symbol from the candles received, carries that
    symbol, the id and the time of the call, and needed at least 20
    candles in aggressive mode and, the generator refusing shorter frames,
    at least 50 otherwise; nothing is returned when the candles could not
    be had. *)
Theorem _scan_pair_result self pair data now uuid4 signal :
  SignalGenerator.config (signal_generator self) = config self ->
  _scan_pair self pair data now uuid4 = Some signal ->
  exists df,
    data = Py.Ok (Some df)
    /\ SignalGenerator.generate_signal (signal_generator self)
         (TradingPair.symbol pair) df now uuid4 = Py.Ok (Some signal)
    /\ TradingSignal.symbol signal = TradingPair.symbol pair
    /\ TradingSignal.signal_id signal = uuid4
    /\ TradingSignal.timestamp signal = now
    /\ ((if bool_decide (ScanConfig.sensitivity (config self) = aggressive)
         then 20 else 50) <= length df)%nat.
Proof.
  intros Hcfg Hscan.
  destruct (_scan_pair_some _ _ _ _ _ _ Hscan)
    as (df & Hdata & Hmin & Hgen & Hsym & Hid & Hts).
  exists df. do 5 (split; [done|]).
  destruct (GeneratorBehaviour.generate_signal_parts _ _ _ _ _ _ Hgen)
    as (df' & patterns & pattern & last_row & is_near & sr_level & direction
        & Hprep & _).
  destruct (GeneratorBehaviour.prepare_frame _ _ _ Hprep)
    as (_ & _ & Hcalm & _ & _).
  unfold SignalGenerator.is_aggressive in Hcalm. rewrite Hcfg in Hcalm.
  case_bool_decide as Hagg; [lia|].
  by destruct Hcalm as [_ ?].
Qed.

(** The per-symbol entry after one acceptance. *)
Lemma accept_latest self n :
  (length (signal_history self) < 200)%nat
  \/ head (signal_history self) <> Some n ->
  latest_signals (accept self n) !! TradingSignal.symbol n = Some n.
Proof.
  intros Hroom. unfold accept.
  set (latest := <[TradingSignal.symbol n := n]> (latest_signals self)).
  assert (Hl : latest !! TradingSignal.symbol n = Some n)
    by (subst latest; by rewrite lookup_insert_eq).
  case_bool_decide as Hlen; [|done].
  destruct (signal_history self) as [|oldest rest] eqn:E; simpl in *.
  { lia. }
  rewrite length_app in Hlen. simpl in Hlen.
  destruct Hroom as [?|Hne]; [lia|].
  case_bool_decide as Hold; [|done].
  destruct (decide (TradingSignal.symbol oldest = TradingSignal.symbol n))
    as [Hsym|Hsym].
  - rewrite Hsym, Hl in Hold. congruence.
  - by rewrite lookup_delete_ne.
Qed.

(** X14: once a signal returned by [_scan_pair] has been accepted, scanning
    the same instrument again less than 15 seconds later can only return a
    signal in the other direction. *)
Theorem _scan_pair_again self pair data now uuid4 signal
    data' now' uuid4' signal' :
  (length (signal_history self) < 200)%nat
  \/ head (signal_history self) <> Some signal ->
  _scan_pair self pair data now uuid4 = Some signal ->
  now' - now < Py.seconds 15 ->
  _scan_pair (accept self signal) pair data' now' uuid4' = Some signal' ->
  TradingSignal.direction signal' <> TradingSignal.direction signal.
Proof.
  intros Hroom Hscan Hsoon Hscan' Hdir.
  destruct (_scan_pair_some _ _ _ _ _ _ Hscan)
    as (df & _ & _ & _ & Hsym & _ & Hts).
  destruct (_scan_pair_some _ _ _ _ _ _ Hscan')
    as (df' & -> & _ & Hgen' & _ & _ & Hts').
  pose proof (accept_latest self signal Hroom) as Hlat.
  rewrite Hsym in Hlat.
  unfold _scan_pair in Hscan'.
  destruct (bool_decide (length df' < _)%nat); [discriminate|].
  rewrite Hgen', Hlat in Hscan'.
  rewrite Hts, Hts' in Hscan'.
  rewrite (bool_decide_eq_true_2 _ Hsoon), (bool_decide_eq_true_2 _ Hdir)
    in Hscan'.
  discriminate.
Qed.



Lemma _get_pairs_to_scan_auto_witness :
  _get_pairs_to_scan (Example.scanner moderate)
    (fun _ => [Example.instrument "EURUSD" false true;
               Example.instrument "EURUSD-OTC" true true])
  = [Example.instrument "EURUSD" false true;
     Example.instrument "EURUSD-OTC" true true].
Proof.
  destruct (_get_pairs_to_scan_auto (Example.scanner moderate)
              (fun _ => [Example.instrument "EURUSD" false true;
                         Example.instrument "EURUSD-OTC" true true]))
    as (_ & _ & _ & _ & Hall & _).
  - left. reflexivity.
  - rewrite Hall by reflexivity. reflexivity.
Defined.

(** Twenty candles suffice in aggressive mode, and the signal bears the
    symbol of the instrument. *)
Lemma _scan_pair_result_witness :
  exists signal,
    _scan_pair (Example.scanner aggressive)
      (Example.instrument "EURUSD" false true)
      (Py.Ok (Some Example.long_frame)) 80500000 "a0" = Some signal
    /\ TradingSignal.symbol signal = "EURUSD"
    /\ TradingSignal.timestamp signal = 80500000.
Proof.
  destruct (_scan_pair (Example.scanner aggressive)
              (Example.instrument "EURUSD" false true)
              (Py.Ok (Some Example.long_frame)) 80500000 "a0")
    as [signal|] eqn:E; [|vm_compute in E; discriminate].
  exists signal. split; [reflexivity|].
  destruct (_scan_pair_result (Example.scanner aggressive)
              (Example.instrument "EURUSD" false true)
              (Py.Ok (Some Example.long_frame)) 80500000 "a0" signal
              eq_refl E)
    as (df & _ & _ & Hsym & _ & Hts & _).
  split; [exact Hsym|exact Hts].
Defined.

(** A rescan ten seconds later, after a falling candle, is let through: it
    points the other way. *)
Lemma _scan_pair_again_witness :
  let self := Example.scanner_without_levels aggressive in
  let pair := Example.instrument "EURUSD" false true in
  exists signal signal',
    _scan_pair self pair (Py.Ok (Some Example.long_frame)) 80500000 "a0"
    = Some signal
    /\ _scan_pair (accept self signal) pair
         (Py.Ok (Some (Example.long_frame
                         ++ [Example.candle 1200000000 11 10])))
         90500000 "a1"
       = Some signal'
    /\ TradingSignal.direction signal' <> TradingSignal.direction signal.
Proof.
  intros self pair.
  destruct (_scan_pair self pair (Py.Ok (Some Example.long_frame))
              80500000 "a0") as [signal|] eqn:E;
    [|vm_compute in E; discriminate].
  assert (Hsig : Some signal
                 = _scan_pair self pair (Py.Ok (Some Example.long_frame))
                     80500000 "a0") by (symmetry; exact E).
  vm_compute in Hsig. injection Hsig as Hsig.
  destruct (_scan_pair (accept self signal) pair
              (Py.Ok (Some (Example.long_frame
                              ++ [Example.candle 1200000000 11 10])))
              90500000 "a1") as [signal'|] eqn:E';
    [|rewrite Hsig in E'; vm_compute in E'; discriminate].
  exists signal, signal'. split; [reflexivity|]. split; [exact E'|].
  apply (_scan_pair_again self pair (Py.Ok (Some Example.long_frame))
           80500000 "a0" signal
           (Py.Ok (Some (Example.long_frame
                           ++ [Example.candle 1200000000 11 10])))
           90500000 "a1" signal').
  - left. simpl. lia.
  - exact E.
  - vm_compute. reflexivity.
  - exact E'.
Defined.


End ScanPass.

(** ** The client: life cycle of a connection *)

Module ClientLifecycle.
Import IQOptionClient.

Lemma init_well_formed e p a env : well_formed (init e p a env).
Proof. split; simpl; intros; discriminate. Qed.

Lemma _clear_connection_state_well_formed self :
  well_formed (_clear_connection_state self).
Proof. split; simpl; intros; discriminate. Qed.

Lemma _handle_two_factor_challenge_state self reason :
  let after := _handle_two_factor_challenge self reason in
  api after = api self /\ connected after = connected self
  /\ awaiting_two_factor after = true
  /\ truthy (two_factor_message after) = true.
Proof.
  unfold _handle_two_factor_challenge. simpl.
  repeat split. by case_bool_decide.
Qed.

Lemma _finalize_successful_login_well_formed self tr :
  api self = true ->
  well_formed (snd (_finalize_successful_login self tr)).
Proof.
  intros Hapi. unfold _finalize_successful_login. rewrite Hapi. simpl.
  repeat case_match; simpl; split; simpl; intros; try discriminate; done.
Qed.

(** [connect] in terms of its two parts. *)
Lemma connect_parts self email_arg password_arg account tr :
  connect self email_arg password_arg account tr
  = if negb (Transport.available tr) then
      (Py.Ok false,
       set_last_error self
         (Some "Biblioteca IQ Option nao encontrada. Reinstale a aplicacao."))
    else
      let s := take_arguments self email_arg password_arg account in
      if connected s && api s then
        if bool_decide (_connected_email s <> None)
           && (bool_decide (email s <> _connected_email s)
               || bool_decide (password s <> _connected_password s))
        then login (disconnect s) tr
        else if bool_decide (account_type self <> account_type s) then
          match Transport.change_balance tr with
          | Py.Raise e => (Py.Raise e, s)
          | Py.Ok _ => (Py.Ok true, s)
          end
        else (Py.Ok true, s)
      else login s tr.
Proof.
  unfold connect, take_arguments, login.
  destruct (truthy email_arg), (truthy password_arg), account; reflexivity.
Qed.

Lemma take_arguments_state self email_arg password_arg account :
  let s := take_arguments self email_arg password_arg account in
  api s = api self /\ connected s = connected self
  /\ awaiting_two_factor s = false /\ two_factor_message s = None
  /\ _connected_email s = _connected_email self
  /\ _connected_password s = _connected_password self
  /\ _connected_account_type s = _connected_account_type self
  /\ _last_known_balance s = _last_known_balance self
  /\ last_error s = last_error self
  /\ email s = (if truthy email_arg then email_arg else email self)
  /\ password s
     = (if truthy password_arg then password_arg else password self)
  /\ account_type s = default (account_type self) account.
Proof.
  unfold take_arguments.
  destruct (truthy email_arg), (truthy password_arg), account; done.
Qed.

Lemma login_well_formed s tr :
  connected s = false -> awaiting_two_factor s = false ->
  well_formed (snd (login s tr)).
Proof.
  intros Hs Hw. unfold login.
  destruct (negb _ || negb _); [split; simpl; intros; congruence|].
  cbv zeta.
  destruct (Transport.create tr);
    [|apply _clear_connection_state_well_formed].
  destruct (Transport.connect tr) as [[[] reason]|];
    [| |apply _clear_connection_state_well_formed].
  - pose proof (_finalize_successful_login_well_formed
                  (set_api s true) tr eq_refl) as Hf.
    destruct (_finalize_successful_login (set_api s true) tr)
      as [[] s']; [exact Hf|apply _clear_connection_state_well_formed].
  - destruct (Transport.is_two_factor_challenge reason);
      [|apply _clear_connection_state_well_formed].
    destruct (_handle_two_factor_challenge_state (set_api s true) reason)
      as (H1 & H2 & H3 & H4).
    set (after := _handle_two_factor_challenge (set_api s true) reason) in *.
    clearbody after.
    change (api (set_api s true)) with true in H1.
    change (connected (set_api s true)) with (connected s) in H2.
    split; simpl; intros; [exact H1|]. split; [exact H1|].
    split; [congruence|exact H4].
Qed.

Lemma connect_well_formed self email_arg password_arg account tr :
  well_formed self ->
  well_formed (snd (connect self email_arg password_arg account tr)).
Proof.
  intros [Hc Ha]. rewrite connect_parts.
  destruct (Transport.available tr); cbn [negb]; [|by split].
  cbv zeta.
  destruct (take_arguments_state self email_arg password_arg account)
    as (Hapi & Hcon & Haw & _).
  set (s := take_arguments self email_arg password_arg account) in *.
  destruct (connected s && api s) eqn:Hlive.
  - destruct (bool_decide (_connected_email s <> None) && _);
      [by apply login_well_formed|].
    assert (well_formed s).
    { apply andb_prop in Hlive as [_ Hlive].
      split; [done|]. rewrite Haw. discriminate. }
    destruct (bool_decide _); [|done].
    by destruct (Transport.change_balance tr).
  - apply login_well_formed; [|done].
    rewrite Hcon, Hapi in *. destruct (connected self); [|done].
    rewrite Hc in Hlive; done.
Qed.

Lemma submit_two_factor_code_well_formed self code tr :
  well_formed self ->
  well_formed (snd (submit_two_factor_code self code tr)).
Proof.
  intros Hwf. unfold submit_two_factor_code.
  destruct (awaiting_two_factor self) eqn:Haw; [|done].
  destruct (api self) eqn:Hapi; [|done]. cbn [negb orb].
  destruct Hwf as [Hc Ha]. destruct (Ha Haw) as (_ & Hcon & Hmsg).
  destruct (Transport.connect_2fa tr code) as [[[] reason]|].
  - pose proof (_finalize_successful_login_well_formed self tr Hapi) as Hf.
    by destruct (_finalize_successful_login self tr) as [[] s'].
  - destruct (Transport.is_two_factor_challenge reason).
    + destruct (_handle_two_factor_challenge_state self reason)
        as (H1 & H2 & H3 & H4).
      set (after := _handle_two_factor_challenge self reason) in *.
      clearbody after.
      split; simpl; intros; [congruence|].
      split; [congruence|]. split; [congruence|exact H4].
    + split; simpl; intros; discriminate.
  - split; simpl; intros; [congruence|done].
Qed.

Lemma check_connection_well_formed self tr :
  well_formed self ->
  let '(alive, after) := check_connection self tr in
  well_formed after /\ alive = connected after /\ api after = api self.
Proof.
  intros Hwf. pose proof Hwf as [Hc Ha]. unfold check_connection.
  destruct (api self) eqn:Hapi; cbn [negb orb].
  - destruct (connected self) eqn:Hcon; cbn [negb].
    + assert (Haw : awaiting_two_factor self = false).
      { destruct (awaiting_two_factor self) eqn:Haw; [|done].
        by destruct (Ha eq_refl) as (_ & ? & _). }
      destruct (Transport.check_connect tr) as [[[]|]|];
        try destruct (Transport.get_balance tr) as [[]|];
        (split; [split; simpl; intros; congruence|by split]).
    + split; [exact Hwf|]. by split.
  - split; [exact Hwf|]. split; [|done].
    destruct (connected self); [|done]. by specialize (Hc eq_refl).
Qed.

(** X16: every method of the client keeps it well formed - connected, or
    waiting for a second factor, only while it holds a transport object,
    never both at once, and a pending challenge always with its message;
    and [check_connection] answers with the flag it leaves behind. *)
Theorem well_formed_preserved self tr :
  well_formed self ->
  (forall email password account,
     well_formed (snd (connect self email password account tr)))
  /\ (forall code, well_formed (snd (submit_two_factor_code self code tr)))
  /\ well_formed (snd (check_connection self tr))
  /\ fst (check_connection self tr)
     = connected (snd (check_connection self tr))
  /\ well_formed (disconnect self)
  /\ (forall a, well_formed (set_account_type self a)).
Proof.
  intros Hwf.
  split; [intros; by apply connect_well_formed|].
  split; [intros; by apply submit_two_factor_code_well_formed|].
  pose proof (check_connection_well_formed self tr Hwf) as Hcheck.
  destruct (check_connection self tr) as [alive after].
  destruct Hcheck as (? & ? & _).
  split; [done|]. split; [done|].
  split; [apply _clear_connection_state_well_formed|].
  intros a. exact Hwf.
Qed.

Lemma login_never_raises s tr :
  exists flag, fst (login s tr) = Py.Ok flag.
Proof.
  unfold login.
  destruct (negb _ || negb _); [by eexists|]. cbv zeta.
  destruct (Transport.create tr); [|by eexists].
  destruct (Transport.connect tr) as [[[] reason]|]; [| |by eexists].
  - destruct (_finalize_successful_login (set_api s true) tr) as [[] s'];
      by eexists.
  - destruct (Transport.is_two_factor_challenge reason); by eexists.
Qed.

(** X17: [connect] lets an exception out in one case only: the client is
    connected, its credentials are unchanged, another account type is
    asked for and the switch of balance raises.  The client then stays
    connected and already reports the account type asked for. *)
Theorem connect_raises self email_arg password_arg account tr e after :
  connect self email_arg password_arg account tr = (Py.Raise e, after) ->
  connected self = true /\ api self = true
  /\ Transport.change_balance tr = Py.Raise e
  /\ after = take_arguments self email_arg password_arg account
  /\ connected after = true
  /\ exists a, account = Some a /\ a <> account_type self
               /\ account_type after = a.
Proof.
  rewrite connect_parts.
  destruct (Transport.available tr); cbn [negb]; [|discriminate].
  cbv zeta.
  destruct (take_arguments_state self email_arg password_arg account)
    as (Hapi & Hcon & _ & _ & _ & _ & _ & _ & _ & _ & _ & Hacc).
  set (s := take_arguments self email_arg password_arg account) in *.
  assert (Hlogin : forall x, login x tr <> (Py.Raise e, after)).
  { intros x Hx. destruct (login_never_raises x tr) as [flag Hflag].
    rewrite Hx in Hflag. discriminate. }
  destruct (connected s && api s) eqn:Hlive; [|intros H; by apply Hlogin in H].
  apply andb_prop in Hlive as [Hc Ha].
  destruct (bool_decide (_connected_email s <> None) && _);
    [intros H; by apply Hlogin in H|].
  case_bool_decide as Hchanged; [|discriminate].
  destruct (Transport.change_balance tr) as [|e'] eqn:Hcb; [discriminate|].
  intros [= -> <-].
  split; [congruence|]. split; [congruence|]. split; [done|].
  split; [done|]. split; [done|].
  clearbody s.
  destruct account as [a|]; simpl in Hacc; [|by rewrite Hacc in Hchanged].
  exists a. split; [done|]. split; [congruence|done].
Qed.

Lemma _finalize_successful_login_done s tr after :
  _finalize_successful_login s tr = (Py.Ok tt, after) ->
  api s = true
  /\ exists balance,
       after
       = mk true true (email s) (password s) (account_type s) None
            (email s) (password s) (Some (account_type s)) (Some balance)
            false None.
Proof.
  unfold _finalize_successful_login.
  destruct (api s) eqn:Hapi; cbn [negb]; [|discriminate].
  cbv zeta.
  destruct (Transport.change_balance tr); [|discriminate].
  assert (Hv : forall x,
            api x = true -> connected x = true -> last_error x = None ->
            awaiting_two_factor x = false -> two_factor_message x = None ->
            match Transport.get_balance tr with
            | Py.Ok (Some balance_value) =>
                if bool_decide (balance_value < 0)%Qc
                then
                  (Py.Raise
                     (Py.RuntimeError
                        "Saldo invalido retornado. Credenciais podem estar incorretas."),
                   disconnect
                     (set_last_error
                        (set_last_known_balance x (Some balance_value))
                        (Some ("Falha ao validar credenciais. "
                               +:+ "Verifique se o email e senha estao corretos."))))
                else
                  (Py.Ok tt,
                   mk (api x) (connected x) (email x) (password x)
                      (account_type x) (last_error x) (email x) (password x)
                      (Some (account_type x)) (Some balance_value)
                      (awaiting_two_factor x) (two_factor_message x))
            | Py.Ok None =>
                (Py.Raise
                   (Py.RuntimeError
                      "Falha ao obter saldo. Credenciais podem estar incorretas."),
                 disconnect
                   (set_last_error x
                      (Some ("Falha ao validar credenciais. "
                             +:+ "Verifique se o email e senha estao corretos."))))
            | Py.Raise e0 =>
                (Py.Raise e0,
                 disconnect
                   (set_last_error x
                      (Some ("Falha ao validar credenciais. "
                             +:+ "Verifique se o email e senha estao corretos."))))
            end = (Py.Ok tt, after) ->
            exists balance,
              after
              = mk true true (email x) (password x) (account_type x) None
                   (email x) (password x) (Some (account_type x))
                   (Some balance) false None).
  { intros x H1 H2 H3 H4 H5.
    destruct (Transport.get_balance tr) as [[b|]|]; try discriminate.
    case_bool_decide; [discriminate|].
    intros [= <-]. exists b. by rewrite H1, H2, H3, H4, H5. }
  intros H. split; [done|].
  destruct (Transport.check_connect tr) as [[[]|]|]; try discriminate;
    by apply Hv in H.
Qed.

Lemma login_done s tr after :
  login s tr = (Py.Ok true, after) ->
  exists balance,
    after
    = mk true true (email s) (password s) (account_type s) None
         (email s) (password s) (Some (account_type s)) (Some balance)
         false None.
Proof.
  unfold login.
  destruct (negb _ || negb _); [discriminate|]. cbv zeta.
  destruct (Transport.create tr); [|discriminate].
  destruct (Transport.connect tr) as [[[] reason]|]; [| |discriminate].
  - destruct (_finalize_successful_login (set_api s true) tr)
      as [[[]|] s'] eqn:Hf; [|discriminate].
    intros [= <-].
    by destruct (_finalize_successful_login_done _ _ _ Hf) as [_ ?].
  - by destruct (Transport.is_two_factor_challenge reason).
Qed.

Lemma bool_decide_ne_refl {A} `{EqDecision A} (x : A) :
  bool_decide (x <> x) = false.
Proof. by apply bool_decide_eq_false_2; intros H; apply H. Qed.

Lemma take_arguments_fixed x email_arg password_arg account :
  (truthy email_arg = true -> email x = email_arg) ->
  (truthy password_arg = true -> password x = password_arg) ->
  (forall a, account = Some a -> account_type x = a) ->
  awaiting_two_factor x = false -> two_factor_message x = None ->
  take_arguments x email_arg password_arg account = x.
Proof.
  intros He Hp Ha Haw Hmsg. unfold take_arguments.
  destruct x; simpl in *. subst.
  destruct (truthy email_arg); [rewrite <- He by done|];
    (destruct (truthy password_arg); [rewrite <- Hp by done|]);
    (destruct account as [a|]; [rewrite <- (Ha a) by done|]); done.
Qed.

(** X18: a [connect] that succeeded is not repeated: the same call again
    returns [True] and leaves the client as it is, whatever the transport
    would answer. *)
Theorem connect_again self email_arg password_arg account tr tr' after :
  connect self email_arg password_arg account tr = (Py.Ok true, after) ->
  Transport.available tr' = true ->
  connect after email_arg password_arg account tr' = (Py.Ok true, after)
  /\ connected after = true /\ api after = true
  /\ awaiting_two_factor after = false.
Proof.
  intros Hfirst Hav.
  rewrite connect_parts in Hfirst.
  destruct (Transport.available tr); cbn [negb] in Hfirst; [|discriminate].
  cbv zeta in Hfirst.
  destruct (take_arguments_state self email_arg password_arg account)
    as (Hapi & Hcon & Haw & Hmsg & Hce & Hcp & _ & _ & _ & Hem & Hpw & Hacc).
  set (s := take_arguments self email_arg password_arg account) in *.
  assert (Hfix : forall x,
            email x = email s -> password x = password s ->
            account_type x = account_type s ->
            awaiting_two_factor x = false -> two_factor_message x = None ->
            take_arguments x email_arg password_arg account = x).
  { intros x He Hp Ha ? ?. apply take_arguments_fixed; [| | |done|done].
    - intros Ht. rewrite He, Hem, Ht. done.
    - intros Ht. rewrite Hp, Hpw, Ht. done.
    - intros a ->. rewrite Ha, Hacc. done. }
  assert (Hlogin : forall x,
            email x = email s -> password x = password s ->
            account_type x = account_type s ->
            login x tr = (Py.Ok true, after) ->
            connect after email_arg password_arg account tr'
            = (Py.Ok true, after)
            /\ connected after = true /\ api after = true
            /\ awaiting_two_factor after = false).
  { intros x He Hp Ha Hl.
    destruct (login_done _ _ _ Hl) as [balance ->].
    split; [|done].
    rewrite connect_parts, Hav. cbn [negb]. cbv zeta.
    rewrite Hfix by done. simpl.
    by rewrite !bool_decide_ne_refl, andb_false_r. }
  assert (Hstay : connected s = true -> api s = true ->
            (bool_decide (_connected_email s <> None)
             && (bool_decide (email s <> _connected_email s)
                 || bool_decide (password s <> _connected_password s)))
            = false ->
            connect s email_arg password_arg account tr'
            = (Py.Ok true, s)).
  { intros Hc Ha Hsame.
    rewrite connect_parts, Hav. cbn [negb]. cbv zeta.
    rewrite Hfix by done. rewrite Hc, Ha, Hsame. simpl.
    by rewrite bool_decide_ne_refl. }
  destruct (connected s && api s) eqn:Hlive.
  - apply andb_prop in Hlive as [Hc Ha].
    destruct (bool_decide (_connected_email s <> None) && _) eqn:Hsame.
    + by apply (Hlogin (disconnect s)).
    + assert (after = s) as ->.
      { destruct (bool_decide (account_type self <> account_type s));
          [destruct (Transport.change_balance tr)|]; congruence. }
      split; [by apply Hstay|done].
  - by apply (Hlogin s).
Qed.

Lemma upper_nonempty c s : Py.upper (String c s) <> "".
Proof. done. Qed.

(** The message of a challenge always names a method, SMS when the
    transport names none. *)
Lemma _handle_two_factor_challenge_message self reason :
  let m :=
    Py.upper (match Transport.method reason with
              | Some (String c s) => String c s
              | _ => "sms"
              end) in
  m <> ""
  /\ two_factor_message (_handle_two_factor_challenge self reason)
     = Some ("Verificacao " +:+ m +:+ " pendente. "
             +:+ "Informe o codigo recebido da IQ Option.").
Proof.
  unfold _handle_two_factor_challenge.
  destruct (Transport.method reason) as [[|c s]|]; cbn [default];
    (split; [done|]); cbn [two_factor_message set_two_factor];
    by rewrite bool_decide_eq_false_2.
Qed.

Lemma login_pending s tr r after :
  awaiting_two_factor s = false ->
  login s tr = (r, after) -> awaiting_two_factor after = true ->
  r = Py.Ok false
  /\ exists reason,
       Transport.connect tr = Py.Ok (false, reason)
       /\ Transport.is_two_factor_challenge reason = true
       /\ after
          = set_last_error
              (_handle_two_factor_challenge (set_api s true) reason)
              (two_factor_message
                 (_handle_two_factor_challenge (set_api s true) reason)).
Proof.
  intros Hs. unfold login.
  destruct (negb _ || negb _); [intros [= <- <-]; simpl; congruence|].
  cbv zeta.
  destruct (Transport.create tr); [|intros [= <- <-]; discriminate].
  destruct (Transport.connect tr) as [[[] reason]|];
    [| |intros [= <- <-]; discriminate].
  - pose proof (_finalize_successful_login_well_formed
                  (set_api s true) tr eq_refl) as [_ Hf].
    destruct (_finalize_successful_login (set_api s true) tr)
      as [[[]|] s'] eqn:E; [|intros [= <- <-]; discriminate].
    destruct (_finalize_successful_login_done _ _ _ E) as [_ [b ->]].
    intros [= <- <-]. discriminate.
  - destruct (Transport.is_two_factor_challenge reason) eqn:Hch;
      [|intros [= <- <-]; discriminate].
    intros [= <- <-] _. split; [done|]. by exists reason.
Qed.

(** X19: a [connect] leaves a challenge pending only when the transport
    answered the login with a second-factor challenge; it then returns
    [False], holds the transport object, and both the challenge message
    and the last error read "Verificacao <METHOD> pendente. ...", with the
    method in upper case and SMS when none is named - the generic message
    is never used. *)
Theorem connect_pending self email_arg password_arg account tr r after :
  Transport.available tr = true ->
  connect self email_arg password_arg account tr = (r, after) ->
  awaiting_two_factor after = true ->
  r = Py.Ok false /\ api after = true
  /\ exists reason,
       Transport.connect tr = Py.Ok (false, reason)
       /\ Transport.is_two_factor_challenge reason = true
       /\ let m :=
            Py.upper (match Transport.method reason with
                      | Some (String c s) => String c s
                      | _ => "sms"
                      end) in
          m <> ""
          /\ two_factor_message after
             = Some ("Verificacao " +:+ m +:+ " pendente. "
                     +:+ "Informe o codigo recebido da IQ Option.")
          /\ last_error after = two_factor_message after.
Proof.
  intros Hav. rewrite connect_parts, Hav. cbn [negb]. cbv zeta.
  destruct (take_arguments_state self email_arg password_arg account)
    as (_ & _ & Haw & _).
  set (s := take_arguments self email_arg password_arg account) in *.
  clearbody s.
  assert (Hlogin : forall x,
            awaiting_two_factor x = false ->
            login x tr = (r, after) -> awaiting_two_factor after = true ->
            r = Py.Ok false /\ api after = true
            /\ exists reason,
                 Transport.connect tr = Py.Ok (false, reason)
                 /\ Transport.is_two_factor_challenge reason = true
                 /\ let m :=
                      Py.upper (match Transport.method reason with
                                | Some (String c s) => String c s
                                | _ => "sms"
                                end) in
                    m <> ""
                    /\ two_factor_message after
                       = Some ("Verificacao " +:+ m +:+ " pendente. "
                               +:+ "Informe o codigo recebido da IQ Option.")
                    /\ last_error after = two_factor_message after).
  { intros x Hx Hl Hp.
    destruct (login_pending _ _ _ _ Hx Hl Hp) as (-> & reason & Hc & Hch & ->).
    split; [done|]. split; [done|]. exists reason.
    split; [done|]. split; [done|].
    destruct (_handle_two_factor_challenge_message (set_api x true) reason)
      as [Hm Hmsg].
    split; [exact Hm|]. split; [exact Hmsg|done]. }
  destruct (connected s && api s).
  - destruct (bool_decide (_connected_email s <> None) && _);
      [by apply Hlogin|].
    destruct (bool_decide _);
      [destruct (Transport.change_balance tr)|];
      intros [= <- <-]; congruence.
  - by apply Hlogin.
Qed.

(** X20: what a rejected code leaves behind.  Without a pending challenge
    nothing changes.  Otherwise the message is recorded as the last error
    and: after an exception of the transport, or a new challenge (whose
    own message is the one returned), the challenge stays pending; after
    any other rejection the connection state is cleared, and every later
    code is answered that no challenge is pending. *)
Theorem submit_two_factor_code_rejected self code tr message after :
  submit_two_factor_code self code tr = (Py.Ok (false, message), after) ->
  ((awaiting_two_factor self = false \/ api self = false)
   /\ message = "Nenhum desafio de verificacao pendente."
   /\ after = self)
  \/ (awaiting_two_factor self = true /\ api self = true
      /\ last_error after = Some message
      /\ ((exists e,
             Transport.connect_2fa tr code = Py.Raise e
             /\ message
                = "Erro ao validar codigo: " +:+ Transport.str_exception tr e
             /\ after = set_last_error self (Some message))
          \/ (exists reason,
                Transport.connect_2fa tr code = Py.Ok (false, reason)
                /\ Transport.is_two_factor_challenge reason = true
                /\ awaiting_two_factor after = true /\ api after = true
                /\ two_factor_message after = Some message)
          \/ (exists reason,
                Transport.connect_2fa tr code = Py.Ok (false, reason)
                /\ Transport.is_two_factor_challenge reason = false
                /\ message = Transport.interpreted reason
                /\ api after = false /\ connected after = false
                /\ awaiting_two_factor after = false
                /\ forall code' tr',
                     submit_two_factor_code after code' tr'
                     = (Py.Ok (false,
                               "Nenhum desafio de verificacao pendente."),
                        after)))).
Proof.
  unfold submit_two_factor_code.
  destruct (awaiting_two_factor self) eqn:Haw; cbn [negb orb];
    [|intros [= <- <-]; left; split; [by left|done]].
  destruct (api self) eqn:Hapi; cbn [negb];
    [|intros [= <- <-]; left; split; [by right|done]].
  intros Hsub. right. split; [done|]. split; [done|].
  destruct (Transport.connect_2fa tr code) as [[[] reason]|e] eqn:Hc.
  - destruct (_finalize_successful_login self tr) as [[[]|] s'];
      discriminate.
  - destruct (Transport.is_two_factor_challenge reason) eqn:Hch.
    + destruct (_handle_two_factor_challenge_message self reason)
        as [Hm Hmsg].
      destruct (_handle_two_factor_challenge_state self reason)
        as (H1 & _ & H3 & _).
      rewrite Hmsg in Hsub. cbn [default] in Hsub.
      set (m := Py.upper _) in *.
      assert (Hv : exists rest,
                "Verificacao " +:+ m +:+ " pendente. "
                +:+ "Informe o codigo recebido da IQ Option."
                = String "V" rest) by (by eexists).
      destruct Hv as [rest Hv]. rewrite Hv in Hsub, Hmsg.
      injection Hsub as <- <-.
      split; [done|]. right. left. exists reason.
      split; [done|]. split; [done|]. simpl. rewrite Hapi in H1. done.
    + injection Hsub as <- <-. split; [done|]. right. right.
      exists reason. done.
  - injection Hsub as <- <-. split; [done|]. left. by exists e.
Qed.

(** X21: [connect_with_credentials] never raises, because it stores the
    account type before [connect] looks at it; on a connected client
    whose credentials it leaves unchanged it reports success in the
    account type asked for without any request to the transport. *)
Theorem connect_with_credentials_no_switch self email_arg password_arg
    account tr :
  (exists r after,
     connect_with_credentials self email_arg password_arg account tr
     = (Py.Ok r, after))
  /\ (Transport.available tr = true ->
      connected self = true -> api self = true ->
      _connected_email self = None
      \/ (email_arg = _connected_email self
          /\ password_arg = _connected_password self) ->
      connect_with_credentials self email_arg password_arg account tr
      = (Py.Ok (true,
                "Conectado ao IQ Option com sucesso! Conta: "
                +:+ AccountType_str (default (account_type self) account)),
         take_arguments (set_credentials self email_arg password_arg)
           None None account)).
Proof.
  unfold connect_with_credentials. cbv zeta.
  set (x := match account with
            | Some a =>
                set_account_type
                  (set_credentials self email_arg password_arg) a
            | None => set_credentials self email_arg password_arg
            end).
  assert (Hx : take_arguments x None None None
               = take_arguments (set_credentials self email_arg password_arg)
                   None None account)
    by (subst x; by destruct account).
  assert (Hacc : account_type x = default (account_type self) account)
    by (subst x; by destruct account).
  assert (Hst : connected x = connected self /\ api x = api self
                /\ _connected_email x = _connected_email self
                /\ _connected_password x = _connected_password self
                /\ email x = email_arg /\ password x = password_arg)
    by (subst x; by destruct account).
  destruct Hst as (Hcon & Hapi & Hce & Hcp & Hem & Hpw).
  rewrite connect_parts. cbv zeta.
  destruct (take_arguments_state x None None None)
    as (Hapi' & Hcon' & _ & _ & Hce' & Hcp' & _ & _ & _ & Hem' & Hpw' & Hacc').
  cbn [truthy default] in Hem', Hpw', Hacc'.
  rewrite Hx in *.
  set (s := take_arguments (set_credentials self email_arg password_arg)
              None None account) in *.
  clearbody s. clearbody x.
  rewrite (bool_decide_eq_false_2 (account_type x <> account_type s))
    by (rewrite Hacc'; intros H; by apply H).
  split.
  - destruct (Transport.available tr); cbn [negb]; [|by eexists _, _].
    assert (Hlogin : forall y,
              exists r after,
                match login y tr with
                | (Py.Ok true, self0) =>
                    (Py.Ok
                       (true,
                        "Conectado ao IQ Option com sucesso! Conta: "
                        +:+ AccountType_str (account_type self0)),
                     self0)
                | (Py.Ok false, self0) =>
                    (Py.Ok
                       (false,
                        default "Falha ao conectar ao IQ Option"
                          (match last_error self0 with
                           | Some (String c s0) => Some (String c s0)
                           | _ => None
                           end)),
                     self0)
                | (Py.Raise e, self0) => (Py.Raise e, self0)
                end = (Py.Ok r, after)).
    { intros y. destruct (login_never_raises y tr) as [flag Hflag].
      destruct (login y tr) as [res s']. simpl in Hflag. subst res.
      destruct flag; by eexists _, _. }
    destruct (connected s && api s); [|apply Hlogin].
    destruct (bool_decide (_connected_email s <> None) && _);
      [apply Hlogin|by eexists _, _].
  - intros -> Hc Ha Hsame. cbn [negb].
    rewrite Hcon', Hapi', Hcon, Hapi, Hc, Ha. cbn [andb].
    assert (Hcred : bool_decide (_connected_email s <> None)
                    && (bool_decide (email s <> _connected_email s)
                        || bool_decide
                             (password s <> _connected_password s))
                    = false).
    { rewrite Hce', Hcp', Hem', Hpw', Hce, Hcp, Hem, Hpw.
      destruct Hsame as [-> | [-> ->]].
      - by rewrite bool_decide_eq_false_2 by (intros H; by apply H).
      - by rewrite !bool_decide_ne_refl, andb_false_r. }
    rewrite Hcred. by rewrite Hacc', Hacc.
Qed.

(** A login over a transport that lets it through. *)
Lemma well_formed_preserved_witness :
  well_formed Example.connected_client.
Proof.
  destruct (well_formed_preserved Example.new_client Example.good_transport)
    as (Hconnect & _).
  - split; simpl; intros; discriminate.
  - apply (Hconnect None None None).
Defined.

(** A switch to the real account that the transport refuses. *)
Lemma connect_raises_witness :
  let tr :=
    Example.transport (Py.Ok (true, Example.no_reason))
      (Py.Raise (Py.TransportError "down")) (Py.Ok None) in
  exists after,
    connect Example.connected_client None None (Some REAL) tr
    = (Py.Raise (Py.TransportError "down"), after)
    /\ connected after = true /\ account_type after = REAL.
Proof.
  intros tr.
  destruct (connect Example.connected_client None None (Some REAL) tr)
    as [[flag|e] after] eqn:E; [vm_compute in E; discriminate|].
  assert (He : e = Py.TransportError "down").
  { assert (H : fst (connect Example.connected_client None None
                       (Some REAL) tr) = Py.Raise e) by (by rewrite E).
    vm_compute in H. congruence. }
  subst e. exists after. split; [reflexivity|].
  destruct (connect_raises _ _ _ _ _ _ _ E)
    as (_ & _ & _ & _ & Hcon & a & Ha & _ & Hacc).
  split; [exact Hcon|]. congruence.
Defined.

Lemma connect_again_witness :
  connect Example.connected_client None None None
    (Example.transport (Py.Raise (Py.TransportError "down")) (Py.Ok tt)
       (Py.Ok None))
  = (Py.Ok true, Example.connected_client).
Proof.
  apply (connect_again Example.new_client None None None
           Example.good_transport).
  - vm_compute. reflexivity.
  - reflexivity.
Defined.

Lemma connect_pending_witness :
  let tr :=
    Example.transport (Py.Ok (false, Example.challenge)) (Py.Ok tt)
      (Py.Ok None) in
  fst (connect Example.new_client None None None tr) = Py.Ok false
  /\ two_factor_message Example.pending_client
     = Some "Verificacao SMS pendente. Informe o codigo recebido da IQ Option.".
Proof.
  intros tr.
  destruct (connect_pending Example.new_client None None None tr
              (fst (connect Example.new_client None None None tr))
              (snd (connect Example.new_client None None None tr)))
    as (Hr & _ & reason & Hc & _ & _ & Hmsg & _).
  - reflexivity.
  - by destruct (connect Example.new_client None None None tr).
  - vm_compute. reflexivity.
  - split; [exact Hr|].
    vm_compute in Hc. injection Hc as <-. exact Hmsg.
Defined.

(** A code sent to a client that has no challenge pending. *)
Lemma submit_two_factor_code_rejected_witness :
  snd (submit_two_factor_code Example.new_client "123456"
         Example.good_transport)
  = Example.new_client.
Proof.
  destruct (submit_two_factor_code_rejected Example.new_client "123456"
              Example.good_transport
              "Nenhum desafio de verificacao pendente."
              (snd (submit_two_factor_code Example.new_client "123456"
                      Example.good_transport)))
    as [(_ & _ & H)|(H & _)].
  - vm_compute. reflexivity.
  - exact H.
  - vm_compute in H. discriminate.
Defined.

(** The real account asked for on a practice session: success is
    reported even over a transport that would refuse the switch. *)
Lemma connect_with_credentials_no_switch_witness :
  fst (connect_with_credentials Example.connected_client
         (Some "user@example.org") (Some "secret") (Some REAL)
         (Example.transport (Py.Ok (true, Example.no_reason))
            (Py.Raise (Py.TransportError "down")) (Py.Ok None)))
  = Py.Ok (true, "Conectado ao IQ Option com sucesso! Conta: REAL").
Proof.
  rewrite (proj2 (connect_with_credentials_no_switch
                    Example.connected_client
                    (Some "user@example.org") (Some "secret") (Some REAL)
                    (Example.transport (Py.Ok (true, Example.no_reason))
                       (Py.Raise (Py.TransportError "down")) (Py.Ok None))));
    [reflexivity|reflexivity|reflexivity|reflexivity|].
  right. split; reflexivity.
Defined.

End ClientLifecycle.

(** ** The registry of sessions: disconnection, upkeep, second factor *)

Module RegistryUpkeep.
Import IQOptionSessionManager.

(** What [disconnect_user] does to the dictionaries and to the store. *)
Lemma disconnect_user_maps self user :
  let after := snd (disconnect_user self user) in
  sessions after !! user = None
  /\ (forall c,
        sessions self !! user = Some c ->
        session_timeouts after !! user = None
        /\ account_types after !! user = None
        /\ store after !! c
           = Some (IQOptionClient.disconnect (client_at self c))
        /\ forall c', c' <> c -> store after !! c' = store self !! c')
  /\ (forall other,
        other <> user ->
        sessions after !! other = sessions self !! other
        /\ session_timeouts after !! other = session_timeouts self !! other
        /\ account_types after !! other = account_types self !! other).
Proof.
  unfold disconnect_user.
  destruct (sessions self !! user) as [c|] eqn:Hreg; simpl.
  - rewrite !lookup_delete_eq. split; [done|]. split.
    { intros c0 [= <-]. rewrite lookup_insert_eq.
      split; [done|]. split; [done|]. split; [done|].
      intros c' Hne. by rewrite lookup_insert_ne. }
    intros other Hne. by rewrite !lookup_delete_ne.
  - split; [done|]. split; [intros c; discriminate|done].
Qed.

(** X22: [disconnect_user] answers whether the user was registered; it
    removes the user from the three dictionaries, leaves the client object
    disconnected, does not touch the entries of any other user, and a
    second call finds nothing to do. *)
Theorem disconnect_user_result self user :
  let found := fst (disconnect_user self user) in
  let after := snd (disconnect_user self user) in
  (found = true <-> is_Some (sessions self !! user))
  /\ sessions after !! user = None
  /\ is_connected after user = false
  /\ (forall c,
        sessions self !! user = Some c ->
        session_timeouts after !! user = None
        /\ account_types after !! user = None
        /\ IQOptionClient.connected (client_at after c) = false
        /\ IQOptionClient.api (client_at after c) = false
        /\ forall c', c' <> c -> store after !! c' = store self !! c')
  /\ (forall other,
        other <> user ->
        sessions after !! other = sessions self !! other
        /\ session_timeouts after !! other = session_timeouts self !! other
        /\ account_types after !! other = account_types self !! other)
  /\ disconnect_user after user = (false, after).
Proof.
  intros found after.
  destruct (disconnect_user_maps self user) as (Hu & Hreg & Hother).
  fold after in Hu, Hreg, Hother.
  split.
  { subst found. unfold disconnect_user.
    destruct (sessions self !! user); simpl;
      [split; [by eexists|done]|split; [done|by intros [? ?]]]. }
  split; [exact Hu|].
  split; [unfold is_connected; by rewrite Hu|].
  split.
  { intros c Hc. destruct (Hreg c Hc) as (Ht & Ha & Hs & Hrest).
    split; [done|]. split; [done|].
    unfold client_at. rewrite Hs. done. }
  split; [exact Hother|].
  unfold disconnect_user at 1. by rewrite Hu.
Qed.

Lemma disconnect_user_alike self user :
  registered_alike self ->
  registered_alike (snd (disconnect_user self user)).
Proof.
  intros Halike. unfold disconnect_user.
  destruct (sessions self !! user) as [c|] eqn:Hreg; [|exact Halike].
  intros u. simpl.
  destruct (decide (u = user)) as [->|Hne].
  - rewrite !lookup_delete_eq. split; split; by intros [? ?].
  - rewrite !lookup_delete_ne by done. apply Halike.
Qed.

(** What a run of disconnections leaves in the dictionaries, whatever the
    order of the users. *)
Lemma disconnect_all_maps users : forall self,
  registered_alike self ->
  let after := disconnect_all self users in
  registered_alike after
  /\ forall user,
       (user ∈ users ->
        sessions after !! user = None
        /\ session_timeouts after !! user = None
        /\ account_types after !! user = None)
       /\ (user ∉ users ->
           sessions after !! user = sessions self !! user
           /\ session_timeouts after !! user = session_timeouts self !! user
           /\ account_types after !! user = account_types self !! user).
Proof.
  induction users as [|u users IH]; intros self Halike; simpl.
  - split; [done|]. intros user. split; [|done].
    intros H. by apply elem_of_nil in H.
  - pose proof (disconnect_user_alike self u Halike) as Halike1.
    pose proof (disconnect_user_maps self u) as (Hu & Hreg & Hother).
    simpl in Hu, Hreg, Hother.
    set (self1 := snd (disconnect_user self u)) in *.
    assert (Hu3 : sessions self1 !! u = None
                  /\ session_timeouts self1 !! u = None
                  /\ account_types self1 !! u = None).
    { split; [done|].
      destruct (Halike1 u) as [[Ht _] [Ha _]].
      split.
      - destruct (session_timeouts self1 !! u) eqn:E; [|done].
        destruct (Halike1 u) as [[_ Ht'] _].
        destruct Ht' as [? Hx]; [by eexists|]. congruence.
      - destruct (account_types self1 !! u) eqn:E; [|done].
        destruct (Halike1 u) as [_ [_ Ha']].
        destruct Ha' as [? Hx]; [by eexists|]. congruence. }
    destruct (IH self1 Halike1) as [Hal Hmaps].
    split; [exact Hal|].
    intros user. destruct (Hmaps user) as [Hin Hout].
    split.
    + intros Hmem. destruct (decide (user ∈ users)) as [Hi|Hn].
      * by apply Hin.
      * apply elem_of_cons in Hmem as [->|?]; [|done].
        destruct (Hout Hn) as (-> & -> & ->). exact Hu3.
    + intros Hmem. apply not_elem_of_cons in Hmem as [Hne Hn].
      destruct (Hout Hn) as (-> & -> & ->). by apply Hother.
Qed.

(** A client object that is disconnected stays so through a run of
    disconnections. *)
Lemma disconnect_all_disconnected users : forall self c,
  IQOptionClient.connected (client_at self c) = false ->
  IQOptionClient.connected (client_at (disconnect_all self users) c)
  = false.
Proof.
  induction users as [|u users IH]; intros self c Hc; simpl; [done|].
  apply IH. unfold disconnect_user.
  destruct (sessions self !! u) as [c'|]; [|done].
  unfold client_at. simpl.
  destruct (decide (c = c')) as [->|Hne].
  - by rewrite lookup_insert_eq.
  - rewrite lookup_insert_ne by done. exact Hc.
Qed.

Lemma disconnect_all_reaped users : forall self user c,
  registered_alike self ->
  user ∈ users ->
  sessions self !! user = Some c ->
  IQOptionClient.connected (client_at (disconnect_all self users) c)
  = false.
Proof.
  induction users as [|u users IH]; intros self user c Halike Hin Hreg.
  - by apply elem_of_nil in Hin.
  - simpl.
    pose proof (disconnect_user_maps self u) as (_ & Hdone & Hother).
    simpl in Hdone, Hother.
    destruct (decide (u = user)) as [->|Hne].
    + apply disconnect_all_disconnected.
      destruct (Hdone c Hreg) as (_ & _ & Hstore & _).
      unfold client_at at 1. by rewrite Hstore.
    + apply elem_of_cons in Hin as [?|Hin]; [congruence|].
      apply (IH _ user); [by apply disconnect_user_alike|done|].
      destruct (Hother user) as (-> & _); [congruence|done].
Qed.

Lemma elem_of_inactive_users self now user :
  user ∈ inactive_users self now
  <-> exists last, session_timeouts self !! user = Some last
                   /\ inactive now last.
Proof.
  unfold inactive_users. rewrite list_elem_of_fmap. split.
  - intros ([u last] & -> & Hin).
    apply list_elem_of_filter in Hin as [Hold Hin].
    apply elem_of_map_to_list in Hin. by exists last.
  - intros (last & Hl & Hold). exists (user, last). split; [done|].
    apply list_elem_of_filter. split; [done|].
    by apply elem_of_map_to_list.
Qed.

(** X24: one round of the cleanup task, on a registry whose dictionaries
    know the same users: every session idle for more than 30 minutes is
    removed from the three dictionaries and its client disconnected, every
    other session is left as it is, and what remains was active within the
    last 30 minutes. *)
Theorem cleanup_round_reaps self now :
  registered_alike self ->
  let after := cleanup_round self now in
  registered_alike after
  /\ (forall user last,
        session_timeouts self !! user = Some last ->
        (inactive now last ->
         sessions after !! user = None
         /\ session_timeouts after !! user = None
         /\ account_types after !! user = None
         /\ is_connected after user = false
         /\ forall c, sessions self !! user = Some c ->
                      IQOptionClient.connected (client_at after c) = false)
        /\ (~ inactive now last ->
            sessions after !! user = sessions self !! user
            /\ session_timeouts after !! user = Some last
            /\ account_types after !! user = account_types self !! user))
  /\ (forall user last,
        session_timeouts after !! user = Some last ->
        now - Py.minutes 30 <= last)
  /\ (forall user c,
        sessions after !! user = Some c ->
        sessions self !! user = Some c).
Proof.
  intros Halike after. subst after. unfold cleanup_round.
  destruct (disconnect_all_maps (inactive_users self now) self Halike)
    as [Hal Hmaps].
  split; [exact Hal|].
  assert (Hkeep : forall user,
            user ∉ inactive_users self now ->
            sessions (disconnect_all self (inactive_users self now)) !! user
            = sessions self !! user
            /\ session_timeouts
                 (disconnect_all self (inactive_users self now)) !! user
               = session_timeouts self !! user
            /\ account_types
                 (disconnect_all self (inactive_users self now)) !! user
               = account_types self !! user)
    by (intros user; apply Hmaps).
  split; [|split].
  - intros user last Hlast. split.
    + intros Hold.
      assert (Hin : user ∈ inactive_users self now)
        by (apply elem_of_inactive_users; by exists last).
      destruct (proj1 (Hmaps user) Hin) as (Hs & Ht & Ha).
      split; [done|]. split; [done|]. split; [done|].
      split; [unfold is_connected; by rewrite Hs|].
      intros c Hreg. by apply (disconnect_all_reaped _ _ user).
    + intros Hfresh.
      assert (Hout : user ∉ inactive_users self now).
      { intros Hin. apply elem_of_inactive_users in Hin as (last' & Hl & Ho).
        rewrite Hlast in Hl. injection Hl as <-. done. }
      destruct (Hkeep user Hout) as (-> & -> & ->). done.
  - intros user last Hlast.
    destruct (decide (user ∈ inactive_users self now)) as [Hin|Hout].
    + destruct (proj1 (Hmaps user) Hin) as (_ & Ht & _).
      pose proof (eq_trans (eq_sym Hlast) Ht). discriminate.
    + destruct (Hkeep user Hout) as (_ & Ht & _).
      pose proof (eq_trans (eq_sym Ht) Hlast) as Hlast'.
      destruct (decide (inactive now last)) as [Hold|Hfresh].
      * exfalso. apply Hout, elem_of_inactive_users. by exists last.
      * unfold inactive, timeout_minutes in Hfresh. lia.
  - intros user c Hreg.
    destruct (decide (user ∈ inactive_users self now)) as [Hin|Hout].
    + destruct (proj1 (Hmaps user) Hin) as (Hs & _).
      rewrite Hs in Hreg. discriminate.
    + destruct (Hkeep user Hout) as (Hs & _). by rewrite Hs in Hreg.
Qed.

(** Where a [connect_user] call that runs alone stands: it probes or
    switches a client only while its user is registered. *)
Lemma resume_alike args at_pc tr now self :
  registered_alike self ->
  match at_pc with
  | AwaitCheck _ | AwaitSwitch _ => is_Some (sessions self !! username args)
  | _ => True
  end ->
  let '(at_pc', after) := resume args at_pc tr now self in
  registered_alike after
  /\ match at_pc' with
     | AwaitCheck _ | AwaitSwitch _ =>
         is_Some (sessions after !! username args)
     | _ => True
     end.
Proof.
  intros Halike Hst.
  assert (Htouch : forall (A : Type) (m : gmap string A) (x : A) u,
            is_Some (sessions self !! username args) ->
            (is_Some (sessions self !! u) <-> is_Some (m !! u)) ->
            (is_Some (sessions self !! u)
             <-> is_Some (<[username args := x]> m !! u))).
  { intros A m x u Hreg Hu.
    destruct (decide (u = username args)) as [->|Hne].
    - rewrite lookup_insert_eq. split; [by eexists|done].
    - by rewrite lookup_insert_ne. }
  destruct at_pc as [|c|c| |c|r]; simpl.
  - destruct (sessions self !! username args) as [c|] eqn:Hreg.
    + destruct (IQOptionClient.awaiting_two_factor _); simpl;
        (split; [exact Halike|]); [done|by rewrite Hreg].
    + unfold create_client, new_client. simpl. split; [exact Halike|done].
  - destruct (IQOptionClient.check_connection (client_at self c) tr)
      as [[] client]; simpl; [|split; [exact Halike|done]].
    assert (Hal : registered_alike
                    (mk (<[c := client]> (store self)) (made_for self)
                        (sessions self)
                        (<[username args := now]> (session_timeouts self))
                        (account_types self))).
    { intros u. destruct (Halike u) as [Ht Ha]. simpl.
      split; [by apply Htouch|exact Ha]. }
    destruct (account_type args); simpl; (split; [exact Hal|done]).
  - destruct (IQOptionClient.connect (client_at self c) None None
                (account_type args) tr) as [[flag|e] client]; simpl;
      [|split; [exact Halike|done]].
    split; [|done].
    intros u. destruct (Halike u) as [Ht Ha]. simpl.
    split; [exact Ht|by apply Htouch].
  - pose proof (disconnect_user_alike self (username args) Halike) as Hd.
    destruct (disconnect_user self (username args)) as [found self1].
    unfold create_client, new_client. simpl. split; [exact Hd|done].
  - destruct (IQOptionClient.connect (client_at self c) None None
                (account_type args) tr) as [[flag|e] client]; simpl;
      [|split; [exact Halike|done]].
    assert (Hal : registered_alike
                    (register (with_client self c client) (username args)
                       c now (IQOptionClient.account_type client))).
    { intros u. simpl. destruct (Halike u) as [Ht Ha].
      destruct (decide (u = username args)) as [->|Hne].
      - rewrite !lookup_insert_eq. split; split; by eexists.
      - by rewrite !lookup_insert_ne. }
    destruct (IQOptionClient.awaiting_two_factor client);
      [split; [exact Hal|done]|].
    destruct flag; (split; [first [exact Hal|exact Halike]|done]).
  - split; [exact Halike|done].
Qed.

Lemma run_alone_alike args answers : forall at_pc self at_pc' after,
  registered_alike self ->
  match at_pc with
  | AwaitCheck _ | AwaitSwitch _ => is_Some (sessions self !! username args)
  | _ => True
  end ->
  run_alone args at_pc answers self = (at_pc', after) ->
  registered_alike after.
Proof.
  induction answers as [|[tr now] answers IH];
    intros at_pc self at_pc' after Halike Hst.
  - destruct at_pc; simpl; by intros [= _ <-].
  - pose proof (resume_alike args at_pc tr now self Halike Hst) as Hr.
    destruct (resume args at_pc tr now self) as [pc1 self1] eqn:E.
    destruct Hr as [H1 H2].
    destruct at_pc as [|c|c| |c|r]; cbn [run_alone]; rewrite ?E;
      try (by apply IH).
    by intros [= _ <-].
Qed.

Lemma complete_two_factor_alike self user code tr now :
  registered_alike self ->
  registered_alike (snd (complete_two_factor self user code tr now)).
Proof.
  intros Halike. unfold complete_two_factor.
  destruct (sessions self !! user) as [c|] eqn:Hreg; [|exact Halike].
  destruct (IQOptionClient.submit_two_factor_code (client_at self c) code tr)
    as [[[[] message]|e] client]; simpl.
  - intros u. simpl. destruct (Halike u) as [Ht Ha].
    destruct (decide (u = user)) as [->|Hne].
    + rewrite !lookup_insert_eq, Hreg. split; split; by eexists.
    + by rewrite !lookup_insert_ne.
  - destruct (IQOptionClient.awaiting_two_factor client); [exact Halike|].
    by apply (disconnect_user_alike (with_client self c client)).
  - exact Halike.
Qed.

(** X23: the three dictionaries of the registry always know the same
    users: this holds of the empty registry and is kept by
    [disconnect_user], [get_client], [complete_two_factor], any run of
    disconnections and every [connect_user] call that runs alone.  The
    stored account type is therefore never consulted for a user without a
    session. *)
Theorem registered_alike_preserved self :
  registered_alike self ->
  (forall user, registered_alike (snd (disconnect_user self user)))
  /\ (forall user now, registered_alike (snd (get_client self user now)))
  /\ (forall user code tr now,
        registered_alike (snd (complete_two_factor self user code tr now)))
  /\ (forall users, registered_alike (disconnect_all self users))
  /\ (forall args answers,
        registered_alike (snd (run_alone args Entry answers self)))
  /\ (forall user,
        sessions self !! user = None ->
        get_user_account_type self user = None).
Proof.
  intros Halike.
  split; [intros; by apply disconnect_user_alike|].
  split.
  { intros user now. unfold get_client.
    destruct (sessions self !! user) as [c|] eqn:Hreg; [|exact Halike].
    intros u. simpl. destruct (Halike u) as [Ht Ha]. split; [|exact Ha].
    destruct (decide (u = user)) as [->|Hne].
    - rewrite lookup_insert_eq, Hreg. split; by eexists.
    - by rewrite lookup_insert_ne. }
  split; [intros; by apply complete_two_factor_alike|].
  split; [intros users; by apply disconnect_all_maps|].
  split.
  { intros args answers.
    destruct (run_alone args Entry answers self) as [pc1 after] eqn:E.
    by apply (run_alone_alike args answers Entry self pc1 after). }
  intros user Hnone. unfold get_user_account_type. rewrite Hnone.
  destruct (account_types self !! user) eqn:E; [|done].
  destruct (Halike user) as [_ [_ Ha]].
  destruct Ha as [? Hx]; [by eexists|].
  pose proof (eq_trans (eq_sym Hnone) Hx). discriminate.
Qed.

(** X25: a code sent for a session that has no challenge pending - a
    connected one, for instance - is answered that no challenge is
    pending, and the session is torn down: the client is disconnected and
    the user removed from the registry, so that the next code finds no
    session. *)
Theorem complete_two_factor_without_challenge self user c code tr now :
  sessions self !! user = Some c ->
  IQOptionClient.awaiting_two_factor (client_at self c) = false ->
  let result := fst (complete_two_factor self user code tr now) in
  let after := snd (complete_two_factor self user code tr now) in
  result = (false, "Nenhum desafio de verificacao pendente.")
  /\ sessions after !! user = None
  /\ session_timeouts after !! user = None
  /\ account_types after !! user = None
  /\ IQOptionClient.connected (client_at after c) = false
  /\ is_connected after user = false
  /\ forall code' tr' now',
       complete_two_factor after user code' tr' now'
       = ((false, "Sessao IQ Option nao encontrada."), after).
Proof.
  intros Hreg Haw result after.
  assert (E : complete_two_factor self user code tr now
              = ((false, "Nenhum desafio de verificacao pendente."),
                 mk (<[c := IQOptionClient.disconnect (client_at self c)]>
                       (<[c := client_at self c]> (store self)))
                    (made_for self)
                    (delete user (sessions self))
                    (delete user (session_timeouts self))
                    (delete user (account_types self)))).
  { unfold complete_two_factor. rewrite Hreg.
    unfold IQOptionClient.submit_two_factor_code. rewrite Haw. simpl.
    rewrite Haw. unfold disconnect_user. simpl. rewrite Hreg.
    assert (Hc : client_at (with_client self c (client_at self c)) c
                 = client_at self c)
      by (unfold client_at at 1; simpl; by rewrite lookup_insert_eq).
    by rewrite Hc. }
  subst result after. rewrite E. simpl.
  rewrite !lookup_delete_eq.
  split; [done|]. split; [done|]. split; [done|]. split; [done|].
  split; [unfold client_at; simpl; by rewrite lookup_insert_eq|].
  split; [unfold is_connected; simpl; by rewrite lookup_delete_eq|].
  intros code' tr' now'. unfold complete_two_factor. simpl.
  by rewrite lookup_delete_eq.
Qed.

Lemma init_alike : registered_alike init.
Proof.
  intros user. simpl. rewrite !lookup_empty. split; split; by intros [? ?].
Qed.

Lemma registered_alike_preserved_witness :
  registered_alike Example.registry.
Proof.
  destruct (registered_alike_preserved init) as (_ & _ & _ & _ & Hrun & _).
  - intros user. simpl. rewrite !lookup_empty.
    split; split; by intros [? ?].
  - apply (Hrun Example.alice
             [(Example.good_transport, 0); (Example.good_transport, 0)]).
Defined.

(** Alice, last active at time 0, is reaped by the round that runs 31
    minutes later. *)
Lemma cleanup_round_reaps_witness :
  sessions (cleanup_round Example.registry (Py.minutes 31)) !! "alice" = None
  /\ is_connected (cleanup_round Example.registry (Py.minutes 31)) "alice"
     = false.
Proof.
  destruct (cleanup_round_reaps Example.registry (Py.minutes 31))
    as (_ & Hreap & _).
  - apply (run_alone_alike Example.alice
             [(Example.good_transport, 0); (Example.good_transport, 0)]
             Entry init (Returned (true, "Conectado ao IQ Option (PRACTICE)"))
             Example.registry);
      [apply init_alike|done|vm_compute; reflexivity].
  - destruct (Hreap "alice" 0) as [Hold _]; [vm_compute; reflexivity|].
    destruct Hold as (Hs & _ & _ & Hc & _); [vm_compute; reflexivity|].
    split; [exact Hs|exact Hc].
Defined.

(** A code sent for alice's connected session disconnects her. *)
Lemma complete_two_factor_without_challenge_witness :
  is_connected Example.registry "alice" = true
  /\ is_connected
       (snd (complete_two_factor Example.registry "alice" "123456"
               Example.good_transport 1)) "alice"
     = false.
Proof.
  split; [vm_compute; reflexivity|].
  destruct (complete_two_factor_without_challenge Example.registry "alice"
              0%nat "123456" Example.good_transport 1)
    as (_ & _ & _ & _ & _ & Hc & _).
  - vm_compute. reflexivity.
  - vm_compute. reflexivity.
  - exact Hc.
Defined.

(** X30: [stop], on a registry whose dictionaries know the same users,
    leaves no user in any of the three dictionaries and every client that
    was registered disconnected. *)
Theorem stop_clears self :
  registered_alike self ->
  let after := stop self in
  (forall user,
     sessions after !! user = None
     /\ session_timeouts after !! user = None
     /\ account_types after !! user = None
     /\ is_connected after user = false)
  /\ (forall user c,
        sessions self !! user = Some c ->
        IQOptionClient.connected (client_at after c) = false).
Proof.
  intros Halike after. subst after. unfold stop.
  set (users := (map_to_list (sessions self)).*1).
  assert (Hin : forall user c, sessions self !! user = Some c ->
                               user ∈ users).
  { intros user c Hc. subst users. apply list_elem_of_fmap.
    exists (user, c). split; [done|]. by apply elem_of_map_to_list. }
  destruct (disconnect_all_maps users self Halike) as [_ Hmaps].
  split.
  - intros user.
    assert (H3 : sessions (disconnect_all self users) !! user = None
                 /\ session_timeouts (disconnect_all self users) !! user
                    = None
                 /\ account_types (disconnect_all self users) !! user
                    = None).
    { destruct (Hmaps user) as [Hmem Hout].
      destruct (decide (user ∈ users)) as [Hi|Hn]; [by apply Hmem|].
      destruct (Hout Hn) as (Hs & Ht & Ha).
      destruct (sessions self !! user) as [c|] eqn:Hc;
        [exfalso; by apply Hn, (Hin user c)|].
      destruct (Halike user) as [[_ Ht'] [_ Ha']]. rewrite Hc in Ht', Ha'.
      split; [by rewrite Hs|]. split.
      + rewrite Ht. destruct (session_timeouts self !! user) eqn:E; [|done].
        destruct Ht' as [? ?]; [by eexists|done].
      + rewrite Ha. destruct (account_types self !! user) eqn:E; [|done].
        destruct Ha' as [? ?]; [by eexists|done]. }
    destruct H3 as (Hs & Ht & Ha).
    split; [done|]. split; [done|]. split; [done|].
    unfold is_connected. by rewrite Hs.
  - intros user c Hc.
    apply (disconnect_all_reaped users self user c Halike);
      [by apply (Hin user c)|done].
Qed.

Lemma stop_clears_witness :
  sessions (stop Example.registry) !! "alice" = None
  /\ IQOptionClient.connected (client_at (stop Example.registry) 0%nat)
     = false.
Proof.
  destruct (stop_clears Example.registry) as (Hnone & Hclient).
  - apply (run_alone_alike Example.alice
             [(Example.good_transport, 0); (Example.good_transport, 0)]
             Entry init (Returned (true, "Conectado ao IQ Option (PRACTICE)"))
             Example.registry);
      [apply init_alike|done|vm_compute; reflexivity].
  - split; [apply (Hnone "alice")|].
    apply (Hclient "alice"). vm_compute. reflexivity.
Defined.

End RegistryUpkeep.

(** ** The timeframe of a request for candles *)

Module CandleRequest.

(** X26: the timeframe the scanner configures, in minutes, reaches the
    transport unchanged: the scanner hands over seconds, the registry turns
    them into whole minutes and the client back into seconds.  A timeframe
    of zero or less becomes one minute; seconds given directly are rounded
    down to whole minutes, never below one, and the [max(1, ...)] of the
    registry never takes effect. *)
Theorem timeframe_round_trip :
  (forall config,
     let minutes :=
       IQOptionSessionManager.timeframe_minutes
         (IQOptionScanner.timeframe_seconds config) in
     (1 <= ScanConfig.timeframe config ->
      minutes = ScanConfig.timeframe config
      /\ IQOptionClient._convert_timeframe_to_seconds minutes
         = IQOptionScanner.timeframe_seconds config)
     /\ (ScanConfig.timeframe config <= 0 -> minutes = 1))
  /\ (forall seconds,
        let minutes := IQOptionSessionManager.timeframe_minutes seconds in
        minutes = Z.max seconds 60 / 60
        /\ 1 <= minutes
        /\ (seconds < 120 -> minutes = 1)
        /\ (60 <= seconds ->
            IQOptionClient._convert_timeframe_to_seconds minutes <= seconds
            < IQOptionClient._convert_timeframe_to_seconds minutes + 60)).
Proof.
  unfold IQOptionSessionManager.timeframe_minutes,
    IQOptionScanner.timeframe_seconds,
    IQOptionClient._convert_timeframe_to_seconds.
  split.
  - intros config. cbv zeta. split.
    + intros Hpos.
      rewrite (Z.max_l (ScanConfig.timeframe config * 60) 60) by lia.
      rewrite Z.div_mul by lia. lia.
    + intros Hneg.
      rewrite (Z.max_r (ScanConfig.timeframe config * 60) 60) by lia.
      by change (60 / 60) with 1.
  - intros seconds. cbv zeta.
    assert (Hdiv : 1 <= Z.max seconds 60 / 60)
      by (apply Z.div_le_lower_bound; lia).
    split; [lia|]. split; [lia|]. split.
    + intros Hsmall. rewrite Z.max_r by lia.
      assert (Z.max seconds 60 / 60 < 2)
        by (apply Z.div_lt_upper_bound; lia).
      lia.
    + intros Hbig. rewrite Z.max_r by lia.
      rewrite (Z.max_l seconds 60) by lia.
      pose proof (Z.div_mod seconds 60 ltac:(lia)).
      pose proof (Z.mod_pos_bound seconds 60 ltac:(lia)). lia.
Qed.

End CandleRequest.

(** ** The detectors: pivot points and the order of the patterns *)

Module DetectorFacts.
Import SupportResistanceDetector.

Lemma pivots_at_resistance df i price :
  (2 <= i)%nat -> (i + 2 < length df)%nat ->
  (price, resistance) ∈ pivots_at df i
  <-> pivot_high df i /\ (Candle.high <$> df !! i) = Some price.
Proof.
  intros Hlo Hhi. unfold pivots_at, pivot_high. unfold DataFrame in *.
  destruct (lookup_lt_is_Some_2 df (i - 2)%nat ltac:(lia)) as [a Ha].
  destruct (lookup_lt_is_Some_2 df (i - 1)%nat ltac:(lia)) as [b Hb].
  destruct (lookup_lt_is_Some_2 df i ltac:(lia)) as [c Hc].
  destruct (lookup_lt_is_Some_2 df (i + 1)%nat ltac:(lia)) as [d Hd].
  destruct (lookup_lt_is_Some_2 df (i + 2)%nat ltac:(lia)) as [e He].
  rewrite Ha, Hb, Hc, Hd, He. simpl.
  rewrite elem_of_app. split.
  - intros [Hin|Hin].
    + destruct (_ && _) eqn:Hall; [|by apply elem_of_nil in Hin].
      apply list_elem_of_singleton in Hin. injection Hin as ->.
      repeat (apply andb_prop in Hall as [Hall ?]).
      repeat match goal with
             | H : bool_decide _ = true |- _ => apply bool_decide_eq_true in H
             end.
      split; [|done]. exists c. split; [done|]. split; [done|].
      intros k other [-> | [-> | [-> | ->]]] Hk; congruence.
    + destruct (_ && _ && _ && bool_decide (Candle.low c < Candle.low e)%Qc);
        [|by apply elem_of_nil in Hin].
      apply list_elem_of_singleton in Hin. discriminate.
  - intros [(row & Hrow & _ & Hall) [= <-]].
    assert (row = c) as -> by congruence.
    left.
    rewrite !bool_decide_eq_true_2; [apply list_elem_of_here|..].
    + apply (Hall (i + 2)%nat); [lia|done].
    + apply (Hall (i + 1)%nat); [lia|done].
    + apply (Hall (i - 2)%nat); [lia|done].
    + apply (Hall (i - 1)%nat); [lia|done].
Qed.

Lemma pivots_at_support df i price :
  (2 <= i)%nat -> (i + 2 < length df)%nat ->
  (price, support) ∈ pivots_at df i
  <-> pivot_low df i /\ (Candle.low <$> df !! i) = Some price.
Proof.
  intros Hlo Hhi. unfold pivots_at, pivot_low. unfold DataFrame in *.
  destruct (lookup_lt_is_Some_2 df (i - 2)%nat ltac:(lia)) as [a Ha].
  destruct (lookup_lt_is_Some_2 df (i - 1)%nat ltac:(lia)) as [b Hb].
  destruct (lookup_lt_is_Some_2 df i ltac:(lia)) as [c Hc].
  destruct (lookup_lt_is_Some_2 df (i + 1)%nat ltac:(lia)) as [d Hd].
  destruct (lookup_lt_is_Some_2 df (i + 2)%nat ltac:(lia)) as [e He].
  rewrite Ha, Hb, Hc, Hd, He. simpl.
  rewrite elem_of_app. split.
  - intros [Hin|Hin].
    + destruct (_ && _ && _ && bool_decide (Candle.high e < Candle.high c)%Qc);
        [|by apply elem_of_nil in Hin].
      apply list_elem_of_singleton in Hin. discriminate.
    + destruct (_ && _) eqn:Hall; [|by apply elem_of_nil in Hin].
      apply list_elem_of_singleton in Hin. injection Hin as ->.
      repeat (apply andb_prop in Hall as [Hall ?]).
      repeat match goal with
             | H : bool_decide _ = true |- _ => apply bool_decide_eq_true in H
             end.
      split; [|done]. exists c. split; [done|]. split; [done|].
      intros k other [-> | [-> | [-> | ->]]] Hk; congruence.
  - intros [(row & Hrow & _ & Hall) [= <-]].
    assert (row = c) as -> by congruence.
    right.
    rewrite !bool_decide_eq_true_2; [apply list_elem_of_here|..].
    + apply (Hall (i + 2)%nat); [lia|done].
    + apply (Hall (i + 1)%nat); [lia|done].
    + apply (Hall (i - 2)%nat); [lia|done].
    + apply (Hall (i - 1)%nat); [lia|done].
Qed.

Lemma elem_of_find_pivot_points df p :
  p ∈ _find_pivot_points df
  <-> exists i, (2 <= i)%nat /\ (i + 2 < length df)%nat /\ p ∈ pivots_at df i.
Proof.
  unfold _find_pivot_points. rewrite list_elem_of_In, in_flat_map.
  split.
  - intros (i & Hi & Hp). apply in_seq in Hi. exists i.
    split; [lia|]. split; [lia|]. by apply list_elem_of_In.
  - intros (i & Hlo & Hhi & Hp). exists i.
    split; [apply in_seq; lia|by apply list_elem_of_In].
Qed.

Lemma pivots_at_length df i : (length (pivots_at df i) <= 2)%nat.
Proof.
  unfold pivots_at. repeat case_match; simpl; lia.
Qed.

Lemma flat_map_length_le {A B} (f : A -> list B) (n : nat) (l : list A) :
  (forall x, (length (f x) <= n)%nat) ->
  (length (flat_map f l) <= n * length l)%nat.
Proof.
  intros Hf. induction l as [|x l IH]; simpl; [lia|].
  rewrite length_app. specialize (Hf x). lia.
Qed.

(** X27: [_find_pivot_points] finds nothing in fewer than five rows; it
    returns exactly the highs of the rows, from the third to the third
    last, that lie above the highs of the two rows on either side, as
    resistance, and the lows that lie below, as support, so at most two
    pivots per such row; and two pivot highs, like two pivot lows, are at
    least three rows apart. *)
Theorem _find_pivot_points_spec df :
  ((length df < 5)%nat -> _find_pivot_points df = [])
  /\ (forall price,
        (price, resistance) ∈ _find_pivot_points df
        <-> exists i, (i + 2 < length df)%nat /\ pivot_high df i
                      /\ (Candle.high <$> df !! i) = Some price)
  /\ (forall price,
        (price, support) ∈ _find_pivot_points df
        <-> exists i, (i + 2 < length df)%nat /\ pivot_low df i
                      /\ (Candle.low <$> df !! i) = Some price)
  /\ (length (_find_pivot_points df) <= 2 * (length df - 4))%nat
  /\ (forall i j, pivot_high df i -> pivot_high df j ->
                  (i < j)%nat -> (i + 3 <= j)%nat)
  /\ (forall i j, pivot_low df i -> pivot_low df j ->
                  (i < j)%nat -> (i + 3 <= j)%nat).
Proof.
  split.
  { intros Hshort. unfold _find_pivot_points.
    by replace (length df - 4)%nat with 0%nat by lia. }
  split.
  { intros price. rewrite elem_of_find_pivot_points. split.
    - intros (i & Hlo & Hhi & Hp).
      apply pivots_at_resistance in Hp as [? ?]; [|done|done]. by exists i.
    - intros (i & Hhi & Hpiv & Hp). exists i.
      assert (Hlo : (2 <= i)%nat) by (by destruct Hpiv as (? & _ & ? & _)).
      split; [done|]. split; [done|]. by apply pivots_at_resistance. }
  split.
  { intros price. rewrite elem_of_find_pivot_points. split.
    - intros (i & Hlo & Hhi & Hp).
      apply pivots_at_support in Hp as [? ?]; [|done|done]. by exists i.
    - intros (i & Hhi & Hpiv & Hp). exists i.
      assert (Hlo : (2 <= i)%nat) by (by destruct Hpiv as (? & _ & ? & _)).
      split; [done|]. split; [done|]. by apply pivots_at_support. }
  split.
  { unfold _find_pivot_points.
    etrans; [apply (flat_map_length_le _ 2), pivots_at_length|].
    by rewrite length_seq. }
  split.
  - intros i j (ri & Hi & Hlo & Halli) (rj & Hj & _ & Hallj) Hlt.
    destruct (decide (i + 3 <= j)%nat) as [|Hnear]; [done|]. exfalso.
    assert (H1 : (Candle.high rj < Candle.high ri)%Qc)
      by (apply (Halli j); [lia|done]).
    assert (H2 : (Candle.high ri < Candle.high rj)%Qc)
      by (apply (Hallj i); [lia|done]).
    apply (Qclt_not_eq _ _ (Qclt_trans _ _ _ H1 H2)). done.
  - intros i j (ri & Hi & Hlo & Halli) (rj & Hj & _ & Hallj) Hlt.
    destruct (decide (i + 3 <= j)%nat) as [|Hnear]; [done|]. exfalso.
    assert (H1 : (Candle.low ri < Candle.low rj)%Qc)
      by (apply (Halli j); [lia|done]).
    assert (H2 : (Candle.low rj < Candle.low ri)%Qc)
      by (apply (Hallj i); [lia|done]).
    apply (Qclt_not_eq _ _ (Qclt_trans _ _ _ H1 H2)). done.
Qed.

Lemma elem_of_option_list {A} (mx : option A) (x : A) :
  x ∈ option_list mx -> mx = Some x.
Proof.
  destruct mx as [y|]; simpl; intros H.
  - apply list_elem_of_singleton in H. by subst.
  - by apply elem_of_nil in H.
Qed.

Lemma patterns_at_length d df i :
  (length (PriceActionDetector.patterns_at d df i) <= 4)%nat.
Proof.
  unfold PriceActionDetector.patterns_at.
  case_bool_decide; [simpl; lia|].
  rewrite !length_app.
  destruct (PriceActionDetector._detect_pin_bar d df i),
    (PriceActionDetector._detect_engulfing d df i),
    (PriceActionDetector._detect_inside_bar d df i),
    (PriceActionDetector._detect_doji d df i); simpl; lia.
Qed.

(** What [detect_patterns] returns: the finds of the four row detectors
    on the last three rows, in the order of the rows, and then the break
    of structure when the frame has five rows. *)
Lemma detect_patterns_with_shape d df :
  let patterns := PriceActionDetector.detect_patterns_with d df in
  ((length df < 3)%nat -> patterns = [])
  /\ (length patterns <= 13)%nat
  /\ (forall p,
        p ∈ patterns ->
        ((5 <= length df)%nat
         /\ PriceActionDetector._detect_break_of_structure d df = Some p)
        \/ exists i,
             (1 <= i)%nat /\ (length df - 3 <= i < length df)%nat
             /\ (PriceActionDetector._detect_pin_bar d df i = Some p
                 \/ PriceActionDetector._detect_engulfing d df i = Some p
                 \/ PriceActionDetector._detect_inside_bar d df i = Some p
                 \/ PriceActionDetector._detect_doji d df i = Some p))
  /\ (forall bos,
        (5 <= length df)%nat ->
        PriceActionDetector._detect_break_of_structure d df = Some bos ->
        last patterns = Some bos).
Proof.
  intros patterns. subst patterns.
  unfold PriceActionDetector.detect_patterns_with.
  case_bool_decide as Hshort.
  { split; [done|]. split; [simpl; lia|].
    split; [intros p Hp; by apply elem_of_nil in Hp|]. intros; lia. }
  set (rows := flat_map (PriceActionDetector.patterns_at d df)
                 (seq (length df - 3) 3)).
  assert (Hlen : (length rows <= 12)%nat).
  { subst rows.
    etrans; [apply (flat_map_length_le _ 4), patterns_at_length|].
    rewrite length_seq. lia. }
  assert (Hrows : forall p, p ∈ rows ->
            exists i,
              (1 <= i)%nat /\ (length df - 3 <= i < length df)%nat
              /\ (PriceActionDetector._detect_pin_bar d df i = Some p
                  \/ PriceActionDetector._detect_engulfing d df i = Some p
                  \/ PriceActionDetector._detect_inside_bar d df i = Some p
                  \/ PriceActionDetector._detect_doji d df i = Some p)).
  { intros p Hp. subst rows.
    apply list_elem_of_In, in_flat_map in Hp as (i & Hi & Hp).
    apply in_seq in Hi. apply list_elem_of_In in Hp.
    unfold PriceActionDetector.patterns_at in Hp.
    case_bool_decide as Hone; [by apply elem_of_nil in Hp|].
    exists i. split; [lia|]. split; [lia|].
    rewrite !elem_of_app in Hp.
    destruct Hp as [Hp|[Hp|[Hp|Hp]]];
      apply elem_of_option_list in Hp; auto. }
  split; [intros; lia|].
  case_bool_decide as Hfive.
  - split.
    { rewrite length_app.
      destruct (PriceActionDetector._detect_break_of_structure d df);
        simpl; lia. }
    split.
    { intros p Hp. apply elem_of_app in Hp as [Hp|Hp]; [right; auto|].
      left. split; [done|]. by apply elem_of_option_list in Hp. }
    intros bos _ ->. simpl. apply last_snoc.
  - split; [lia|]. split; [intros p Hp; right; auto|]. intros; lia.
Qed.

(** X28: [detect_patterns] looks at the last three rows only and puts the
    break of structure last; the generator builds its signal on the last
    pattern, so whenever the break-of-structure detector finds a pattern
    in the frame the generator analyses, that pattern is the signal's,
    whatever the row detectors found in more recent candles. *)
Theorem generate_signal_break_of_structure self d symbol df now uuid4 sig :
  SignalGenerator.pattern_detector self
  = PriceActionDetector.of_detectors d ->
  SignalGenerator.generate_signal self symbol df now uuid4
  = Py.Ok (Some sig) ->
  exists df',
    SignalGenerator.prepare self df = Py.Ok (Some df')
    /\ (5 <= length df')%nat
    /\ (forall bos,
          PriceActionDetector._detect_break_of_structure d df' = Some bos ->
          TradingSignal.pattern sig = bos)
    /\ (PriceActionDetector.detect_patterns_with d df' <> [] ->
        TradingSignal.pattern sig
        ∈ PriceActionDetector.detect_patterns_with d df').
Proof.
  intros Hdet Hgen.
  destruct (GeneratorBehaviour.generate_signal_parts _ _ _ _ _ _ Hgen)
    as (df' & patterns & pattern & last_row & is_near & sr_level & direction
        & Hprep & Hsel & Hlast & _ & _ & _ & _ & Hsig).
  assert (Hpat : TradingSignal.pattern sig = pattern) by (by rewrite Hsig).
  exists df'. split; [done|].
  destruct (GeneratorBehaviour.prepare_frame _ _ _ Hprep)
    as (_ & _ & Hcalm & Hagg & _).
  assert (Hfive : (5 <= length df')%nat).
  { destruct (SignalGenerator.is_aggressive self) eqn:E.
    - by apply Hagg.
    - destruct Hcalm as [-> ?]; [done|lia]. }
  split; [done|].
  assert (Hfound : PriceActionDetector.detect_patterns_with d df' <> [] ->
                   patterns = PriceActionDetector.detect_patterns_with d df').
  { intros Hne. unfold SignalGenerator.select_patterns in Hsel.
    rewrite Hdet in Hsel. simpl in Hsel.
    rewrite (bool_decide_eq_false_2 _ Hne) in Hsel. simpl in Hsel.
    by injection Hsel as <-. }
  destruct (detect_patterns_with_shape d df') as (_ & _ & _ & Hbos).
  split.
  - intros bos Hb. specialize (Hbos bos Hfive Hb).
    rewrite Hfound in Hlast.
    + rewrite Hpat. congruence.
    + intros Hnil. rewrite Hnil in Hbos. discriminate.
  - intros Hne. rewrite Hpat, <- (Hfound Hne).
    by apply last_Some_elem_of.
Qed.

Lemma generate_signal_break_of_structure_witness :
  exists sig,
    SignalGenerator.generate_signal Example.busy_generator "EURUSD"
      Example.long_frame 80500000 "a0" = Py.Ok (Some sig)
    /\ TradingSignal.pattern sig
       = PriceActionPattern.mk bos_bullish "Break of Structure" 19.
Proof.
  destruct (SignalGenerator.generate_signal Example.busy_generator "EURUSD"
              Example.long_frame 80500000 "a0") as [[sig|]|] eqn:E;
    try (vm_compute in E; discriminate).
  exists sig. split; [reflexivity|].
  destruct (generate_signal_break_of_structure Example.busy_generator
              Example.busy_detectors "EURUSD" Example.long_frame 80500000
              "a0" sig eq_refl E) as (df' & Hprep & _ & Hbos & _).
  apply Hbos. vm_compute in Hprep. injection Hprep as <-.
  vm_compute. reflexivity.
Defined.

End DetectorFacts.

(** ** A login with a second factor, from the registry's side *)

Module TwoFactorLogin.
Import IQOptionSessionManager.

(** A new client whose login the transport answers with a challenge. *)
Lemma connect_challenged e p a env tr reason :
  IQOptionClient.truthy e = true -> IQOptionClient.truthy p = true ->
  Transport.available tr = true ->
  (exists u, Transport.create tr = Py.Ok u) ->
  Transport.connect tr = Py.Ok (false, reason) ->
  Transport.is_two_factor_challenge reason = true ->
  exists pending,
    IQOptionClient.connect (IQOptionClient.init e p a env) None None a tr
    = (Py.Ok false, pending)
    /\ IQOptionClient.awaiting_two_factor pending = true
    /\ IQOptionClient.api pending = true
    /\ IQOptionClient.connected pending = false
    /\ IQOptionClient.account_type pending
       = default (Transport.IQOPTION_ACCOUNT_TYPE env) a
    /\ exists c s,
         IQOptionClient.two_factor_message pending = Some (String c s).
Proof.
  intros He Hp Hav [u Hcr] Hco Hch.
  rewrite ClientLifecycle.connect_parts, Hav. cbn [negb]. cbv zeta.
  destruct (ClientLifecycle.take_arguments_state
              (IQOptionClient.init e p a env) None None a)
    as (Hapi & Hcon & Haw & _ & _ & _ & _ & _ & _ & Hem & Hpw & Hacc).
  set (s := IQOptionClient.take_arguments (IQOptionClient.init e p a env)
              None None a) in *.
  clearbody s. simpl in Hapi, Hcon, Hem, Hpw, Hacc.
  rewrite He in Hem. rewrite Hp in Hpw.
  rewrite Hcon. cbn [andb].
  unfold IQOptionClient.login. rewrite Hem, Hpw, He, Hp. cbn [negb orb].
  cbv zeta. rewrite Hcr, Hco, Hch.
  eexists. split; [reflexivity|].
  destruct (ClientLifecycle._handle_two_factor_challenge_state
              (IQOptionClient.set_api s true) reason) as (H1 & H2 & H3 & H4).
  destruct (ClientLifecycle._handle_two_factor_challenge_message
              (IQOptionClient.set_api s true) reason) as [_ Hmsg].
  set (after := IQOptionClient._handle_two_factor_challenge
                  (IQOptionClient.set_api s true) reason) in *.
  assert (Hat : IQOptionClient.account_type after
                = IQOptionClient.account_type s) by done.
  clearbody after. simpl in H1, H2. simpl.
  split; [done|]. split; [done|]. split; [congruence|].
  split; [rewrite Hat, Hacc; by destruct a|].
  rewrite Hmsg. by eexists _, _.
Qed.

(** A pending client whose code the transport accepts, with a balance
    that validates. *)
Lemma submit_accepted s code tr reason balance :
  IQOptionClient.awaiting_two_factor s = true ->
  IQOptionClient.api s = true ->
  Transport.connect_2fa tr code = Py.Ok (true, reason) ->
  (exists u, Transport.change_balance tr = Py.Ok u) ->
  Transport.check_connect tr = None
  \/ Transport.check_connect tr = Some (Py.Ok true) ->
  Transport.get_balance tr = Py.Ok (Some balance) ->
  (0 <= balance)%Qc ->
  exists after,
    IQOptionClient.submit_two_factor_code s code tr
    = (Py.Ok (true,
              "Verificacao concluida! Conta "
              +:+ AccountType_str (IQOptionClient.account_type s)),
       after)
    /\ IQOptionClient.connected after = true
    /\ IQOptionClient.awaiting_two_factor after = false
    /\ IQOptionClient.account_type after = IQOptionClient.account_type s.
Proof.
  intros Haw Hapi Hc [u Hcb] Hcheck Hbal Hpos.
  unfold IQOptionClient.submit_two_factor_code.
  rewrite Haw, Hapi, Hc. cbn [negb orb].
  unfold IQOptionClient._finalize_successful_login.
  rewrite Hapi, Hcb, Hbal. cbn [negb]. cbv zeta.
  rewrite (bool_decide_eq_false_2 (balance < 0)%Qc)
    by (by apply Qcle_not_lt).
  destruct Hcheck as [-> | ->]; eexists; (split; [reflexivity|done]).
Qed.

(** X29: a login that needs a second factor, seen from the registry.  A
    [connect_user] call for a user without a session, answered by a
    challenge, returns [False] with the challenge message and registers
    the session as pending; a further [connect_user] returns the same
    message at once; and [complete_two_factor] with a code the transport
    accepts, on an account whose balance validates, returns [True],
    leaves the user connected and records the time and the account
    type: the one asked for or, when none was asked for, the one the
    environment named when the client was made. *)
Theorem two_factor_login args tr0 now0 tr1 now1 reason self :
  sessions self !! username args = None ->
  IQOptionClient.truthy (email args) = true ->
  IQOptionClient.truthy (password args) = true ->
  Transport.available tr1 = true ->
  (exists u, Transport.create tr1 = Py.Ok u) ->
  Transport.connect tr1 = Py.Ok (false, reason) ->
  Transport.is_two_factor_challenge reason = true ->
  let user := username args in
  let account :=
    default (Transport.IQOPTION_ACCOUNT_TYPE (Transport.getenv tr0))
      (account_type args) in
  let pc := fst (run_alone args Entry [(tr0, now0); (tr1, now1)] self) in
  let pending :=
    snd (run_alone args Entry [(tr0, now0); (tr1, now1)] self) in
  exists c message,
    pc = Returned (false, message)
    /\ sessions pending !! user = Some c
    /\ is_connected pending user = false
    /\ IQOptionClient.awaiting_two_factor (client_at pending c) = true
    /\ IQOptionClient.two_factor_message (client_at pending c)
       = Some message
    /\ (forall tr now,
          fst (resume args Entry tr now pending)
          = Returned (false, message))
    /\ (forall code tr2 now2 reason2 balance,
          Transport.connect_2fa tr2 code = Py.Ok (true, reason2) ->
          (exists u, Transport.change_balance tr2 = Py.Ok u) ->
          Transport.check_connect tr2 = None
          \/ Transport.check_connect tr2 = Some (Py.Ok true) ->
          Transport.get_balance tr2 = Py.Ok (Some balance) ->
          (0 <= balance)%Qc ->
          let result :=
            fst (complete_two_factor pending user code tr2 now2) in
          let after :=
            snd (complete_two_factor pending user code tr2 now2) in
          result
          = (true,
             "Verificacao concluida! Conta " +:+ AccountType_str account)
          /\ is_connected after user = true
          /\ session_timeouts after !! user = Some now2
          /\ account_types after !! user = Some account).
Proof.
  intros Hnone He Hp Hav Hcr Hco Hch user account pc pending.
  destruct (connect_challenged (email args) (password args)
              (account_type args) (Transport.getenv tr0) tr1 reason
              He Hp Hav Hcr Hco Hch)
    as (client & Hconnect & Haw & Hapi & Hcon & Hacc & ch & rest & Hmsg).
  set (c := fresh (dom (store self))).
  set (self1 :=
         mk (<[c := IQOptionClient.init (email args) (password args)
                      (account_type args) (Transport.getenv tr0)]>
               (store self))
            (<[c := username args]> (made_for self))
            (sessions self) (session_timeouts self) (account_types self)).
  assert (Hrun : run_alone args Entry [(tr0, now0); (tr1, now1)] self
                 = (Returned (false, String ch rest),
                    register (with_client self1 c client) (username args) c
                      now1 (IQOptionClient.account_type client))).
  { cbn [run_alone resume]. rewrite Hnone.
    unfold create_client, new_client. fold c. fold self1.
    cbn [run_alone resume].
    assert (Hat : client_at self1 c
                  = IQOptionClient.init (email args) (password args)
                      (account_type args) (Transport.getenv tr0))
      by (unfold client_at, self1; simpl; by rewrite lookup_insert_eq).
    rewrite Hat, Hconnect. cbv zeta. rewrite Haw, Hmsg. done. }
  subst pc pending. rewrite Hrun. cbn [fst snd].
  set (pending := register (with_client self1 c client) (username args) c
                    now1 (IQOptionClient.account_type client)).
  assert (Hreg : sessions pending !! username args = Some c)
    by (subst pending; simpl; by rewrite lookup_insert_eq).
  assert (Hat : client_at pending c = client)
    by (unfold client_at, pending; simpl; by rewrite lookup_insert_eq).
  exists c, (String ch rest).
  split; [done|]. split; [exact Hreg|].
  split; [unfold is_connected; subst user; by rewrite Hreg, Hat|].
  split; [by rewrite Hat|]. split; [by rewrite Hat|].
  split.
  - intros tr now. cbn [resume]. rewrite Hreg, Hat.
    assert (Hset : forall a,
              IQOptionClient.awaiting_two_factor
                (IQOptionClient.set_account_type client a) = true
              /\ IQOptionClient.two_factor_message
                   (IQOptionClient.set_account_type client a)
                 = Some (String ch rest)) by (by intros a).
    destruct (account_type args) as [a|]; cbv zeta.
    + destruct (Hset a) as [-> ->]. done.
    + rewrite Haw, Hmsg. done.
  - intros code tr2 now2 reason2 balance Hc2 Hcb Hcheck Hbal Hpos.
    destruct (submit_accepted client code tr2 reason2 balance
                Haw Hapi Hc2 Hcb Hcheck Hbal Hpos)
      as (done' & Hsub & Hdc & _ & Hda).
    subst user. unfold complete_two_factor. rewrite Hreg, Hat, Hsub.
    cbn [fst snd]. rewrite Hacc. split; [done|].
    split.
    { unfold is_connected, client_at. simpl.
      rewrite (lookup_insert_eq (sessions self)). cbn beta iota.
      rewrite lookup_insert_eq. done. }
    split; [simpl; by rewrite lookup_insert_eq|].
    simpl. rewrite lookup_insert_eq. by rewrite Hda, Hacc.
Qed.

(** Alice logs in, naming no account type, over a transport that asks for
    a code by SMS, in an environment that names the real account. *)
Lemma two_factor_login_witness :
  let tr :=
    Transport.mk true (Py.Ok tt) (Py.Ok (false, Example.challenge))
      (fun _ => Py.Ok (true, Example.no_reason)) (Py.Ok tt)
      (Some (Py.Ok true)) (Py.Ok (Some (Example.price 100)))
      (fun _ => "error") (fun _ => "error")
      (Transport.mk_environ None None REAL) in
  let pending := snd (run_alone Example.alice Entry [(tr, 0); (tr, 0)] init) in
  fst (run_alone Example.alice Entry [(tr, 0); (tr, 0)] init)
  = Returned
      (false,
       "Verificacao SMS pendente. Informe o codigo recebido da IQ Option.")
  /\ fst (complete_two_factor pending "alice" "123456" tr 1)
     = (true, "Verificacao concluida! Conta REAL").
Proof.
  intros tr pending.
  destruct (two_factor_login Example.alice tr 0 tr 0 Example.challenge init)
    as (c & message & Hpc & Hreg & _ & _ & Hmsg & _ & Hdone).
  - reflexivity.
  - reflexivity.
  - reflexivity.
  - reflexivity.
  - by exists tt.
  - reflexivity.
  - reflexivity.
  - split.
    + etrans; [exact Hpc|]. vm_compute in Hreg. injection Hreg as <-.
      vm_compute in Hmsg. by injection Hmsg as <-.
    + destruct (Hdone "123456" tr 1 Example.no_reason (Example.price 100))
        as (Hres & _).
      * reflexivity.
      * by exists tt.
      * by right.
      * reflexivity.
      * vm_compute. discriminate.
      * exact Hres.
Defined.

End TwoFactorLogin.
